(** * audio2mp3: a shallow embedding of [audio2mp3.py]

    The program is a thin orchestrator around two external binaries
    ([ffmpeg], [ffprobe]).  Everything it decides itself is embedded
    here: path arithmetic ([pathlib] in its POSIX flavour, Python 3.12
    semantics of [suffix] / [stem] / [with_suffix]), the file system it
    inspects, the argument vectors it builds, how it reads exit codes
    and probe output, directory enumeration, and the exit code of
    [main].

    What the program cannot decide is kept as an oracle in [Env]: [run]
    gives the behaviour of [subprocess.run] for an argument vector on a
    file system, [which] the result of [shutil.which], and [encodes]
    the lines that the encoding of standard output can hold ([print]
    raises [UnicodeEncodeError] for the others).  Every call to
    [subprocess.run] is appended to [w_spawned], so that "the
    transcoder was (not) invoked" is a statement about that log.

    Strings are byte strings (UTF-8, whose byte order is the order of
    code points); [str.lower], [str.upper], [str.strip] and [int] act
    on ASCII.  Paths are taken as they are spelled: the file system
    maps spelled paths to what is there, without links and without
    resolving [..].  The checks [exists], [is_file] and [is_dir] are
    taken to answer: an [OSError] that [pathlib] re-raises (a name too
    long, a directory that may not be searched) is not represented. *)

From Stdlib Require Import Bool Arith NArith ZArith List Ascii String Lia.
From Stdlib Require Import Permutation Sorted DecimalString.
Import ListNotations.
Open Scope list_scope.
Open Scope string_scope.

(* ================================================================== *)
(** * Python strings *)
(* ================================================================== *)

Module PyStr.

Fixpoint map_chars (f : ascii -> ascii) (s : string) : string :=
  match s with
  | EmptyString => EmptyString
  | String c s' => String (f c) (map_chars f s')
  end.

Definition in_range (lo hi : N) (c : ascii) : bool :=
  let n := N_of_ascii c in (lo <=? n)%N && (n <=? hi)%N.

Definition lower_char (c : ascii) : ascii :=
  if in_range 65 90 c then ascii_of_N (N_of_ascii c + 32) else c.

Definition upper_char (c : ascii) : ascii :=
  if in_range 97 122 c then ascii_of_N (N_of_ascii c - 32) else c.

(** [s.lower()] and [s.upper()]. *)
Definition lower : string -> string := map_chars lower_char.
Definition upper : string -> string := map_chars upper_char.

(** [c.isspace()] on ASCII: TAB, LF, VT, FF, CR, FS, GS, RS, US and
    the blank. *)
Definition is_space (c : ascii) : bool :=
  in_range 9 13 c || in_range 28 32 c.

(** The white space that [int] itself skips: C's [isspace]. *)
Definition is_c_space (c : ascii) : bool :=
  in_range 9 13 c || in_range 32 32 c.

Fixpoint lstrip_by (blank : ascii -> bool) (s : string) : string :=
  match s with
  | EmptyString => EmptyString
  | String c s' => if blank c then lstrip_by blank s' else s
  end.

Fixpoint rstrip_by (blank : ascii -> bool) (s : string) : string :=
  match s with
  | EmptyString => EmptyString
  | String c s' =>
      let r := rstrip_by blank s' in
      if blank c && (r =? "") then "" else String c r
  end.

(** [s.strip()]. *)
Definition strip (s : string) : string :=
  rstrip_by is_space (lstrip_by is_space s).

(** [s.rfind(c)], with [None] for Python's [-1]. *)
Fixpoint rfind (c : ascii) (s : string) : option nat :=
  match s with
  | EmptyString => None
  | String a s' =>
      match rfind c s' with
      | Some i => Some (S i)
      | None => if Ascii.eqb a c then Some 0 else None
      end
  end.

(** [c in s] for a one-character [c]. *)
Fixpoint contains (c : ascii) (s : string) : bool :=
  match s with
  | EmptyString => false
  | String a s' => Ascii.eqb a c || contains c s'
  end.

(** [s.split(sep)] for a one-character separator. *)
Fixpoint split (sep : ascii) (s : string) : list string :=
  match s with
  | EmptyString => [""]
  | String c s' =>
      match split sep s' with
      | [] => [String c ""]
      | w :: ws => if Ascii.eqb c sep then "" :: w :: ws
                   else String c w :: ws
      end
  end.

(** [s.endswith(t)]. *)
Definition endswith (s t : string) : bool :=
  let n := String.length s in
  let m := String.length t in
  (m <=? n)%nat && (substring (n - m) m s =? t).

(** [s[:n]] and [s[n:]] for [0 <= n]. *)
Definition take (n : nat) (s : string) : string := substring 0 n s.
Definition drop (n : nat) (s : string) : string :=
  substring n (String.length s - n) s.

(** [str(n)] for a natural number. *)
Definition of_nat (n : nat) : string :=
  NilZero.string_of_uint (Nat.to_uint n).

(** [s * n]. *)
Fixpoint repeat (s : string) (n : nat) : string :=
  match n with
  | O => ""
  | S n' => s ++ repeat s n'
  end.

(** ** [int(s)]

    Base-ten integer literals as [int] reads them: surrounding white
    space, an optional sign, then digits in which single underscores
    may separate digits.  CPython refuses literals of more than
    [int_max_str_digits] digits with a [ValueError]. *)

Definition int_max_str_digits : N := 4300.

Definition is_digit (c : ascii) : bool := in_range 48 57 c.

Definition digit_value (c : ascii) : Z := Z.of_N (N_of_ascii c) - 48.

(** [sep_ok] is false right after an underscore and before the first
    digit: there neither an underscore nor the end may follow. *)
Fixpoint digits (acc : Z) (count : N) (sep_ok : bool) (s : string)
  : option (Z * N) :=
  match s with
  | EmptyString => if sep_ok then Some (acc, count) else None
  | String c s' =>
      if is_digit c
      then digits (10 * acc + digit_value c) (count + 1) true s'
      else if Ascii.eqb c "_" && sep_ok
           then digits acc count false s'
           else None
  end.

Definition unsigned_int (s : string) : option Z :=
  match digits 0 0 false s with
  | Some (v, count) =>
      if (count <=? int_max_str_digits)%N then Some v else None
  | None => None
  end.

(** [None] stands for the [ValueError] that [int] raises. *)
Definition int (s : string) : option Z :=
  match rstrip_by is_c_space (lstrip_by is_c_space s) with
  | String "+" rest => unsigned_int rest
  | String "-" rest => option_map Z.opp (unsigned_int rest)
  | t => unsigned_int t
  end.

(** [s.isascii()]: a text is held as the bytes of its UTF-8 form, and
    the ASCII characters are the bytes below 128. *)
Fixpoint is_ascii (s : string) : bool :=
  match s with
  | EmptyString => true
  | String c s' => (nat_of_ascii c <? 128)%nat && is_ascii s'
  end.

End PyStr.

(* ================================================================== *)
(** * [pathlib] paths, POSIX flavour *)
(* ================================================================== *)

(** A path is its tuple of [parts]: [PurePosixPath('/usr/bin').parts]
    is [('/', 'usr', 'bin')], and [Path('.')] has no parts. *)
Definition Path := list string.

Module PurePath.

Definition is_anchor (s : string) : bool := (s =? "/") || (s =? "//").

(** The root that [posixpath.splitroot] finds: exactly two leading
    slashes are kept, any other number collapses to one. *)
Definition anchor_of (s : string) : list string :=
  match s with
  | String "/" (String "/" (String "/" _)) => ["/"]
  | String "/" (String "/" _) => ["//"]
  | String "/" _ => ["/"]
  | _ => []
  end.

(** [Path(s)]: empty and [.] components are dropped. *)
Definition of_string (s : string) : Path :=
  (anchor_of s ++
   filter (fun c => negb (c =? "") && negb (c =? "."))
          (PyStr.split "/" s))%list.

(** [str(p)]. *)
Definition str (p : Path) : string :=
  match p with
  | [] => "."
  | a :: rest => if is_anchor a then a ++ String.concat "/" rest
                 else String.concat "/" p
  end.

Definition is_absolute (p : Path) : bool :=
  match p with
  | a :: _ => is_anchor a
  | [] => false
  end.

(** True of [Path('.')] and of a bare root. *)
Definition nameless (p : Path) : bool :=
  match p with
  | [] => true
  | [a] => is_anchor a
  | _ => false
  end.

(** [p.name]. *)
Definition name (p : Path) : string :=
  if nameless p then "" else last p "".

(** [p.parent]. *)
Definition parent (p : Path) : Path :=
  if nameless p then p else removelast p.

(** [p.suffix]: from the last dot of the name, unless that dot is the
    first or the last character. *)
Definition suffix (p : Path) : string :=
  let nm := name p in
  match PyStr.rfind "." nm with
  | Some i => if (0 <? i)%nat && (i <? String.length nm - 1)%nat
              then PyStr.drop i nm else ""
  | None => ""
  end.

(** [p.stem]. *)
Definition stem (p : Path) : string :=
  let nm := name p in
  match PyStr.rfind "." nm with
  | Some i => if (0 <? i)%nat && (i <? String.length nm - 1)%nat
              then PyStr.take i nm else nm
  | None => nm
  end.

(** [p / q] for a path [q]. *)
Definition joinpath (p q : Path) : Path :=
  if is_absolute q then q else (p ++ q)%list.

(** [p / s] for a string segment [s]. *)
Definition join_str (p : Path) (s : string) : Path :=
  joinpath p (of_string s).

(** [p.with_name(n)]; [None] is [ValueError]. *)
Definition with_name (p : Path) (n : string) : option Path :=
  if (name p =? "") || (n =? "") || PyStr.contains "/" n || (n =? ".")
  then None
  else Some (removelast p ++ [n])%list.

(** [p.with_suffix(s)]; [None] is [ValueError]. *)
Definition with_suffix (p : Path) (s : string) : option Path :=
  if PyStr.contains "/" s then None
  else if (negb (s =? "") && negb (String.prefix "." s)) || (s =? ".")
  then None
  else
    let nm := name p in
    if nm =? "" then None
    else
      let old := suffix p in
      let nm' := if old =? "" then nm ++ s
                 else PyStr.take (String.length nm - String.length old) nm
                      ++ s in
      with_name p nm'.

Fixpoint strip_prefix (pre p : Path) : option Path :=
  match pre, p with
  | [], _ => Some p
  | a :: pre', b :: p' => if a =? b then strip_prefix pre' p' else None
  | _ :: _, [] => None
  end.

(** [p.relative_to(base)]; [None] is [ValueError]. *)
Definition relative_to (p base : Path) : option Path :=
  match strip_prefix base p with
  | Some rest => if is_absolute rest then None else Some rest
  | None => None
  end.

Fixpoint eqb (p q : Path) : bool :=
  match p, q with
  | [], [] => true
  | a :: p', b :: q' => (a =? b) && eqb p' q'
  | _, _ => false
  end.

(** [p < q]: the sequences of parts are compared, parts by code point.
    (Python up to 3.11 compares [parts], 3.12 the string split at [/];
    the entries below one directory are ordered alike by both.) *)
Fixpoint ltb (p q : Path) : bool :=
  match p, q with
  | [], [] => false
  | [], _ :: _ => true
  | _ :: _, [] => false
  | a :: p', b :: q' =>
      match String.compare a b with
      | Lt => true
      | Gt => false
      | Eq => ltb p' q'
      end
  end.

(** A path component: not empty, no separator in it. *)
Definition plain (s : string) : Prop :=
  s <> "" /\ PyStr.contains "/" s = false.

(** [p < q], and [not (q < p)]. *)
Definition lt (p q : Path) : Prop := ltb p q = true.
Definition le (p q : Path) : Prop := ltb q p = false.

End PurePath.

(* ================================================================== *)
(** * Exceptions, the file system, the world *)
(* ================================================================== *)

Inductive ExnClass :=
| ValueError | FileNotFoundError | FileExistsError | NotADirectoryError
| PermissionError | UnicodeDecodeError | UnicodeEncodeError | RuntimeError
| KeyboardInterrupt.

(** An exception with its [str(e)]. *)
Record Exn := mkExn { exn_class : ExnClass; exn_msg : string }.

(** [isinstance(e, Exception)]: [KeyboardInterrupt] derives from
    [BaseException] only. *)
Definition is_Exception (e : Exn) : bool :=
  match exn_class e with
  | KeyboardInterrupt => false
  | _ => true
  end.

(** [isinstance(e, FileNotFoundError)]. *)
Definition is_FileNotFoundError (e : Exn) : bool :=
  match exn_class e with
  | FileNotFoundError => true
  | _ => false
  end.

Inductive Kind := File | Dir.

(** The file system: the entries that exist, in the order in which the
    operating system enumerates them.  The current directory and the
    roots always exist. *)
Definition FS := list (Path * Kind).

Module Fs.

Fixpoint lookup (fs : FS) (p : Path) : option Kind :=
  match fs with
  | [] => None
  | (q, k) :: rest => if PurePath.eqb q p then Some k else lookup rest p
  end.

Definition kind_of (fs : FS) (p : Path) : option Kind :=
  if PurePath.nameless p then Some Dir else lookup fs p.

(** [p.exists()], [p.is_dir()], [p.is_file()]. *)
Definition exists_ (fs : FS) (p : Path) : bool :=
  match kind_of fs p with Some _ => true | None => false end.

Definition is_dir (fs : FS) (p : Path) : bool :=
  match kind_of fs p with Some Dir => true | _ => false end.

Definition is_file (fs : FS) (p : Path) : bool :=
  match kind_of fs p with Some File => true | _ => false end.

(** [os.mkdir(p)]. *)
Definition os_mkdir (fs : FS) (p : Path) : Exn + FS :=
  match kind_of fs p with
  | Some _ => inl (mkExn FileExistsError ("File exists: " ++ PurePath.str p))
  | None =>
      match kind_of fs (PurePath.parent p) with
      | Some Dir => inr (fs ++ [(p, Dir)])%list
      | Some File =>
          inl (mkExn NotADirectoryError
                     ("Not a directory: " ++ PurePath.str p))
      | None =>
          inl (mkExn FileNotFoundError
                     ("No such file or directory: " ++ PurePath.str p))
      end
  end.

(** [p.mkdir(parents=True, exist_ok=True)] as [pathlib] writes it:
    try [os.mkdir]; when the parent is missing, make the parent first
    and try again; any other [OSError] is swallowed when [p] is a
    directory.  [fuel] bounds the climb towards the root. *)
Fixpoint mkdir_rec (fuel : nat) (fs : FS) (p : Path) : Exn + FS :=
  match os_mkdir fs p with
  | inr fs' => inr fs'
  | inl e =>
      if is_FileNotFoundError e then
        if PurePath.eqb (PurePath.parent p) p then inl e
        else
          match fuel with
          | O => inl e
          | S fuel' =>
              match mkdir_rec fuel' fs (PurePath.parent p) with
              | inl e' => inl e'
              | inr fs' =>
                  match os_mkdir fs' p with
                  | inr fs'' => inr fs''
                  | inl e' => if is_dir fs' p then inr fs' else inl e'
                  end
              end
          end
      else if is_dir fs p then inr fs else inl e
  end.

Definition mkdir_parents (fs : FS) (p : Path) : Exn + FS :=
  mkdir_rec (List.length p) fs p.

(** [dir.glob(pat)] for the two shapes of pattern the program builds:
    [**/*lit] matches every entry below [dir] whose name ends with
    [lit], [*lit] only the entries directly in [dir].  Matching is
    case-sensitive and does not set hidden names apart; an entry of
    any kind matches. *)
Definition glob (fs : FS) (dir : Path) (pat : string) : list Path :=
  if negb (is_dir fs dir) then []
  else if String.prefix "**/*" pat then
    filter (fun p =>
              match PurePath.relative_to p dir with
              | Some (_ :: _) =>
                  PyStr.endswith (PurePath.name p) (PyStr.drop 4 pat)
              | _ => false
              end) (map fst fs)
  else if String.prefix "*" pat then
    filter (fun p =>
              match PurePath.relative_to p dir with
              | Some [_] =>
                  PyStr.endswith (PurePath.name p) (PyStr.drop 1 pat)
              | _ => false
              end) (map fst fs)
  else [].

(** Every entry lies in a directory that exists. *)
Definition wf (fs : FS) : bool :=
  forallb (fun e => is_dir fs (PurePath.parent (fst e))) fs.

End Fs.

Inductive Stream := Stdout | Stderr.

(** The state a run acts on: the file system, the argument vector of
    every [subprocess.run] call so far (oldest first), and what was
    printed. *)
Record World := mkWorld {
  w_fs : FS;
  w_spawned : list (list string);
  w_console : list (Stream * string)
}.

(** [subprocess.CompletedProcess]. *)
Record CompletedProcess := mkCompleted {
  returncode : Z;
  stdout : string;
  stderr : string
}.

Inductive Outcome (A : Type) :=
| Return (a : A)
| Raise (e : Exn).
Arguments Return {A} a.
Arguments Raise {A} e.

(** What lies outside the program: how an external command behaves on a
    file system (it completes, or launching it raises), what
    [shutil.which] finds, and which texts the encoding of standard
    output can encode. *)
Record Env := mkEnv {
  run : list string -> FS -> Outcome CompletedProcess * FS;
  which : string -> option string;
  encodes : string -> bool
}.

(** ** State and exceptions *)

Definition M (A : Type) : Type := World -> Outcome A * World.

Definition ret {A} (a : A) : M A := fun w => (Return a, w).

Definition raise {A} (e : Exn) : M A := fun w => (Raise e, w).

Definition bind {A B} (m : M A) (k : A -> M B) : M B :=
  fun w =>
    match m w with
    | (Return a, w') => k a w'
    | (Raise e, w') => (Raise e, w')
    end.

Notation "x <- m ;; k" := (bind m (fun x => k))
  (at level 61, m at next level, right associativity).
Notation "m ;;; k" := (bind m (fun _ => k))
  (at level 61, right associativity).

(** [try: m except <catches>: handler]. *)
Definition try_except {A} (m : M A) (catches : Exn -> bool)
           (handler : Exn -> M A) : M A :=
  fun w =>
    match m w with
    | (Raise e, w') => if catches e then handler e w' else (Raise e, w')
    | r => r
    end.

Definition path_exists (p : Path) : M bool :=
  fun w => (Return (Fs.exists_ (w_fs w) p), w).

Definition path_is_dir (p : Path) : M bool :=
  fun w => (Return (Fs.is_dir (w_fs w) p), w).

Definition path_is_file (p : Path) : M bool :=
  fun w => (Return (Fs.is_file (w_fs w) p), w).

Definition get_fs : M FS := fun w => (Return (w_fs w), w).

Definition path_mkdir_parents (p : Path) : M unit :=
  fun w =>
    match Fs.mkdir_parents (w_fs w) p with
    | inr fs' => (Return tt, mkWorld fs' (w_spawned w) (w_console w))
    | inl e => (Raise e, w)
    end.

(** Whether [s] can be written to [f].  Standard error replaces what it
    cannot encode ([errors='backslashreplace']); standard output is
    strict, and its encoding holds ASCII at least. *)
Definition can_print (env : Env) (f : Stream) (s : string) : bool :=
  match f with
  | Stderr => true
  | Stdout => PyStr.is_ascii s || encodes env s
  end.

(** [print(s)] and [print(s, file=sys.stderr)]: the line is written, or
    [UnicodeEncodeError] is raised and nothing is written. *)
Definition print_to (env : Env) (f : Stream) (s : string) : M unit :=
  fun w =>
    if can_print env f s
    then (Return tt,
          mkWorld (w_fs w) (w_spawned w) (w_console w ++ [(f, s)])%list)
    else (Raise (mkExn UnicodeEncodeError
                       "codec can't encode characters"), w).

Definition print (env : Env) : string -> M unit := print_to env Stdout.

(** [subprocess.run(cmd, stdout=PIPE, stderr=PIPE, text=True)]: the call
    is logged whether or not the process could be launched. *)
Definition subprocess_run (env : Env) (cmd : list string)
  : M CompletedProcess :=
  fun w =>
    let (o, fs') := run env cmd (w_fs w) in
    (o, mkWorld fs' (w_spawned w ++ [cmd])%list (w_console w)).

(** A value of a method that may raise [ValueError]. *)
Definition or_value_error {A} (o : option A) (msg : string) : M A :=
  match o with
  | Some a => ret a
  | None => raise (mkExn ValueError msg)
  end.

(* ================================================================== *)
(** * The converter *)
(* ================================================================== *)

(** [SUPPORTED_FORMATS], in the order of the source text.  Python
    iterates the set in an order that depends on string hashing; no
    statement below relies on the order of this list. *)
Definition SUPPORTED_FORMATS : list string :=
  [".mp3"; ".wav"; ".flac"; ".m4a"; ".aac"; ".ogg";
   ".opus"; ".wma"; ".aiff"; ".ape"; ".ac3"; ".mp2"].

(** [s in formats]. *)
Definition mem (s : string) (formats : list string) : bool :=
  existsb (String.eqb s) formats.

(** The attributes of an [AudioConverter]. *)
Record AudioConverter := mkConverter {
  output_dir : option string;
  overwrite : bool;
  keep_structure : bool
}.

(** An optional string under Python's truth test: [None] and [''] are
    both false, so both come out as [None]. *)
Definition nonempty (o : option string) : option string :=
  match o with
  | Some s => if s =? "" then None else Some s
  | None => None
  end.

Definition newline : string := String (ascii_of_N 10) "".

Definition ffmpeg_missing : string :=
  "ffmpeg not found. Please install ffmpeg:" ++ newline
  ++ "  Ubuntu/Debian: sudo apt-get install ffmpeg" ++ newline
  ++ "  macOS: brew install ffmpeg" ++ newline
  ++ "  Windows: Download from https://ffmpeg.org/download.html".

Definition _check_ffmpeg (env : Env) : M unit :=
  match nonempty (which env "ffmpeg") with
  | Some _ => ret tt
  | None => raise (mkExn RuntimeError ffmpeg_missing)
  end.

(** [AudioConverter(output_dir, overwrite, keep_structure)]. *)
Definition new_converter (env : Env) (out : option string)
           (ovw keep : bool) : M AudioConverter :=
  _check_ffmpeg env ;;;
  ret (mkConverter out ovw keep).

Definition ffprobe_cmd (file_path : Path) : list string :=
  ["ffprobe"; "-v"; "error"; "-show_entries"; "format=bit_rate";
   "-of"; "default=noprint_wrappers=1:nokey=1"; PurePath.str file_path].

(** What [_get_bitrate] makes of a probe that completed: the bit rate
    in kbit/s, or [ValueError] from [int]. *)
Definition read_bitrate (result : CompletedProcess) : M (option Z) :=
  if (returncode result =? 0)%Z && negb (PyStr.strip (stdout result) =? "")
  then
    n <- or_value_error (PyStr.int (PyStr.strip (stdout result)))
                        "invalid literal for int()" ;;
    ret (Some (n / 1000)%Z)
  else ret None.

(** [_get_bitrate]: the bare [except] swallows whatever is raised. *)
Definition _get_bitrate (env : Env) (file_path : Path) : M (option Z) :=
  try_except
    (result <- subprocess_run env (ffprobe_cmd file_path) ;;
     read_bitrate result)
    (fun _ => true)
    (fun _ => ret None).

(** [bitrate and bitrate >= 320]. *)
Definition at_target (bitrate : option Z) : bool :=
  match bitrate with
  | Some k => negb (k =? 0)%Z && (320 <=? k)%Z
  | None => false
  end.

(** [Path(root) / f"{audio_file.stem}.mp3"] (lines 70 and 194). *)
Definition flattened_path (root : string) (audio_file : Path) : Path :=
  PurePath.join_str (PurePath.of_string root)
                    (PurePath.stem audio_file ++ ".mp3").

(** Lines 67-74 of the source: where the output goes. *)
Definition derive_output_path (self : AudioConverter) (input_path : Path)
           (output_path : option Path) : M Path :=
  match output_path with
  | None =>
      match nonempty (output_dir self) with
      | Some d => ret (flattened_path d input_path)
      | None =>
          or_value_error (PurePath.with_suffix input_path ".mp3")
                         "with_suffix"
      end
  | Some p => ret p
  end.

Definition ffmpeg_cmd (self : AudioConverter) (input_path output_path : Path)
  : list string :=
  (["ffmpeg"; "-i"; PurePath.str input_path; "-vn"; "-ar"; "44100";
    "-ac"; "2"; "-b:a"; "320k"; "-map"; "a"; "-map_metadata"; "0";
    "-id3v2_version"; "3"]
   ++ (if overwrite self then ["-y"] else [])
   ++ [PurePath.str output_path])%list.

Definition msg_not_found (input_path : Path) : string :=
  "Input file not found: " ++ PurePath.str input_path.
Definition msg_unsupported (input_path : Path) : string :=
  "Unsupported format: " ++ PurePath.suffix input_path.
Definition msg_already_320 (input_path : Path) : string :=
  "Skipped (already 320kbps): " ++ PurePath.name input_path.
Definition msg_file_exists (output_path : Path) : string :=
  "Skipped (file exists): " ++ PurePath.name output_path.
Definition msg_converted (input_path output_path : Path) : string :=
  "Converted: " ++ PurePath.name input_path ++ " → "
  ++ PurePath.name output_path.
Definition msg_failed (input_path : Path) (err : string) : string :=
  "Conversion failed: " ++ PurePath.name input_path ++ newline ++ err.
Definition msg_error (input_path : Path) (e : Exn) : string :=
  "Error converting " ++ PurePath.name input_path ++ ": " ++ exn_msg e.

(** Lines 81-86 of the source: the output is there and is not to be
    overwritten.  Only an [.mp3] input is probed. *)
Definition skip_existing (env : Env) (input_path output_path : Path)
  : M (bool * string) :=
  if PyStr.lower (PurePath.suffix input_path) =? ".mp3" then
    bitrate <- _get_bitrate env input_path ;;
    if at_target bitrate
    then ret (false, msg_already_320 input_path)
    else ret (false, msg_file_exists output_path)
  else ret (false, msg_file_exists output_path).

(** Lines 88-128 of the source: run the transcoder and read its exit
    status; [except Exception] catches what launching it raises. *)
Definition transcode (env : Env) (self : AudioConverter)
           (input_path output_path : Path) : M (bool * string) :=
  try_except
    (result <- subprocess_run env
                 (ffmpeg_cmd self input_path output_path) ;;
     if (returncode result =? 0)%Z
     then ret (true, msg_converted input_path output_path)
     else ret (false, msg_failed input_path (stderr result)))
    is_Exception
    (fun e => ret (false, msg_error input_path e)).

(** [AudioConverter.convert_file]. *)
Definition convert_file (env : Env) (self : AudioConverter)
           (input_path : Path) (output_path : option Path)
  : M (bool * string) :=
  found <- path_exists input_path ;;
  if negb found then ret (false, msg_not_found input_path)
  else if negb (mem (PyStr.lower (PurePath.suffix input_path))
                    SUPPORTED_FORMATS)
  then ret (false, msg_unsupported input_path)
  else
    output_path <- derive_output_path self input_path output_path ;;
    path_mkdir_parents (PurePath.parent output_path) ;;;
    present <- path_exists output_path ;;
    if present && negb (overwrite self)
    then skip_existing env input_path output_path
    else transcode env self input_path output_path.

(** ** Enumerating a directory *)

(** Lines 168-172: for every extension, the matches of the pattern with
    the extension as written and in upper case.  [glob] is the
    directory's [glob] method. *)
Fixpoint collect_audio_files (glob : string -> list Path)
         (formats : list string) (pattern : string) : list Path :=
  match formats with
  | [] => []
  | ext :: rest =>
      (glob (pattern ++ ext)%string
       ++ glob (pattern ++ PyStr.upper ext)%string
       ++ collect_audio_files glob rest pattern)%list
  end.

(** [set(l)], iterated in order of first occurrence.  Python iterates a
    set in hash order; [sorted] erases that order
    ([sorted_set_same_elements]). *)
Fixpoint py_set (l : list Path) : list Path :=
  match l with
  | [] => []
  | p :: rest => p :: filter (fun q => negb (PurePath.eqb p q)) (py_set rest)
  end.

(** [sorted(l)]: a stable sort that only asks [<]. *)
Fixpoint insert_sorted (p : Path) (l : list Path) : list Path :=
  match l with
  | [] => [p]
  | q :: rest => if PurePath.ltb q p then q :: insert_sorted p rest
                 else p :: q :: rest
  end.

Fixpoint sorted (l : list Path) : list Path :=
  match l with
  | [] => []
  | p :: rest => insert_sorted p (sorted rest)
  end.

Definition glob_pattern (recursive : bool) : string :=
  if recursive then "**/*" else "*".

(** Lines 167-178 without the emptiness test: the sequence that
    [convert_directory] walks. *)
Definition candidate_files (glob : string -> list Path)
           (formats : list string) (recursive : bool) : list Path :=
  sorted (py_set (collect_audio_files glob formats (glob_pattern recursive))).

(** Lines 186-196 of the source: where the output of a candidate goes. *)
Definition directory_output_path (self : AudioConverter)
           (input_dir : Path) (recursive : bool) (audio_file : Path)
  : M Path :=
  match nonempty (output_dir self) with
  | Some d =>
      if keep_structure self && recursive then
        rel_path <- or_value_error
                      (PurePath.relative_to audio_file input_dir)
                      "relative_to" ;;
        rel_mp3 <- or_value_error (PurePath.with_suffix rel_path ".mp3")
                                  "with_suffix" ;;
        ret (PurePath.joinpath (PurePath.of_string d) rel_mp3)
      else ret (flattened_path d audio_file)
  | None =>
      or_value_error (PurePath.with_suffix audio_file ".mp3") "with_suffix"
  end.

(** The body of the loop of [convert_directory], for the [i]-th of
    [total] candidates. *)
Definition convert_candidate (env : Env) (self : AudioConverter)
           (input_dir : Path) (recursive : bool) (total i : nat)
           (audio_file : Path) : M (bool * string) :=
  print env ("[" ++ PyStr.of_nat i ++ "/" ++ PyStr.of_nat total
             ++ "] Processing: " ++ PurePath.name audio_file) ;;;
  output_path <- directory_output_path self input_dir recursive audio_file ;;
  r <- convert_file env self audio_file (Some output_path) ;;
  print env ("  → " ++ snd r) ;;;
  ret r.

Fixpoint convert_each (env : Env) (self : AudioConverter)
         (input_dir : Path) (recursive : bool) (total i : nat)
         (files : list Path) : M (list (bool * string)) :=
  match files with
  | [] => ret []
  | audio_file :: rest =>
      r <- convert_candidate env self input_dir recursive total i
                             audio_file ;;
      rs <- convert_each env self input_dir recursive total (S i) rest ;;
      ret (r :: rs)
  end.

(** [AudioConverter.convert_directory]. *)
Definition convert_directory (env : Env) (self : AudioConverter)
           (input_dir : Path) (recursive : bool)
  : M (list (bool * string)) :=
  found <- path_exists input_dir ;;
  if negb found
  then ret [(false, "Directory not found: " ++ PurePath.str input_dir)]
  else
    is_d <- path_is_dir input_dir ;;
    if negb is_d
    then ret [(false, "Not a directory: " ++ PurePath.str input_dir)]
    else
      fs <- get_fs ;;
      let glob := Fs.glob fs input_dir in
      match collect_audio_files glob SUPPORTED_FORMATS
                                (glob_pattern recursive) with
      | [] =>
          ret [(false, "No audio files found in: "
                       ++ PurePath.str input_dir)]
      | _ :: _ =>
          let audio_files :=
            candidate_files glob SUPPORTED_FORMATS recursive in
          print env (newline ++ "Found "
                     ++ PyStr.of_nat (List.length audio_files)
                     ++ " audio file(s) to convert..." ++ newline) ;;;
          convert_each env self input_dir recursive
                       (List.length audio_files) 1 audio_files
      end.

(** ** The command line *)

(** The parsed arguments. *)
Record Args := mkArgs {
  arg_input : string;
  arg_output : option string;
  arg_overwrite : bool;
  arg_no_recursive : bool;
  arg_no_structure : bool
}.

Definition print_summary (env : Env) (results : list (bool * string))
  : M unit :=
  let successful := List.length (filter fst results) in
  let failed := List.length results - successful in
  print env (newline ++ PyStr.repeat "=" 60) ;;;
  print env "Conversion Summary:" ;;;
  print env ("  Total files: " ++ PyStr.of_nat (List.length results)) ;;;
  print env ("  Successful: " ++ PyStr.of_nat successful) ;;;
  print env ("  Failed/Skipped: " ++ PyStr.of_nat failed) ;;;
  print env (PyStr.repeat "=" 60).

(** [main], returning the status it hands to [sys.exit]. *)
Definition main (env : Env) (args : Args) : M Z :=
  converter <- new_converter env (arg_output args) (arg_overwrite args)
                             (negb (arg_no_structure args)) ;;
  let input_path := PurePath.of_string (arg_input args) in
  is_f <- path_is_file input_path ;;
  if is_f then
    let output_path :=
      option_map PurePath.of_string (nonempty (arg_output args)) in
    r <- convert_file env converter input_path output_path ;;
    print env (snd r) ;;;
    ret (if fst r then 0%Z else 1%Z)
  else
    is_d <- path_is_dir input_path ;;
    if is_d then
      results <- convert_directory env converter input_path
                                   (negb (arg_no_recursive args)) ;;
      print_summary env results ;;;
      let successful := List.length (filter fst results) in
      let failed := List.length results - successful in
      ret (if (failed =? 0)%nat then 0%Z else 1%Z)
    else
      print_to env Stderr ("Error: Input path does not exist: "
                           ++ PurePath.str input_path) ;;;
      ret 1%Z.

(* ================================================================== *)
(** * Vocabulary of the statements *)
(* ================================================================== *)

(** A call of [subprocess.run] that starts the transcoder. *)
Definition invokes_transcoder (cmd : list string) : bool :=
  match cmd with
  | prog :: _ => prog =? "ffmpeg"
  | [] => false
  end.

(** A result that reports a skip. *)
Definition is_skip (r : bool * string) : bool :=
  negb (fst r) && String.prefix "Skipped (" (snd r).

(** The decision to skip, as [convert_file] takes it at line 80: the
    output path and the file system on which it finds the output in
    place, when it does and [overwrite] is off.  It reads the paths and
    the file system; no external command enters into it. *)
Definition skip_decision (self : AudioConverter) (input_path : Path)
           (o : option Path) (w : World) : option (Path * FS) :=
  if Fs.exists_ (w_fs w) input_path
     && mem (PyStr.lower (PurePath.suffix input_path)) SUPPORTED_FORMATS
  then
    match fst (derive_output_path self input_path o w) with
    | Return out =>
        match Fs.mkdir_parents (w_fs w) (PurePath.parent out) with
        | inr fs1 =>
            if Fs.exists_ fs1 out && negb (overwrite self)
            then Some (out, fs1)
            else None
        | inl _ => None
        end
    | Raise _ => None
    end
  else None.

(** What [_get_bitrate] returns for an outcome of the probe. *)
Definition probe_reading (po : Outcome CompletedProcess) : option Z :=
  match po with
  | Return c =>
      if (returncode c =? 0)%Z && negb (PyStr.strip (stdout c) =? "")
      then option_map (fun n => (n / 1000)%Z)
                      (PyStr.int (PyStr.strip (stdout c)))
      else None
  | Raise _ => None
  end.

(** The probe of [file_path] on [fs] completes with status 0 and prints
    an integer number of bit/s that is at least [kbps] kbit/s. *)
Definition probe_reports_at_least (env : Env) (file_path : Path) (fs : FS)
           (kbps : Z) : Prop :=
  exists c n,
    fst (run env (ffprobe_cmd file_path) fs) = Return c /\
    returncode c = 0%Z /\
    PyStr.int (PyStr.strip (stdout c)) = Some n /\
    (kbps <= n / 1000)%Z.

(** The world after [calls] were made and the file system became [fs]. *)
Definition after (w : World) (fs : FS) (calls : list (list string))
  : World :=
  mkWorld fs (w_spawned w ++ calls)%list (w_console w).

(** No external command makes [p] disappear. *)
Definition never_removes (env : Env) (p : Path) : Prop :=
  forall cmd fs,
    Fs.exists_ fs p = true -> Fs.exists_ (snd (run env cmd fs)) p = true.

(** A transcoder run for the output [out] that exits with status 0 has
    written [out]. *)
Definition writes_output (env : Env) (self : AudioConverter) (out : Path)
  : Prop :=
  forall input_path fs c,
    fst (run env (ffmpeg_cmd self input_path out) fs) = Return c ->
    returncode c = 0%Z ->
    Fs.exists_ (snd (run env (ffmpeg_cmd self input_path out) fs)) out
    = true.

(** [m] keeps the property [P] of worlds. *)
Definition keeps {A} (P : World -> Prop) (m : M A) : Prop :=
  forall w, P w -> P (snd (m w)).

(* ================================================================== *)
(** * Sample worlds *)
(* ================================================================== *)

Module Sample.

(** A transcoder that writes its output file and exits with status 0,
    and a probe that prints [bit_rate]; no other program is installed. *)
Definition run_ok (bit_rate : string) (cmd : list string) (fs : FS)
  : Outcome CompletedProcess * FS :=
  match cmd with
  | prog :: args =>
      if prog =? "ffmpeg" then
        let out := PurePath.of_string (last args "") in
        (Return (mkCompleted 0 "" ""),
         if Fs.exists_ fs out then fs else (fs ++ [(out, File)])%list)
      else if prog =? "ffprobe" then
        (Return (mkCompleted 0 (bit_rate ++ newline) ""), fs)
      else
        (Raise (mkExn FileNotFoundError "No such file or directory"), fs)
  | [] => (Raise (mkExn ValueError "empty command"), fs)
  end.

(** A transcoder that rejects its input. *)
Definition run_rejecting (cmd : list string) (fs : FS)
  : Outcome CompletedProcess * FS :=
  (Return (mkCompleted 1 "" "Invalid data found when processing input"),
   fs).

(** No program can be launched. *)
Definition run_missing (cmd : list string) (fs : FS)
  : Outcome CompletedProcess * FS :=
  (Raise (mkExn FileNotFoundError "No such file or directory: 'ffmpeg'"),
   fs).

Definition installed (prog : string) : option string :=
  Some ("/usr/bin/" ++ prog).

(** A console that encodes every text, as one in UTF-8 does. *)
Definition utf8_console (s : string) : bool := true.

Definition env (bit_rate : string) : Env :=
  mkEnv (run_ok bit_rate) installed utf8_console.
Definition env_rejecting : Env := mkEnv run_rejecting installed utf8_console.
Definition env_missing : Env := mkEnv run_missing installed utf8_console.

(** A music directory [A] and an output directory [B]. *)
Definition fs : FS :=
  [ (["A"], Dir); (["A"; "sub2"], Dir); (["A"; "sub1"], Dir);
    (["A"; "sub2"; "x.mp3"], File); (["A"; "sub1"; "x.flac"], File);
    (["A"; "y.WAV"], File); (["A"; "y.mp3"], File);
    (["A"; "notes.txt"], File); (["A"; "notes.mp3"], File);
    (["B"], Dir) ].

Definition world : World := mkWorld fs [] [].

(** A directory with hidden entries, a directory named like an audio
    file, and mixed-case extensions. *)
Definition fs_tree : FS :=
  [ (["A"], Dir); (["A"; "sub1"], Dir); (["A"; "sub2"], Dir);
    (["A"; ".hid"], Dir); (["A"; "album.wav"], Dir); (["B"], Dir);
    (["A"; "sub1"; "x.flac"], File); (["A"; "sub2"; "x.mp3"], File);
    (["A"; "y.WAV"], File); (["A"; "y.Wav"], File); (["A"; ".wav"], File);
    (["A"; ".hid"; "z.wav"], File); (["A"; "notes.txt"], File);
    (["A"; "album.wav"; "t.txt"], File); (["A"; "q.tar.wav"], File) ].

(** The class of the exception, if any, that making [p] raises. *)
Definition mkdir_error (fs : FS) (p : Path) : option ExnClass :=
  match Fs.mkdir_parents fs p with
  | inl e => Some (exn_class e)
  | inr _ => None
  end.

(** Two files with the stem [x], and an empty output directory. *)
Definition fs_pair : FS :=
  [ (["A"], Dir); (["A"; "sub1"], Dir); (["A"; "sub2"], Dir);
    (["A"; "sub2"; "x.mp3"], File); (["A"; "sub1"; "x.flac"], File);
    (["B"], Dir) ].

Definition world_pair : World := mkWorld fs_pair [] [].

(** Everything goes into [B], flat; [overwrite] as given. *)
Definition flat_into_B (ovw : bool) : AudioConverter :=
  mkConverter (Some "B") ovw false.

(** A [glob] that matches names without regard to case, as on a
    platform whose paths are case-insensitive: there a file is found
    under both spellings of its extension. *)
Definition glob_ignoring_case (dir : Path) (pat : string) : list Path :=
  filter (fun p =>
            match PurePath.relative_to p dir with
            | Some (_ :: _) =>
                PyStr.endswith (PyStr.lower (PurePath.name p))
                               (PyStr.lower (PyStr.drop 4 pat))
            | _ => false
            end) (map fst fs).

(** The same directory enumerated backwards, each match met twice. *)
Definition glob_backwards (dir : Path) (pat : string) : list Path :=
  (rev (Fs.glob fs dir pat) ++ Fs.glob fs dir pat)%list.

Definition in_place : AudioConverter := mkConverter None false true.

End Sample.

(* ================================================================== *)
(** * Vocabulary of the further statements *)
(* ================================================================== *)

(** No entry's name holds a separator. *)
Definition names_plain (fs : FS) : bool :=
  forallb (fun e => negb (PyStr.contains "/" (PurePath.name (fst e)))) fs.

(** [p] lies strictly below [dir], and directly in it when [recursive]
    is off. *)
Definition below (dir : Path) (recursive : bool) (p : Path) : bool :=
  match PurePath.relative_to p dir with
  | Some [_] => true
  | Some (_ :: _ :: _) => recursive
  | _ => false
  end.

(** The name ends with one of the formats, as written or in upper
    case. *)
Definition audio_name (n : string) : bool :=
  existsb (fun ext => PyStr.endswith n ext
                      || PyStr.endswith n (PyStr.upper ext))
          SUPPORTED_FORMATS.

(** The name is nothing but one of the formats, as written or in upper
    case: a hidden file such as [.wav]. *)
Definition bare_extension (n : string) : bool :=
  existsb (fun ext => (n =? ext) || (n =? PyStr.upper ext))
          SUPPORTED_FORMATS.

(** The flat mode of [convert_directory]: an output directory is given
    and the structure is not kept. *)
Definition flat_mode (self : AudioConverter) (recursive : bool) : bool :=
  match nonempty (output_dir self) with
  | Some _ => negb (keep_structure self && recursive)
  | None => false
  end.

(** External commands leave the file system well formed. *)
Definition keeps_well_formed (env : Env) : Prop :=
  forall cmd fs, Fs.wf fs = true -> Fs.wf (snd (run env cmd fs)) = true.

(** Launching an external command raises nothing but [Exception]s. *)
Definition raises_only_exceptions (env : Env) : Prop :=
  forall cmd fs e, fst (run env cmd fs) = Raise e -> is_Exception e = true.

Module Cases.

(** A machine without [ffmpeg]. *)
Definition env_uninstalled : Env :=
  mkEnv (Sample.run_ok "128000") (fun _ => None) Sample.utf8_console.



(** A console that encodes nothing but ASCII. *)
Definition env_ascii_console : Env :=
  mkEnv (Sample.run_ok "128000") Sample.installed (fun _ => false).

(** A directory whose only audio file has a mixed-case extension. *)
Definition fs_mixed_case : FS :=
  [ (["A"], Dir); (["A"; "y.Wav"], File); (["A"; "notes.txt"], File) ].

Definition world_mixed_case : World := mkWorld fs_mixed_case [] [].



(** The place of the second output, [B/sub], is taken by a file. *)
Definition fs_half_blocked : FS :=
  [ (["A"], Dir); (["A"; "a.wav"], File); (["A"; "sub"], Dir);
    (["A"; "sub"; "x.flac"], File); (["A"; "z.wav"], File);
    (["B"], Dir); (["B"; "sub"], File) ].

Definition world_half_blocked : World := mkWorld fs_half_blocked [] [].

(** Everything goes below [B], at the place it has below the input
    directory. *)
Definition mirror_into_B : AudioConverter := mkConverter (Some "B") false true.

End Cases.

(* ================================================================== *)
(** * Sanity checks of the embedding *)
(* ================================================================== *)

Example py_int_examples :
  PyStr.int "320000" = Some 320000%Z /\
  PyStr.int " 128_000 " = Some 128000%Z /\
  PyStr.int "-5" = Some (-5)%Z /\
  PyStr.int "N/A" = None /\
  PyStr.int "1__0" = None /\
  PyStr.int "_1" = None /\
  PyStr.int "1_" = None /\
  PyStr.int "+-1" = None /\
  PyStr.int "0012" = Some 12%Z /\
  PyStr.int (String (ascii_of_N 28) "12") = None /\
  PyStr.int (PyStr.strip (String (ascii_of_N 28) "12")) = Some 12%Z /\
  PyStr.int "" = None.
Proof. repeat split; reflexivity. Qed.

Example path_examples :
  PurePath.of_string "/music//a/./x.tar.WAV" = ["/"; "music"; "a"; "x.tar.WAV"] /\
  PurePath.suffix ["a"; "x.tar.WAV"] = ".WAV" /\
  PurePath.stem ["a"; "x.tar.WAV"] = "x.tar" /\
  PurePath.suffix ["a"; ".wav"] = "" /\
  PurePath.suffix ["a"; "x."] = "" /\
  PurePath.with_suffix ["a"; "x.tar.WAV"] ".mp3" = Some ["a"; "x.tar.mp3"] /\
  PurePath.with_suffix ["a"; ".wav"] ".mp3" = Some ["a"; ".wav.mp3"] /\
  PurePath.with_suffix [] ".mp3" = None /\
  PurePath.str ["/"; "music"; "x.wav"] = "/music/x.wav" /\
  PurePath.str [] = "." /\
  PurePath.parent ["x.wav"] = [] /\
  PurePath.relative_to ["A"; "sub"; "x.wav"] ["A"] = Some ["sub"; "x.wav"] /\
  PyStr.lower ".WaV" = ".wav" /\
  PyStr.upper ".m4a" = ".M4A" /\
  PyStr.of_nat 12 = "12" /\ PyStr.of_nat 0 = "0".
Proof. repeat split; reflexivity. Qed.

Example glob_examples :
  sorted (Fs.glob Sample.fs_tree ["A"] "**/*.wav")
  = [["A"; ".hid"; "z.wav"]; ["A"; ".wav"]; ["A"; "album.wav"];
     ["A"; "q.tar.wav"]] /\
  Fs.glob Sample.fs_tree ["A"] "**/*.WAV" = [["A"; "y.WAV"]] /\
  sorted (Fs.glob Sample.fs_tree ["A"] "*.wav")
  = [["A"; ".wav"]; ["A"; "album.wav"]; ["A"; "q.tar.wav"]] /\
  Fs.glob Sample.fs_tree [] "**/*.mp3" = [["A"; "sub2"; "x.mp3"]] /\
  Fs.glob Sample.fs_tree ["nowhere"] "**/*.wav" = [] /\
  Fs.glob Sample.fs_tree ["A"; "notes.txt"] "*.wav" = [].
Proof. repeat split; reflexivity. Qed.

Example mkdir_examples :
  Fs.mkdir_parents Sample.fs_tree ["B"; "new"; "deeper"]
  = inr (Sample.fs_tree
         ++ [(["B"; "new"], Dir); (["B"; "new"; "deeper"], Dir)])%list /\
  Fs.mkdir_parents Sample.fs_tree ["B"] = inr Sample.fs_tree /\
  Fs.mkdir_parents Sample.fs_tree [] = inr Sample.fs_tree /\
  Fs.mkdir_parents Sample.fs_tree ["/"] = inr Sample.fs_tree /\
  Sample.mkdir_error Sample.fs_tree ["A"; "notes.txt"; "sub"]
  = Some NotADirectoryError /\
  Sample.mkdir_error Sample.fs_tree ["A"; "notes.txt"]
  = Some FileExistsError /\
  Fs.wf Sample.fs_tree = true.
Proof. repeat split; reflexivity. Qed.

(* ================================================================== *)
(** * Facts about strings and paths *)
(* ================================================================== *)

Module PathFacts.

Import PurePath.

Lemma length_append (a b : string) :
  String.length (a ++ b) = String.length a + String.length b.
Proof. induction a as [|c a IH]; simpl; [reflexivity | now rewrite IH]. Qed.

Lemma append_nonempty_r (a b : string) : b <> "" -> a ++ b <> "".
Proof.
  intros Hb H. apply (f_equal String.length) in H.
  rewrite length_append in H. simpl in H.
  destruct b; [now apply Hb | simpl in H; lia].
Qed.

Lemma contains_append (c : ascii) (a b : string) :
  PyStr.contains c (a ++ b) = PyStr.contains c a || PyStr.contains c b.
Proof.
  induction a as [|x a IH]; simpl; [reflexivity|].
  now rewrite IH, orb_assoc.
Qed.

Lemma contains_substring (c : ascii) (s : string) :
  PyStr.contains c s = false ->
  forall n m, PyStr.contains c (substring n m s) = false.
Proof.
  induction s as [|x s IH]; intros H n m.
  - destruct n, m; reflexivity.
  - simpl in H. apply orb_false_iff in H. destruct H as [Hx Hs].
    destruct n as [|n]; simpl.
    + destruct m as [|m]; simpl; [reflexivity|].
      rewrite Hx. simpl. apply (IH Hs 0 m).
    + apply (IH Hs).
Qed.

Lemma length_substring (s : string) :
  forall n m, n + m <= String.length s ->
              String.length (substring n m s) = m.
Proof.
  induction s as [|x s IH]; intros n m H; simpl in H.
  - assert (n = 0) by lia. assert (m = 0) by lia. subst. reflexivity.
  - destruct n as [|n]; simpl.
    + destruct m as [|m]; simpl; [reflexivity|].
      f_equal. apply (IH 0 m). lia.
    + apply IH. lia.
Qed.

Lemma rfind_lt (c : ascii) (s : string) (i : nat) :
  PyStr.rfind c s = Some i -> i < String.length s.
Proof.
  revert i. induction s as [|x s IH]; intros i H; simpl in H.
  - discriminate.
  - destruct (PyStr.rfind c s) as [j|].
    + inversion H; subst. specialize (IH j eq_refl). simpl. lia.
    + destruct (Ascii.eqb x c); inversion H; subst. simpl. lia.
Qed.

Lemma plain_not_anchor (s : string) : plain s -> is_anchor s = false.
Proof.
  intros [_ H]. unfold is_anchor.
  destruct (String.eqb_spec s "/") as [->|_]; [discriminate H|].
  destruct (String.eqb_spec s "//") as [->|_]; [discriminate H|].
  reflexivity.
Qed.

Lemma split_slash_free (s : string) :
  PyStr.contains "/" s = false -> PyStr.split "/" s = [s].
Proof.
  induction s as [|x s IH]; intro H; simpl; [reflexivity|].
  simpl in H. apply orb_false_iff in H. destruct H as [Hx Hs].
  rewrite (IH Hs), Hx. reflexivity.
Qed.

Lemma of_string_plain (s : string) :
  plain s -> s <> "." -> of_string s = [s].
Proof.
  intros [Hne Hs] Hdot. unfold of_string.
  rewrite (split_slash_free s Hs). simpl.
  destruct (String.eqb_spec s "") as [E|_]; [contradiction|].
  destruct (String.eqb_spec s ".") as [E|_]; [contradiction|].
  simpl. destruct s as [|x s]; [reflexivity|].
  simpl in Hs. apply orb_false_iff in Hs. destruct Hs as [Hx _].
  destruct (Ascii.eqb_spec x "/") as [->|Hx']; [discriminate|].
  unfold anchor_of.
  destruct x as [[] [] [] [] [] [] [] []]; try reflexivity.
  exfalso. now apply Hx'.
Qed.

Lemma eqb_refl (p : Path) : eqb p p = true.
Proof.
  induction p as [|a p IH]; simpl; [reflexivity|].
  now rewrite String.eqb_refl, IH.
Qed.

Lemma eqb_eq (p q : Path) : eqb p q = true <-> p = q.
Proof.
  split; [|intros ->; apply eqb_refl].
  revert q. induction p as [|a p IH]; intros [|b q] H; simpl in H;
    try discriminate; [reflexivity|].
  apply andb_true_iff in H. destruct H as [Hab Hpq].
  apply String.eqb_eq in Hab. f_equal; [assumption | now apply IH].
Qed.

Lemma strip_prefix_app (base rest : Path) :
  strip_prefix base (base ++ rest)%list = Some rest.
Proof.
  induction base as [|a base IH]; simpl; [reflexivity|].
  now rewrite String.eqb_refl.
Qed.

Lemma relative_to_app (base rest : Path) :
  is_absolute rest = false ->
  relative_to (base ++ rest)%list base = Some rest.
Proof.
  intro H. unfold relative_to. now rewrite strip_prefix_app, H.
Qed.

Lemma nameless_snoc (l : Path) (n : string) :
  is_anchor n = false -> nameless (l ++ [n])%list = false.
Proof.
  intro H. destruct l as [|a [|b l]]; simpl; auto.
Qed.

Lemma name_snoc (l : Path) (n : string) :
  is_anchor n = false -> name (l ++ [n])%list = n.
Proof.
  intro H. unfold name. rewrite (nameless_snoc l n H). apply last_last.
Qed.

Lemma parent_snoc (l : Path) (n : string) :
  is_anchor n = false -> parent (l ++ [n])%list = l.
Proof.
  intro H. unfold parent. rewrite (nameless_snoc l n H).
  apply removelast_last.
Qed.

(** The stem is a piece of the name. *)
Lemma stem_cases (p : Path) :
  (stem p = name p /\ suffix p = "") \/
  (exists i, 0 < i < String.length (name p) - 1 /\
             stem p = PyStr.take i (name p) /\
             suffix p = PyStr.drop i (name p)).
Proof.
  unfold stem, suffix.
  destruct (PyStr.rfind "." (name p)) as [i|]; [|now left].
  destruct (Nat.ltb_spec 0 i); simpl; [|now left].
  destruct (Nat.ltb_spec i (String.length (name p) - 1)); [|now left].
  right. exists i. repeat split; assumption.
Qed.

Lemma stem_slash_free (p : Path) :
  PyStr.contains "/" (name p) = false ->
  PyStr.contains "/" (stem p) = false.
Proof.
  intro H. destruct (stem_cases p) as [[-> _]|[i [_ [-> _]]]];
    [assumption|]. now apply contains_substring.
Qed.

Lemma mp3_name_plain (s : string) :
  PyStr.contains "/" s = false ->
  plain (s ++ ".mp3") /\ s ++ ".mp3" <> ".".
Proof.
  intro H. repeat split.
  - apply append_nonempty_r. discriminate.
  - rewrite contains_append, H. reflexivity.
  - intro E. apply (f_equal String.length) in E.
    rewrite length_append in E. simpl in E. lia.
Qed.

(** [with_suffix('.mp3')] replaces the name by stem + [.mp3]. *)
Lemma with_suffix_mp3 (p : Path) :
  name p <> "" -> PyStr.contains "/" (name p) = false ->
  with_suffix p ".mp3" = Some (removelast p ++ [(stem p ++ ".mp3")%string])%list.
Proof.
  intros Hne Hs. unfold with_suffix. simpl.
  destruct (String.eqb_spec (name p) "") as [E|_]; [contradiction|].
  assert (Hnew :
    (if suffix p =? "" then name p ++ ".mp3"
     else PyStr.take (String.length (name p) - String.length (suffix p))
                     (name p) ++ ".mp3") = stem p ++ ".mp3").
  { destruct (stem_cases p) as [[-> ->]|[i [Hi [-> ->]]]];
      [reflexivity|].
    assert (Hl : String.length (PyStr.drop i (name p))
                 = String.length (name p) - i).
    { unfold PyStr.drop. apply length_substring. lia. }
    destruct (String.eqb_spec (PyStr.drop i (name p)) "") as [E|_].
    - rewrite E in Hl. simpl in Hl. lia.
    - rewrite Hl. do 2 f_equal. lia. }
  rewrite Hnew. unfold with_name.
  destruct (mp3_name_plain (stem p) (stem_slash_free p Hs)) as [[Hn1 Hn2] Hn3].
  destruct (String.eqb_spec (name p) "") as [E|_]; [contradiction|].
  destruct (String.eqb_spec (stem p ++ ".mp3") "") as [E|_];
    [contradiction|].
  rewrite Hn2.
  destruct (String.eqb_spec (stem p ++ ".mp3") ".") as [E|_];
    [contradiction|].
  reflexivity.
Qed.

Lemma join_str_mp3 (root : Path) (s : string) :
  PyStr.contains "/" s = false ->
  join_str root (s ++ ".mp3") = (root ++ [(s ++ ".mp3")%string])%list.
Proof.
  intro H. destruct (mp3_name_plain s H) as [Hp Hd].
  unfold join_str. rewrite (of_string_plain _ Hp Hd).
  unfold joinpath. simpl. now rewrite (plain_not_anchor _ Hp).
Qed.

End PathFacts.

(* ================================================================== *)
(** * Where the output goes *)
(* ================================================================== *)

Section OutputPaths.

Import PurePath PathFacts.

Lemma nonempty_some (o : option string) (d : string) :
  o = Some d -> d <> "" -> nonempty o = Some d.
Proof.
  intros -> H. unfold nonempty.
  now destruct (String.eqb_spec d "").
Qed.

Lemma stem_snoc (l : Path) (n : string) :
  is_anchor n = false -> stem (l ++ [n])%list = stem [n].
Proof.
  intro H. unfold stem.
  pose proof (name_snoc [] n H) as E. simpl in E.
  rewrite (name_snoc l n H), E. reflexivity.
Qed.

Lemma name_nonempty_not_nameless (p : Path) :
  name p <> "" -> parent p = removelast p.
Proof.
  unfold name, parent. destruct (nameless p); [easy | reflexivity].
Qed.

Lemma is_absolute_app_plain (dirs : Path) (n : string) (tail : Path) :
  Forall plain dirs -> plain n ->
  is_absolute (dirs ++ n :: tail)%list = false.
Proof.
  intros Hd Hn. destruct dirs as [|d dirs]; simpl.
  - now apply plain_not_anchor.
  - inversion Hd; subst. now apply plain_not_anchor.
Qed.

(** C5.  [convert_file] settles its output path in this order: an
    output path passed by the caller is taken as it is; failing that,
    with a non-empty output directory configured, the output is that
    directory extended by the component [stem + ".mp3"]; failing that
    too, it is the input's own directory extended by [stem + ".mp3"].
    (The input has a name, as every input that passed the extension
    test has, and the name is a single path component.) *)
Theorem derive_output_path_precedence
        (self : AudioConverter) (input_path : Path) (w : World) :
  name input_path <> "" ->
  PyStr.contains "/" (name input_path) = false ->
  (forall p : Path,
      derive_output_path self input_path (Some p) w = (Return p, w)) /\
  (forall d : string,
      output_dir self = Some d -> d <> "" ->
      derive_output_path self input_path None w
      = (Return (of_string d ++ [(stem input_path ++ ".mp3")%string])%list,
         w)) /\
  (nonempty (output_dir self) = None ->
   derive_output_path self input_path None w
   = (Return (parent input_path
              ++ [(stem input_path ++ ".mp3")%string])%list, w)).
Proof.
  intros Hname Hslash. repeat split.
  - intros d Hd Hne. unfold derive_output_path.
    rewrite (nonempty_some _ d Hd Hne). unfold flattened_path.
    rewrite (join_str_mp3 _ _ (stem_slash_free _ Hslash)). reflexivity.
  - intro Hnone. unfold derive_output_path. rewrite Hnone.
    rewrite (with_suffix_mp3 _ Hname Hslash).
    rewrite (name_nonempty_not_nameless _ Hname). reflexivity.
Qed.

Lemma derive_output_path_precedence_witness :
  let self := mkConverter (Some "out") false true in
  let w := mkWorld [(["music"; "song.flac"], File)] [] [] in
  derive_output_path self ["music"; "song.flac"] (Some ["x"; "y.mp3"]) w
  = (Return ["x"; "y.mp3"], w) /\
  derive_output_path self ["music"; "song.flac"] None w
  = (Return ["out"; "song.mp3"], w) /\
  derive_output_path (mkConverter None false true)
                     ["music"; "song.flac"] None w
  = (Return ["music"; "song.mp3"], w).
Proof.
  intros self w.
  assert (H1 : name ["music"; "song.flac"] <> "") by discriminate.
  assert (H2 : PyStr.contains "/" (name ["music"; "song.flac"]) = false)
    by reflexivity.
  split; [|split].
  - exact (proj1 (derive_output_path_precedence self _ w H1 H2) _).
  - exact (proj1 (proj2 (derive_output_path_precedence self _ w H1 H2))
                 "out" eq_refl ltac:(discriminate)).
  - exact (proj2 (proj2 (derive_output_path_precedence
                           (mkConverter None false true) _ w H1 H2))
                 eq_refl).
Defined.

(** C4.  In [convert_directory], a candidate [A/dirs.../n] under the
    input directory [A] is sent, with a non-empty output directory [B]
    configured, to [B/dirs.../stem.mp3] when the structure is kept and
    the walk is recursive, and to [B/stem.mp3] when either is off;
    with no output directory it is sent to [A/dirs.../stem.mp3], next
    to the candidate. *)
Theorem directory_output_path_cases
        (self : AudioConverter) (A dirs : Path) (n : string)
        (recursive : bool) (w : World) :
  Forall plain dirs -> plain n ->
  let candidate := (A ++ dirs ++ [n])%list in
  let mp3 := (stem candidate ++ ".mp3")%string in
  (forall B : string,
      output_dir self = Some B -> B <> "" ->
      directory_output_path self A recursive candidate w
      = (Return (if keep_structure self && recursive
                 then (of_string B ++ dirs ++ [mp3])%list
                 else (of_string B ++ [mp3])%list), w)) /\
  (nonempty (output_dir self) = None ->
   directory_output_path self A recursive candidate w
   = (Return (A ++ dirs ++ [mp3])%list, w)).
Proof.
  intros Hdirs Hn candidate mp3.
  pose proof (plain_not_anchor n Hn) as Hanchor.
  assert (Hname : name candidate = n).
  { unfold candidate. rewrite app_assoc. now apply name_snoc. }
  assert (Hstem : stem candidate = stem (dirs ++ [n])%list).
  { unfold candidate. rewrite app_assoc.
    now rewrite !stem_snoc by assumption. }
  destruct Hn as [Hne Hslash].
  split.
  - intros B HB HBne. unfold directory_output_path.
    rewrite (nonempty_some _ B HB HBne).
    destruct (keep_structure self && recursive).
    + unfold candidate.
      rewrite relative_to_app
        by (apply is_absolute_app_plain; [assumption | now split]).
      unfold or_value_error, bind, ret.
      rewrite with_suffix_mp3; rewrite ?name_snoc by assumption;
        try assumption.
      rewrite removelast_last. unfold joinpath.
      replace (is_absolute
                 (dirs ++ [(stem (dirs ++ [n])%list ++ ".mp3")%string])%list)
        with false.
      * unfold mp3. rewrite Hstem. reflexivity.
      * symmetry. apply is_absolute_app_plain; [assumption|].
        apply mp3_name_plain.
        apply stem_slash_free. now rewrite name_snoc.
    + unfold mp3, flattened_path.
      rewrite join_str_mp3; [reflexivity|].
      apply stem_slash_free. now rewrite Hname.
  - intro Hnone. unfold directory_output_path. rewrite Hnone.
    rewrite with_suffix_mp3; rewrite ?Hname; try assumption.
    unfold candidate at 1. rewrite app_assoc, removelast_last.
    unfold mp3. now rewrite <- app_assoc.
Qed.

Lemma directory_output_path_cases_witness :
  let w := mkWorld [] [] [] in
  let candidate := ["A"; "sub"; "x.wav"] in
  directory_output_path (mkConverter (Some "B") false true)
                        ["A"] true candidate w
  = (Return ["B"; "sub"; "x.mp3"], w) /\
  directory_output_path (mkConverter (Some "B") false false)
                        ["A"] true candidate w
  = (Return ["B"; "x.mp3"], w) /\
  directory_output_path (mkConverter (Some "B") false true)
                        ["A"] false candidate w
  = (Return ["B"; "x.mp3"], w) /\
  directory_output_path (mkConverter None false true)
                        ["A"] true candidate w
  = (Return ["A"; "sub"; "x.mp3"], w).
Proof.
  intros w candidate.
  assert (Hd : Forall plain ["sub"]).
  { constructor; [split; [discriminate | reflexivity] | constructor]. }
  assert (Hn : plain "x.wav") by (split; [discriminate | reflexivity]).
  split; [|split; [|split]].
  - exact (proj1 (directory_output_path_cases
                    (mkConverter (Some "B") false true)
                    ["A"] ["sub"] "x.wav" true w Hd Hn)
                 "B" eq_refl ltac:(discriminate)).
  - exact (proj1 (directory_output_path_cases
                    (mkConverter (Some "B") false false)
                    ["A"] ["sub"] "x.wav" true w Hd Hn)
                 "B" eq_refl ltac:(discriminate)).
  - exact (proj1 (directory_output_path_cases
                    (mkConverter (Some "B") false true)
                    ["A"] ["sub"] "x.wav" false w Hd Hn)
                 "B" eq_refl ltac:(discriminate)).
  - exact (proj2 (directory_output_path_cases
                    (mkConverter None false true)
                    ["A"] ["sub"] "x.wav" true w Hd Hn)
                 eq_refl).
Defined.

End OutputPaths.

(* ================================================================== *)
(** * One file *)
(* ================================================================== *)

Section OneFile.

Import PurePath PathFacts.

Variable env : Env.
Variable self : AudioConverter.

Lemma int_of_empty : PyStr.int "" = None.
Proof. reflexivity. Qed.

Lemma _get_bitrate_reading (file_path : Path) (w : World) :
  _get_bitrate env file_path w
  = (Return (probe_reading (fst (run env (ffprobe_cmd file_path) (w_fs w)))),
     mkWorld (snd (run env (ffprobe_cmd file_path) (w_fs w)))
             (w_spawned w ++ [ffprobe_cmd file_path])%list
             (w_console w)).
Proof.
  unfold _get_bitrate, try_except, bind, subprocess_run.
  destruct (run env (ffprobe_cmd file_path) (w_fs w)) as [[c|e] fs'];
    simpl; [|reflexivity].
  unfold read_bitrate.
  destruct ((returncode c =? 0)%Z && negb (PyStr.strip (stdout c) =? ""));
    [|reflexivity].
  unfold bind.
  destruct (PyStr.int (PyStr.strip (stdout c))); reflexivity.
Qed.

Lemma at_target_spec (b : option Z) :
  at_target b = true <-> exists k, b = Some k /\ (320 <= k)%Z.
Proof.
  unfold at_target. split.
  - destruct b as [k|]; [|discriminate]. intro H.
    apply andb_true_iff in H. destruct H as [_ H].
    exists k. split; [reflexivity | now apply Z.leb_le].
  - intros [k [-> H]]. apply andb_true_iff. split.
    + apply negb_true_iff. apply Z.eqb_neq. lia.
    + now apply Z.leb_le.
Qed.

Lemma probe_reading_at_least (file_path : Path) (fs : FS) :
  at_target (probe_reading (fst (run env (ffprobe_cmd file_path) fs)))
  = true
  <-> probe_reports_at_least env file_path fs 320.
Proof.
  rewrite at_target_spec. unfold probe_reports_at_least, probe_reading.
  split.
  - intros [k [Hk Hle]].
    destruct (fst (run env (ffprobe_cmd file_path) fs)) as [c|e];
      [|discriminate].
    destruct (Z.eqb_spec (returncode c) 0) as [Hrc|]; [|discriminate].
    simpl in Hk.
    destruct (negb (PyStr.strip (stdout c) =? "")); [|discriminate].
    destruct (PyStr.int (PyStr.strip (stdout c))) as [n|] eqn:Hint;
      [|discriminate].
    simpl in Hk. inversion Hk; subst.
    exists c, n. repeat split; assumption.
  - intros [c [n [Hrun [Hrc [Hint Hle]]]]]. rewrite Hrun, Hrc. simpl.
    destruct (String.eqb_spec (PyStr.strip (stdout c)) "") as [E|_].
    + rewrite E, int_of_empty in Hint. discriminate.
    + simpl. rewrite Hint. simpl. exists (n / 1000)%Z. now split.
Qed.

Lemma derive_output_path_state (input_path : Path) (o : option Path)
      (w w' : World) (r : Outcome Path) :
  derive_output_path self input_path o w = (r, w') -> w' = w.
Proof.
  unfold derive_output_path, or_value_error, ret, raise.
  destruct o; [now inversion 1|].
  destruct (nonempty (output_dir self)); [now inversion 1|].
  destruct (with_suffix input_path ".mp3"); now inversion 1.
Qed.

Lemma lookup_in (fs : FS) (p : Path) (k : Kind) :
  Fs.lookup fs p = Some k -> In (p, k) fs.
Proof.
  induction fs as [|[q k'] fs IH]; simpl; [discriminate|].
  destruct (eqb q p) eqn:E.
  - apply eqb_eq in E. subst. inversion 1; subst. now left.
  - intro H. right. now apply IH.
Qed.

(** In a well-formed file system whatever exists lies in a directory. *)
Lemma parent_of_existing (fs : FS) (p : Path) :
  Fs.wf fs = true -> Fs.exists_ fs p = true ->
  Fs.is_dir fs (parent p) = true.
Proof.
  intros Hwf Hex. unfold Fs.exists_, Fs.kind_of in Hex.
  destruct (nameless p) eqn:Hn.
  - unfold parent, Fs.is_dir, Fs.kind_of. now rewrite Hn, Hn.
  - destruct (Fs.lookup fs p) as [k|] eqn:Hl; [|discriminate].
    apply lookup_in in Hl. unfold Fs.wf in Hwf.
    rewrite forallb_forall in Hwf. exact (Hwf _ Hl).
Qed.

(** Making a directory that is there changes nothing. *)
Lemma mkdir_parents_existing (fs : FS) (p : Path) :
  Fs.is_dir fs p = true -> Fs.mkdir_parents fs p = inr fs.
Proof.
  intro H. unfold Fs.mkdir_parents.
  assert (Hstep : forall fuel, Fs.mkdir_rec fuel fs p = inr fs).
  { intro fuel. unfold Fs.is_dir in H.
    destruct fuel; simpl; unfold Fs.os_mkdir, Fs.is_dir;
      destruct (Fs.kind_of fs p) as [[|]|]; try discriminate;
      reflexivity. }
  apply Hstep.
Qed.

Lemma after_nil (w : World) : after w (w_fs w) [] = w.
Proof. destruct w. unfold after. simpl. now rewrite app_nil_r. Qed.

Lemma skip_existing_run (input_path output_path : Path) (w : World) :
  skip_existing env input_path output_path w
  = if PyStr.lower (suffix input_path) =? ".mp3" then
      let r := run env (ffprobe_cmd input_path) (w_fs w) in
      (Return (false,
               if at_target (probe_reading (fst r))
               then msg_already_320 input_path
               else msg_file_exists output_path),
       after w (snd r) [ffprobe_cmd input_path])
    else (Return (false, msg_file_exists output_path), w).
Proof.
  unfold skip_existing.
  destruct (PyStr.lower (suffix input_path) =? ".mp3"); [|reflexivity].
  unfold bind. rewrite _get_bitrate_reading. simpl.
  destruct (at_target _); reflexivity.
Qed.

Lemma transcode_run (input_path output_path : Path) (w : World) :
  transcode env self input_path output_path w
  = let cmd := ffmpeg_cmd self input_path output_path in
    let r := run env cmd (w_fs w) in
    (match fst r with
     | Return c =>
         if (returncode c =? 0)%Z
         then Return (true, msg_converted input_path output_path)
         else Return (false, msg_failed input_path (stderr c))
     | Raise e =>
         if is_Exception e
         then Return (false, msg_error input_path e)
         else Raise e
     end,
     after w (snd r) [cmd]).
Proof.
  unfold transcode, try_except, bind, subprocess_run. simpl.
  destruct (run env (ffmpeg_cmd self input_path output_path) (w_fs w))
    as [[c|e] fs']; simpl.
  - destruct (returncode c =? 0)%Z; reflexivity.
  - destruct (is_Exception e); reflexivity.
Qed.

(** An input that passes validation, whose output path is [out] and
    whose output directory could be made, leaving the file system
    [fs1]: [convert_file] goes on to skip or to transcode. *)
Lemma convert_file_validated
      (input_path out : Path) (o : option Path) (w : World) (fs1 : FS) :
  Fs.exists_ (w_fs w) input_path = true ->
  mem (PyStr.lower (suffix input_path)) SUPPORTED_FORMATS = true ->
  derive_output_path self input_path o w = (Return out, w) ->
  Fs.mkdir_parents (w_fs w) (parent out) = inr fs1 ->
  convert_file env self input_path o w
  = (if Fs.exists_ fs1 out && negb (overwrite self)
     then skip_existing env input_path out
     else transcode env self input_path out) (after w fs1 []).
Proof.
  intros Hex Hsup Hder Hmk.
  unfold convert_file, bind, path_exists at 1. rewrite Hex.
  cbv beta iota delta [negb]. rewrite Hsup.
  cbv beta iota. rewrite Hder.
  unfold path_mkdir_parents. rewrite Hmk. unfold path_exists.
  cbv beta iota. unfold after. simpl w_fs. simpl w_spawned.
  simpl w_console. now rewrite app_nil_r.
Qed.

Lemma convert_file_unsupported_step
      (input_path : Path) (o : option Path) (w : World) :
  Fs.exists_ (w_fs w) input_path = true ->
  mem (PyStr.lower (suffix input_path)) SUPPORTED_FORMATS = false ->
  convert_file env self input_path o w
  = (Return (false, msg_unsupported input_path), w).
Proof.
  intros Hex Hsup.
  unfold convert_file, bind, path_exists at 1. rewrite Hex.
  cbv beta iota delta [negb]. now rewrite Hsup.
Qed.

(** C6.  An input file that exists and whose extension, lower-cased,
    is not one of [SUPPORTED_FORMATS] gets the failure result
    "Unsupported format: <suffix>"; the world is left as it was, so no
    external process, and in particular no transcoder, was started. *)
Theorem convert_file_unsupported_format
        (input_path : Path) (o : option Path) (w : World) :
  Fs.exists_ (w_fs w) input_path = true ->
  mem (PyStr.lower (suffix input_path)) SUPPORTED_FORMATS = false ->
  convert_file env self input_path o w
  = (Return (false, "Unsupported format: " ++ suffix input_path), w)
  /\ filter invokes_transcoder
            (w_spawned (snd (convert_file env self input_path o w)))
     = filter invokes_transcoder (w_spawned w).
Proof.
  intros Hex Hsup.
  pose proof (convert_file_unsupported_step input_path o w Hex Hsup) as E.
  split; [exact E | now rewrite E].
Qed.

(** C7.  When [convert_file] gets as far as the transcoder (the input
    passed validation, the output directory could be made, and the
    output is absent or may be overwritten), the transcoder is started
    once, with [ffmpeg_cmd], and its outcome is read as follows: exit
    status 0 gives the success result "Converted: <in> → <out>"; any
    other exit status gives a failure result that carries the captured
    error stream; and an [Exception] raised while launching gives a
    failure result with the exception's text instead of being raised
    further. *)
Theorem convert_file_transcoder_outcome
        (input_path out : Path) (o : option Path) (w : World) (fs1 : FS) :
  Fs.exists_ (w_fs w) input_path = true ->
  mem (PyStr.lower (suffix input_path)) SUPPORTED_FORMATS = true ->
  derive_output_path self input_path o w = (Return out, w) ->
  Fs.mkdir_parents (w_fs w) (parent out) = inr fs1 ->
  Fs.exists_ fs1 out && negb (overwrite self) = false ->
  let cmd := ffmpeg_cmd self input_path out in
  let launched := fst (run env cmd fs1) in
  let result := convert_file env self input_path o w in
  w_spawned (snd result) = (w_spawned w ++ [cmd])%list /\
  (forall c, launched = Return c -> returncode c = 0%Z ->
             fst result
             = Return (true, "Converted: " ++ name input_path ++ " → "
                             ++ name out)) /\
  (forall c, launched = Return c -> returncode c <> 0%Z ->
             fst result
             = Return (false, "Conversion failed: " ++ name input_path
                              ++ newline ++ stderr c)) /\
  (forall e, launched = Raise e -> is_Exception e = true ->
             fst result
             = Return (false, "Error converting " ++ name input_path
                              ++ ": " ++ exn_msg e)).
Proof.
  intros Hex Hsup Hder Hmk Hgo cmd launched result.
  unfold result.
  rewrite (convert_file_validated input_path out o w fs1 Hex Hsup Hder Hmk).
  rewrite Hgo, transcode_run. simpl.
  fold cmd. fold launched.
  split; [now rewrite app_nil_r|].
  split; [|split].
  - intros c -> Hrc. now rewrite Hrc.
  - intros c -> Hrc.
    destruct (Z.eqb_spec (returncode c) 0); [contradiction | reflexivity].
  - intros e -> He. now rewrite He.
Qed.

Lemma skip_messages_differ (input_path out : Path) :
  msg_already_320 input_path <> msg_file_exists out.
Proof. unfold msg_already_320, msg_file_exists. simpl. discriminate. Qed.

Lemma ffprobe_is_not_transcoder (l : list (list string)) (p : Path) :
  filter invokes_transcoder (l ++ [ffprobe_cmd p])%list
  = filter invokes_transcoder l.
Proof. rewrite filter_app. simpl. apply app_nil_r. Qed.

(** With the output already there and overwriting off, a validated
    input goes down the skip path, on the file system as it was. *)
Lemma convert_file_existing_output
      (input_path out : Path) (o : option Path) (w : World) :
  Fs.wf (w_fs w) = true ->
  Fs.exists_ (w_fs w) input_path = true ->
  mem (PyStr.lower (suffix input_path)) SUPPORTED_FORMATS = true ->
  derive_output_path self input_path o w = (Return out, w) ->
  Fs.exists_ (w_fs w) out = true ->
  overwrite self = false ->
  convert_file env self input_path o w
  = skip_existing env input_path out w.
Proof.
  intros Hwf Hex Hsup Hder Hout Hov.
  rewrite (convert_file_validated input_path out o w (w_fs w)
             Hex Hsup Hder).
  - now rewrite Hout, Hov, after_nil.
  - apply mkdir_parents_existing. now apply parent_of_existing.
Qed.

(** C1.  For an input file that passes validation, whose output path
    exists already, and with [overwrite] off, [convert_file] returns a
    skip result (success flag false) and starts no transcoder.  The
    message is "Skipped (already 320kbps): <input name>" exactly when
    the input's extension lower-cases to [.mp3] and the probe reports
    at least 320 kbit/s; otherwise it is "Skipped (file exists):
    <output name>", in particular when the probe could not be launched,
    exited with a non-zero status, or printed no integer. *)
Theorem convert_file_skips_existing_output
        (input_path out : Path) (o : option Path) (w : World) :
  Fs.wf (w_fs w) = true ->
  Fs.exists_ (w_fs w) input_path = true ->
  mem (PyStr.lower (suffix input_path)) SUPPORTED_FORMATS = true ->
  derive_output_path self input_path o w = (Return out, w) ->
  Fs.exists_ (w_fs w) out = true ->
  overwrite self = false ->
  let result := convert_file env self input_path o w in
  let probe := fst (run env (ffprobe_cmd input_path) (w_fs w)) in
  let already := "Skipped (already 320kbps): " ++ name input_path in
  let exists_msg := "Skipped (file exists): " ++ name out in
  let at_320 := PyStr.lower (suffix input_path) = ".mp3" /\
                probe_reports_at_least env input_path (w_fs w) 320 in
  (exists msg, fst result = Return (false, msg) /\
               is_skip (false, msg) = true) /\
  filter invokes_transcoder (w_spawned (snd result))
  = filter invokes_transcoder (w_spawned w) /\
  (at_320 -> fst result = Return (false, already)) /\
  (~ at_320 -> fst result = Return (false, exists_msg)) /\
  already <> exists_msg /\
  (forall e, probe = Raise e -> fst result = Return (false, exists_msg)) /\
  (forall c, probe = Return c ->
             returncode c <> 0%Z \/
             PyStr.int (PyStr.strip (stdout c)) = None ->
             fst result = Return (false, exists_msg)).
Proof.
  intros Hwf Hex Hsup Hder Hout Hov result probe already exists_msg at_320.
  assert (Hno : ~ at_320 -> fst result = Return (false, exists_msg)).
  { intro Hn. unfold result.
    rewrite (convert_file_existing_output input_path out o w)
      by assumption.
    rewrite skip_existing_run.
    destruct (String.eqb_spec (PyStr.lower (suffix input_path)) ".mp3")
      as [Hmp3|Hmp3]; [|reflexivity].
    simpl.
    destruct (at_target _) eqn:Hat; [|reflexivity].
    exfalso. apply Hn. split; [assumption|].
    now apply probe_reading_at_least. }
  split; [|split; [|split; [|split; [|split; [|split]]]]].
  - unfold result.
    rewrite (convert_file_existing_output input_path out o w)
      by assumption.
    rewrite skip_existing_run.
    destruct (PyStr.lower (suffix input_path) =? ".mp3"); simpl.
    + destruct (at_target _); eexists; split; reflexivity.
    + eexists; split; reflexivity.
  - unfold result.
    rewrite (convert_file_existing_output input_path out o w)
      by assumption.
    rewrite skip_existing_run.
    destruct (PyStr.lower (suffix input_path) =? ".mp3"); simpl;
      [apply ffprobe_is_not_transcoder | reflexivity].
  - intros [Hmp3 Hrep]. unfold result.
    rewrite (convert_file_existing_output input_path out o w)
      by assumption.
    rewrite skip_existing_run.
    apply String.eqb_eq in Hmp3. rewrite Hmp3. simpl.
    apply probe_reading_at_least in Hrep. now rewrite Hrep.
  - exact Hno.
  - apply skip_messages_differ.
  - intros e He. apply Hno. intros [_ [c [n [Hc _]]]].
    fold probe in Hc. rewrite He in Hc. discriminate.
  - intros c Hc Hbad. apply Hno. intros [_ [c' [n [Hc' [Hrc [Hint _]]]]]].
    fold probe in Hc'. rewrite Hc in Hc'. inversion Hc'; subst c'.
    destruct Hbad as [Hbad|Hbad]; [contradiction | congruence].
Qed.

(** C9.  On the skip path of an [.mp3] input whose probe exits with
    status 0: when the probe prints the integer [n] (bit/s), the skip
    is the "already 320kbps" one exactly when [n // 1000 >= 320], which
    is exactly when [n >= 320000]; 319999 does not reach it, and
    neither does output that [int] cannot read. *)
Theorem already_320_threshold
        (input_path out : Path) (o : option Path) (w : World)
        (c : CompletedProcess) :
  Fs.wf (w_fs w) = true ->
  Fs.exists_ (w_fs w) input_path = true ->
  PyStr.lower (suffix input_path) = ".mp3" ->
  derive_output_path self input_path o w = (Return out, w) ->
  Fs.exists_ (w_fs w) out = true ->
  overwrite self = false ->
  fst (run env (ffprobe_cmd input_path) (w_fs w)) = Return c ->
  returncode c = 0%Z ->
  let result := fst (convert_file env self input_path o w) in
  let already := "Skipped (already 320kbps): " ++ name input_path in
  let exists_msg := "Skipped (file exists): " ++ name out in
  (forall n, PyStr.int (PyStr.strip (stdout c)) = Some n ->
             (result = Return (false, already) <-> (320 <= n / 1000)%Z) /\
             ((320 <= n / 1000)%Z <-> (320000 <= n)%Z) /\
             (n = 319999%Z -> result = Return (false, exists_msg))) /\
  (PyStr.int (PyStr.strip (stdout c)) = None ->
   result = Return (false, exists_msg)).
Proof.
  intros Hwf Hex Hmp3 Hder Hout Hov Hrun Hrc result already exists_msg.
  assert (Hsup : mem (PyStr.lower (suffix input_path)) SUPPORTED_FORMATS
                 = true) by now rewrite Hmp3.
  assert (E : result
              = Return (false,
                        if at_target (probe_reading (Return c))
                        then already else exists_msg)).
  { unfold result.
    rewrite (convert_file_existing_output input_path out o w)
      by assumption.
    rewrite skip_existing_run, Hmp3. simpl. now rewrite Hrun. }
  assert (Hdiv : forall n, (320 <= n / 1000)%Z <-> (320000 <= n)%Z).
  { intro n. split; intro H.
    - pose proof (Z.mul_div_le n 1000 ltac:(lia)). lia.
    - apply Z.div_le_lower_bound; lia. }
  split.
  - intros n Hint.
    assert (Hread : probe_reading (Return c) = Some (n / 1000)%Z).
    { unfold probe_reading. rewrite Hrc. simpl.
      destruct (String.eqb_spec (PyStr.strip (stdout c)) "") as [E0|_].
      - rewrite E0, int_of_empty in Hint. discriminate.
      - simpl. now rewrite Hint. }
    rewrite Hread in E.
    split; [|split].
    + rewrite E. split.
      * intro H. destruct (at_target (Some (n / 1000)%Z)) eqn:Hat.
        -- apply at_target_spec in Hat. destruct Hat as [k [Hk Hle]].
           inversion Hk; subst k. exact Hle.
        -- exfalso. unfold already, exists_msg in H.
           apply (skip_messages_differ input_path out).
           unfold msg_already_320, msg_file_exists. congruence.
      * intro H.
        assert (Hat : at_target (Some (n / 1000)%Z) = true).
        { apply at_target_spec. now exists (n / 1000)%Z. }
        now rewrite Hat.
    + apply Hdiv.
    + intros ->. rewrite E. reflexivity.
  - intro Hint. rewrite E. unfold probe_reading. rewrite Hint.
    destruct (_ && _); reflexivity.
Qed.

(** Whenever [convert_file] returns a skip, no transcoder was started
    for that file; the only external process that ran in the call is
    the bit-rate probe, and it ran only if the input's extension
    lower-cases to [.mp3]. *)
Lemma skip_starts_no_transcoder
        (input_path : Path) (o : option Path) (w w' : World)
        (r : bool * string) :
  convert_file env self input_path o w = (Return r, w') ->
  is_skip r = true ->
  filter invokes_transcoder (w_spawned w')
  = filter invokes_transcoder (w_spawned w) /\
  (w_spawned w' = w_spawned w \/
   (PyStr.lower (suffix input_path) = ".mp3" /\
    w_spawned w' = (w_spawned w ++ [ffprobe_cmd input_path])%list)).
Proof.
  intros Hrun Hskip.
  destruct (Fs.exists_ (w_fs w) input_path) eqn:Hex.
  2:{ unfold convert_file, bind, path_exists at 1 in Hrun.
      rewrite Hex in Hrun. inversion Hrun; subst. discriminate Hskip. }
  destruct (mem (PyStr.lower (suffix input_path)) SUPPORTED_FORMATS)
    eqn:Hsup.
  2:{ rewrite (convert_file_unsupported_step input_path o w Hex Hsup)
        in Hrun.
      inversion Hrun; subst. discriminate Hskip. }
  destruct (derive_output_path self input_path o w) as [[out|e] w1]
    eqn:Hder.
  2:{ unfold convert_file, bind, path_exists at 1 in Hrun.
      rewrite Hex in Hrun. cbv beta iota delta [negb] in Hrun.
      rewrite Hsup in Hrun. cbv beta iota in Hrun.
      rewrite Hder in Hrun. discriminate. }
  pose proof (derive_output_path_state input_path o w w1 _ Hder); subst w1.
  destruct (Fs.mkdir_parents (w_fs w) (parent out)) as [e|fs1] eqn:Hmk.
  { unfold convert_file, bind, path_exists at 1 in Hrun.
    rewrite Hex in Hrun. cbv beta iota delta [negb] in Hrun.
    rewrite Hsup in Hrun. cbv beta iota in Hrun.
    rewrite Hder in Hrun. unfold path_mkdir_parents in Hrun.
    rewrite Hmk in Hrun. discriminate. }
  rewrite (convert_file_validated input_path out o w fs1 Hex Hsup Hder Hmk)
    in Hrun.
  destruct (Fs.exists_ fs1 out && negb (overwrite self)).
  - rewrite skip_existing_run in Hrun.
    destruct (String.eqb_spec (PyStr.lower (suffix input_path)) ".mp3")
      as [Hmp3|_].
    + simpl in Hrun. inversion Hrun; subst. simpl.
      rewrite app_nil_r. split; [apply ffprobe_is_not_transcoder|].
      right. now split.
    + inversion Hrun; subst. simpl. rewrite app_nil_r. split; auto.
  - rewrite transcode_run in Hrun. simpl in Hrun.
    destruct (fst (run env (ffmpeg_cmd self input_path out) fs1))
      as [c|e].
    + destruct (returncode c =? 0)%Z; inversion Hrun; subst;
        discriminate Hskip.
    + destruct (is_Exception e); inversion Hrun; subst.
      discriminate Hskip.
Qed.

End OneFile.

(** ** The single-file statements on the sample world *)

Lemma convert_file_unsupported_format_witness :
  convert_file (Sample.env "128000") Sample.in_place
               ["A"; "notes.txt"] None Sample.world
  = (Return (false, "Unsupported format: .txt"), Sample.world).
Proof.
  exact (proj1 (convert_file_unsupported_format
                  (Sample.env "128000") Sample.in_place
                  ["A"; "notes.txt"] None Sample.world
                  eq_refl eq_refl)).
Defined.

Lemma convert_file_transcoder_outcome_witness :
  fst (convert_file (Sample.env "128000") Sample.in_place
                    ["A"; "sub1"; "x.flac"] None Sample.world)
  = Return (true, "Converted: x.flac → x.mp3") /\
  fst (convert_file Sample.env_rejecting Sample.in_place
                    ["A"; "sub1"; "x.flac"] None Sample.world)
  = Return (false, "Conversion failed: x.flac" ++ newline
                   ++ "Invalid data found when processing input") /\
  fst (convert_file Sample.env_missing Sample.in_place
                    ["A"; "sub1"; "x.flac"] None Sample.world)
  = Return (false, "Error converting x.flac: "
                   ++ "No such file or directory: 'ffmpeg'").
Proof.
  split; [|split].
  - exact (proj1 (proj2 (convert_file_transcoder_outcome
                           (Sample.env "128000") Sample.in_place
                           ["A"; "sub1"; "x.flac"] ["A"; "sub1"; "x.mp3"]
                           None Sample.world Sample.fs
                           eq_refl eq_refl eq_refl eq_refl eq_refl))
                 (mkCompleted 0 "" "") eq_refl eq_refl).
  - exact (proj1 (proj2 (proj2 (convert_file_transcoder_outcome
                           Sample.env_rejecting Sample.in_place
                           ["A"; "sub1"; "x.flac"] ["A"; "sub1"; "x.mp3"]
                           None Sample.world Sample.fs
                           eq_refl eq_refl eq_refl eq_refl eq_refl)))
                 (mkCompleted 1 ""
                              "Invalid data found when processing input")
                 eq_refl ltac:(discriminate)).
  - exact (proj2 (proj2 (proj2 (convert_file_transcoder_outcome
                           Sample.env_missing Sample.in_place
                           ["A"; "sub1"; "x.flac"] ["A"; "sub1"; "x.mp3"]
                           None Sample.world Sample.fs
                           eq_refl eq_refl eq_refl eq_refl eq_refl)))
                 (mkExn FileNotFoundError
                        "No such file or directory: 'ffmpeg'")
                 eq_refl eq_refl).
Defined.

Lemma convert_file_skips_existing_output_witness :
  fst (convert_file (Sample.env "128000") Sample.in_place
                    ["A"; "y.WAV"] None Sample.world)
  = Return (false, "Skipped (file exists): y.mp3") /\
  filter invokes_transcoder
         (w_spawned (snd (convert_file (Sample.env "128000")
                                       Sample.in_place
                                       ["A"; "y.WAV"] None Sample.world)))
  = [].
Proof.
  pose proof (convert_file_skips_existing_output
                (Sample.env "128000") Sample.in_place
                ["A"; "y.WAV"] ["A"; "y.mp3"] None Sample.world
                eq_refl eq_refl eq_refl eq_refl eq_refl eq_refl) as H.
  split.
  - apply (proj1 (proj2 (proj2 (proj2 H)))).
    intros [Hmp3 _]. discriminate Hmp3.
  - exact (proj1 (proj2 H)).
Defined.

Lemma already_320_threshold_witness :
  fst (convert_file (Sample.env "320000") Sample.in_place
                    ["A"; "sub2"; "x.mp3"] None Sample.world)
  = Return (false, "Skipped (already 320kbps): x.mp3") /\
  fst (convert_file (Sample.env "319999") Sample.in_place
                    ["A"; "sub2"; "x.mp3"] None Sample.world)
  = Return (false, "Skipped (file exists): x.mp3") /\
  fst (convert_file (Sample.env "N/A") Sample.in_place
                    ["A"; "sub2"; "x.mp3"] None Sample.world)
  = Return (false, "Skipped (file exists): x.mp3").
Proof.
  split; [|split].
  - apply (proj1 (proj1 (already_320_threshold
                           (Sample.env "320000") Sample.in_place
                           ["A"; "sub2"; "x.mp3"] ["A"; "sub2"; "x.mp3"]
                           None Sample.world
                           (mkCompleted 0 ("320000" ++ newline) "")
                           eq_refl eq_refl eq_refl eq_refl eq_refl eq_refl
                           eq_refl eq_refl)
                        320000%Z eq_refl)).
    vm_compute. discriminate.
  - exact (proj2 (proj2 (proj1 (already_320_threshold
                           (Sample.env "319999") Sample.in_place
                           ["A"; "sub2"; "x.mp3"] ["A"; "sub2"; "x.mp3"]
                           None Sample.world
                           (mkCompleted 0 ("319999" ++ newline) "")
                           eq_refl eq_refl eq_refl eq_refl eq_refl eq_refl
                           eq_refl eq_refl)
                        319999%Z eq_refl))
                 eq_refl).
  - exact (proj2 (already_320_threshold
                    (Sample.env "N/A") Sample.in_place
                    ["A"; "sub2"; "x.mp3"] ["A"; "sub2"; "x.mp3"]
                    None Sample.world
                    (mkCompleted 0 ("N/A" ++ newline) "")
                    eq_refl eq_refl eq_refl eq_refl eq_refl eq_refl
                    eq_refl eq_refl)
                 eq_refl).
Defined.

(* ================================================================== *)
(** * The exit status *)
(* ================================================================== *)

Section ExitStatus.

Variable env : Env.

Lemma new_converter_found (out : option string) (ovw keep : bool)
      (w : World) :
  nonempty (which env "ffmpeg") <> None ->
  new_converter env out ovw keep w = (Return (mkConverter out ovw keep), w).
Proof.
  intro H. unfold new_converter, bind, _check_ffmpeg.
  destruct (nonempty (which env "ffmpeg")); [reflexivity | contradiction].
Qed.

Lemma is_ascii_append (a b : string) :
  PyStr.is_ascii (a ++ b) = PyStr.is_ascii a && PyStr.is_ascii b.
Proof.
  induction a as [|c a IH]; simpl; [reflexivity|].
  now rewrite IH, andb_assoc.
Qed.

Lemma is_ascii_of_nat (n : nat) : PyStr.is_ascii (PyStr.of_nat n) = true.
Proof.
  unfold PyStr.of_nat, NilZero.string_of_uint.
  assert (H : forall d, PyStr.is_ascii (NilEmpty.string_of_uint d) = true)
    by (induction d; simpl; auto).
  destruct (Nat.to_uint n); try reflexivity; apply H.
Qed.

(** A line that can be written is appended to the console. *)
Lemma print_to_written (f : Stream) (s : string) (w : World) :
  can_print env f s = true ->
  print_to env f s w
  = (Return tt,
     mkWorld (w_fs w) (w_spawned w) (w_console w ++ [(f, s)])%list).
Proof. intro H. unfold print_to. now rewrite H. Qed.

(** A line that standard output cannot encode raises, and nothing is
    written. *)
Lemma print_refused (s : string) (w : World) :
  can_print env Stdout s = false ->
  print env s w
  = (Raise (mkExn UnicodeEncodeError "codec can't encode characters"), w).
Proof. intro H. unfold print, print_to. now rewrite H. Qed.

Lemma print_ascii (s : string) (w : World) :
  PyStr.is_ascii s = true ->
  print env s w
  = (Return tt,
     mkWorld (w_fs w) (w_spawned w) (w_console w ++ [(Stdout, s)])%list).
Proof.
  intro H. apply print_to_written. simpl. now rewrite H.
Qed.

(** The line that announces the candidates is ASCII. *)
Lemma announcement_ascii (n : nat) :
  PyStr.is_ascii (newline ++ "Found " ++ PyStr.of_nat n
                  ++ " audio file(s) to convert..." ++ newline) = true.
Proof.
  rewrite !is_ascii_append, is_ascii_of_nat. reflexivity.
Qed.

(** The summary is ASCII: printing it cannot fail. *)
Lemma print_summary_written (results : list (bool * string)) (w : World) :
  let successful := List.length (filter fst results) in
  let failed := List.length results - successful in
  print_summary env results w
  = (Return tt,
     mkWorld (w_fs w) (w_spawned w)
       (w_console w
        ++ [(Stdout, (newline ++ PyStr.repeat "=" 60)%string);
            (Stdout, "Conversion Summary:");
            (Stdout, ("  Total files: "
                      ++ PyStr.of_nat (List.length results))%string);
            (Stdout, ("  Successful: " ++ PyStr.of_nat successful)%string);
            (Stdout, ("  Failed/Skipped: " ++ PyStr.of_nat failed)%string);
            (Stdout, PyStr.repeat "=" 60)])%list).
Proof.
  intros successful failed. unfold print_summary. cbv zeta.
  fold successful. fold failed.
  unfold bind.
  rewrite (print_ascii (newline ++ PyStr.repeat "=" 60)) by reflexivity.
  rewrite (print_ascii "Conversion Summary:") by reflexivity.
  rewrite (print_ascii ("  Total files: " ++ _))
    by (rewrite is_ascii_append, is_ascii_of_nat; reflexivity).
  rewrite (print_ascii ("  Successful: " ++ _))
    by (rewrite is_ascii_append, is_ascii_of_nat; reflexivity).
  rewrite (print_ascii ("  Failed/Skipped: " ++ _))
    by (rewrite is_ascii_append, is_ascii_of_nat; reflexivity).
  rewrite (print_ascii (PyStr.repeat "=" 60)) by reflexivity.
  simpl w_fs. simpl w_spawned. simpl w_console.
  now rewrite <- !app_assoc.
Qed.

Lemma filter_length_le_all (results : list (bool * string)) :
  List.length (filter fst results) <= List.length results.
Proof.
  induction results as [|[b m] rs IH]; simpl; [lia|].
  destruct b; simpl; lia.
Qed.

Lemma all_succeeded_iff (results : list (bool * string)) :
  List.length (filter fst results) = List.length results
  <-> Forall (fun r => fst r = true) results.
Proof.
  induction results as [|[b m] rs IH].
  - split; [constructor | reflexivity].
  - pose proof (filter_length_le_all rs) as Hle.
    destruct b; cbn [filter fst List.length].
    + split; intro H.
      * constructor; [reflexivity | apply IH; lia].
      * inversion H; subst. f_equal. now apply IH.
    + split; intro H; [lia | inversion H; discriminate].
Qed.

(** [failed == 0] says that every result is a success. *)
Lemma none_failed_iff (results : list (bool * string)) :
  List.length results - List.length (filter fst results) = 0
  <-> Forall (fun r => fst r = true) results.
Proof.
  rewrite <- all_succeeded_iff.
  pose proof (filter_length_le_all results). lia.
Qed.

Lemma not_all_iff_some_failed (results : list (bool * string)) :
  ~ Forall (fun r => fst r = true) results
  <-> Exists (fun r => fst r = false) results.
Proof.
  induction results as [|[b m] rs IH].
  - split; intro H; [exfalso; apply H; constructor | inversion H].
  - split; intro H.
    + destruct b.
      * right. apply IH. intro Hall. apply H. now constructor.
      * now left.
    + intro Hall. inversion Hall; subst. inversion H; subst.
      * simpl in *. congruence.
      * now apply IH.
Qed.

End ExitStatus.

(* ================================================================== *)
(** * The order of paths *)
(* ================================================================== *)

Module PathOrder.

Import PurePath PathFacts.

Lemma ascii_compare_refl (a : ascii) : Ascii.compare a a = Eq.
Proof. unfold Ascii.compare. apply N.compare_refl. Qed.

Lemma ascii_lt_trans (a b c : ascii) :
  Ascii.compare a b = Lt -> Ascii.compare b c = Lt ->
  Ascii.compare a c = Lt.
Proof.
  unfold Ascii.compare. rewrite !N.compare_lt_iff. apply N.lt_trans.
Qed.

Lemma string_compare_refl (s : string) : String.compare s s = Eq.
Proof.
  induction s as [|c s IH]; simpl; [reflexivity|].
  now rewrite ascii_compare_refl.
Qed.

Lemma string_lt_trans (a : string) :
  forall b c, String.compare a b = Lt -> String.compare b c = Lt ->
              String.compare a c = Lt.
Proof.
  induction a as [|x a IH]; intros [|y b] [|z c] Hab Hbc;
    simpl in *; try discriminate; try reflexivity.
  destruct (Ascii.compare x y) eqn:Exy; try discriminate.
  - apply Ascii.compare_eq_iff in Exy. subst y.
    destruct (Ascii.compare x z); try discriminate; [|reflexivity].
    now apply (IH b c).
  - destruct (Ascii.compare y z) eqn:Eyz; try discriminate.
    + apply Ascii.compare_eq_iff in Eyz. subst z. now rewrite Exy.
    + now rewrite (ascii_lt_trans x y z Exy Eyz).
Qed.

Lemma string_gt_lt (a b : string) :
  String.compare a b = Gt -> String.compare b a = Lt.
Proof.
  intro H. rewrite String.compare_antisym, H. reflexivity.
Qed.

Lemma ltb_irrefl (p : Path) : ltb p p = false.
Proof.
  induction p as [|a p IH]; simpl; [reflexivity|].
  now rewrite string_compare_refl.
Qed.

Lemma ltb_trans (p : Path) :
  forall q r, ltb p q = true -> ltb q r = true -> ltb p r = true.
Proof.
  induction p as [|a p IH]; intros [|b q] [|c r] Hpq Hqr;
    simpl in *; try discriminate; try reflexivity.
  destruct (String.compare a b) eqn:Eab; try discriminate.
  - apply String.compare_eq_iff in Eab. subst b.
    destruct (String.compare a c); try discriminate; [|reflexivity].
    now apply (IH q r).
  - destruct (String.compare b c) eqn:Ebc; try discriminate.
    + apply String.compare_eq_iff in Ebc. subst c. now rewrite Eab.
    + now rewrite (string_lt_trans a b c Eab Ebc).
Qed.

(** Of two paths one is below the other, or they are the same. *)
Lemma ltb_trichotomy (p : Path) :
  forall q, ltb p q = true \/ p = q \/ ltb q p = true.
Proof.
  induction p as [|a p IH]; intros [|b q]; simpl; auto.
  destruct (String.compare a b) eqn:Eab.
  - apply String.compare_eq_iff in Eab. subst b.
    rewrite string_compare_refl.
    destruct (IH q) as [H|[H|H]]; auto. subst. auto.
  - auto.
  - rewrite (string_gt_lt a b Eab). auto.
Qed.

Lemma ltb_asym (p q : Path) : ltb p q = true -> ltb q p = false.
Proof.
  intro H. destruct (ltb q p) eqn:E; [|reflexivity].
  pose proof (ltb_trans p q p H E) as Hpp.
  now rewrite ltb_irrefl in Hpp.
Qed.

Lemma le_cases (p q : Path) : le p q <-> lt p q \/ p = q.
Proof.
  unfold le, lt. split.
  - intro H. destruct (ltb_trichotomy p q) as [Hl|[He|Hg]]; auto.
    congruence.
  - intros [H| ->]; [now apply ltb_asym | apply ltb_irrefl].
Qed.

Lemma le_trans (p q r : Path) : le p q -> le q r -> le p r.
Proof.
  rewrite !le_cases. intros [H1| ->] [H2| ->]; auto.
  left. exact (ltb_trans p q r H1 H2).
Qed.

Lemma in_insert_sorted (x p : Path) (l : list Path) :
  In x (insert_sorted p l) <-> x = p \/ In x l.
Proof.
  induction l as [|q l IH]; simpl.
  - intuition.
  - destruct (ltb q p); simpl; rewrite ?IH; intuition.
Qed.

Lemma insert_sorted_permutation (p : Path) (l : list Path) :
  Permutation (insert_sorted p l) (p :: l).
Proof.
  induction l as [|q l IH]; simpl; [reflexivity|].
  destruct (ltb q p); [|reflexivity].
  rewrite IH. apply perm_swap.
Qed.

Lemma sorted_permutation (l : list Path) : Permutation (sorted l) l.
Proof.
  induction l as [|p l IH]; simpl; [reflexivity|].
  rewrite insert_sorted_permutation. now constructor.
Qed.

Lemma insert_sorted_ordered (p : Path) (l : list Path) :
  StronglySorted le l -> StronglySorted le (insert_sorted p l).
Proof.
  induction l as [|q l IH]; intro Hs; simpl.
  - constructor; constructor.
  - inversion Hs as [|? ? Hl Hq]; subst.
    destruct (ltb q p) eqn:E.
    + constructor; [now apply IH|].
      apply Forall_forall. intros x Hx.
      apply in_insert_sorted in Hx. destruct Hx as [->|Hx].
      * now apply ltb_asym.
      * rewrite Forall_forall in Hq. now apply Hq.
    + constructor; [assumption|].
      constructor; [exact E|].
      apply Forall_forall. intros x Hx.
      rewrite Forall_forall in Hq.
      exact (le_trans p q x E (Hq x Hx)).
Qed.

Lemma sorted_ordered (l : list Path) : StronglySorted le (sorted l).
Proof.
  induction l as [|p l IH]; simpl; [constructor|].
  now apply insert_sorted_ordered.
Qed.

Lemma ordered_nodup_strict (l : list Path) :
  StronglySorted le l -> NoDup l -> StronglySorted lt l.
Proof.
  induction 1 as [|p l Hs IH Hall]; intro Hnd; [constructor|].
  inversion Hnd; subst. constructor; [now apply IH|].
  apply Forall_forall. intros x Hx.
  rewrite Forall_forall in Hall.
  destruct (proj1 (le_cases p x) (Hall x Hx)) as [H| ->];
    [assumption | contradiction].
Qed.

(** A strictly increasing list is determined by its elements. *)
Lemma strict_unique (l1 : list Path) :
  forall l2,
    StronglySorted lt l1 -> StronglySorted lt l2 ->
    (forall x, In x l1 <-> In x l2) -> l1 = l2.
Proof.
  induction l1 as [|a l1 IH]; intros [|b l2] H1 H2 Hin.
  - reflexivity.
  - exfalso. apply (proj2 (Hin b)). now left.
  - exfalso. apply (proj1 (Hin a)). now left.
  - inversion H1 as [|? ? Hs1 Ha]; subst.
    inversion H2 as [|? ? Hs2 Hb]; subst.
    rewrite Forall_forall in Ha, Hb.
    assert (Hab : a = b).
    { destruct (proj1 (Hin a) (or_introl eq_refl)) as [E|Hain];
        [now symmetry|].
      destruct (proj2 (Hin b) (or_introl eq_refl)) as [E|Hbin];
        [assumption|].
      pose proof (Hb a Hain) as Hlt1. pose proof (Ha b Hbin) as Hlt2.
      unfold lt in *. rewrite (ltb_asym b a Hlt1) in Hlt2.
      discriminate. }
    subst b. f_equal. apply IH; try assumption.
    intro x. split; intro Hx.
    + destruct (proj1 (Hin x) (or_intror Hx)) as [E|Hx2]; [|assumption].
      subst x. pose proof (Ha a Hx) as Hlt. unfold lt in Hlt.
      now rewrite ltb_irrefl in Hlt.
    + destruct (proj2 (Hin x) (or_intror Hx)) as [E|Hx1]; [|assumption].
      subst x. pose proof (Hb a Hx) as Hlt. unfold lt in Hlt.
      now rewrite ltb_irrefl in Hlt.
Qed.

Lemma in_py_set (x : Path) (l : list Path) : In x (py_set l) <-> In x l.
Proof.
  induction l as [|p l IH]; simpl; [reflexivity|].
  rewrite filter_In, IH. split.
  - intros [H|[H _]]; auto.
  - intros [H|H]; auto.
    destruct (eqb p x) eqn:E.
    + apply eqb_eq in E. auto.
    + right. split; [assumption | reflexivity].
Qed.

Lemma nodup_py_set (l : list Path) : NoDup (py_set l).
Proof.
  induction l as [|p l IH]; simpl; constructor.
  - rewrite filter_In. intros [_ H]. now rewrite eqb_refl in H.
  - now apply NoDup_filter.
Qed.

(** [sorted(set(l))] has no repetition, increases strictly, and holds
    the elements of [l]. *)
Lemma sorted_set_spec (l : list Path) :
  NoDup (sorted (py_set l)) /\
  StronglySorted lt (sorted (py_set l)) /\
  (forall x, In x (sorted (py_set l)) <-> In x l).
Proof.
  assert (Hnd : NoDup (sorted (py_set l))).
  { apply (Permutation_NoDup (l := py_set l));
      [symmetry; apply sorted_permutation | apply nodup_py_set]. }
  split; [exact Hnd|]. split.
  - apply ordered_nodup_strict; [apply sorted_ordered | exact Hnd].
  - intro x. split; intro H.
    + apply in_py_set.
      exact (Permutation_in x (sorted_permutation (py_set l)) H).
    + apply in_py_set in H.
      exact (Permutation_in x
               (Permutation_sym (sorted_permutation (py_set l))) H).
Qed.

(** [sorted] erases the order in which the set is iterated and the
    order and multiplicity in which its elements were collected. *)
Lemma sorted_set_same_elements (l l' : list Path) :
  (forall x, In x l <-> In x l') ->
  sorted (py_set l) = sorted (py_set l').
Proof.
  intro H.
  destruct (sorted_set_spec l) as [_ [Hs Hi]].
  destruct (sorted_set_spec l') as [_ [Hs' Hi']].
  apply strict_unique; try assumption.
  intro x. now rewrite Hi, Hi', H.
Qed.

Lemma sorted_any_iteration_order (l iteration : list Path) :
  NoDup iteration -> (forall x, In x iteration <-> In x l) ->
  sorted iteration = sorted (py_set l).
Proof.
  intros Hnd H.
  destruct (sorted_set_spec l) as [_ [Hs Hi]].
  apply strict_unique; try assumption.
  - apply ordered_nodup_strict; [apply sorted_ordered|].
    apply (Permutation_NoDup (l := iteration));
      [symmetry; apply sorted_permutation | assumption].
  - intro x. rewrite Hi, <- H. split; intro Hx.
    + exact (Permutation_in x (sorted_permutation iteration) Hx).
    + exact (Permutation_in x
               (Permutation_sym (sorted_permutation iteration)) Hx).
Qed.

Lemma in_collect_audio_files
      (glob : string -> list Path) (formats : list string)
      (pattern : string) (p : Path) :
  In p (collect_audio_files glob formats pattern) <->
  exists ext, In ext formats /\
              (In p (glob (pattern ++ ext)) \/
               In p (glob (pattern ++ PyStr.upper ext))).
Proof.
  induction formats as [|e formats IH]; simpl.
  - split; [contradiction | now intros [? [[] _]]].
  - rewrite !in_app_iff, IH. split.
    + intros [H|[H|[ext [Hin H]]]].
      * exists e. auto.
      * exists e. auto.
      * exists ext. auto.
    + intros [ext [[->|Hin] H]].
      * destruct H; auto.
      * right. right. exists ext. auto.
Qed.

End PathOrder.

(* ================================================================== *)
(** * A directory *)
(* ================================================================== *)

Section Directory.

Import PurePath PathFacts PathOrder.

(** [convert_directory] hands the candidates, in their order, to the
    loop. *)
Lemma convert_directory_walks_candidates
      (env : Env) (self : AudioConverter) (input_dir : Path)
      (recursive : bool) (w : World) :
  Fs.is_dir (w_fs w) input_dir = true ->
  collect_audio_files (Fs.glob (w_fs w) input_dir) SUPPORTED_FORMATS
                      (glob_pattern recursive) <> [] ->
  let files := candidate_files (Fs.glob (w_fs w) input_dir)
                               SUPPORTED_FORMATS recursive in
  convert_directory env self input_dir recursive w
  = (print env (newline ++ "Found " ++ PyStr.of_nat (List.length files)
            ++ " audio file(s) to convert..." ++ newline) ;;;
     convert_each env self input_dir recursive (List.length files) 1
                  files) w.
Proof.
  intros Hdir Hsome files.
  assert (Hex : Fs.exists_ (w_fs w) input_dir = true).
  { unfold Fs.is_dir in Hdir. unfold Fs.exists_.
    now destruct (Fs.kind_of (w_fs w) input_dir). }
  unfold convert_directory, bind at 1, path_exists. rewrite Hex.
  cbv beta iota delta [negb].
  unfold bind at 1, path_is_dir. rewrite Hdir.
  cbv beta iota delta [negb].
  unfold bind at 1, get_fs. cbv beta iota.
  destruct (collect_audio_files (Fs.glob (w_fs w) input_dir)
                                SUPPORTED_FORMATS (glob_pattern recursive));
    [contradiction | reflexivity].
Qed.

(** The loop returns one result for each candidate. *)
Lemma convert_each_length
      (env : Env) (self : AudioConverter) (input_dir : Path)
      (recursive : bool) (total : nat) (files : list Path) :
  forall (i : nat) (w w' : World) (results : list (bool * string)),
    convert_each env self input_dir recursive total i files w
    = (Return results, w') ->
    List.length results = List.length files.
Proof.
  induction files as [|f files IH]; intros i w w' results H; simpl in H.
  - inversion H. reflexivity.
  - unfold bind at 1 in H.
    destruct (convert_candidate env self input_dir recursive total i f w)
      as [[r|e] w1]; [|discriminate].
    unfold bind at 1 in H.
    destruct (convert_each env self input_dir recursive total (S i)
                           files w1) as [[rs|e] w2] eqn:E;
      [|discriminate].
    inversion H; subst. simpl. f_equal. exact (IH _ _ _ _ E).
Qed.

(** C3.  The sequence of candidates that [convert_directory] walks has
    no repeated entry, increases strictly in the order of paths (parts
    compared one by one, each part by code point), and holds exactly
    the paths that the globs returned.  It is the same for any two
    runs whose globs return the same paths per pattern, whatever the
    order and multiplicity in which they are returned (so also when a
    file matches both the lower-case and the upper-case pattern), and
    whatever the order in which the set of formats is iterated. *)
Theorem candidate_files_deterministic
        (glob1 glob2 : string -> list Path)
        (formats1 formats2 : list string) (recursive : bool) :
  (forall pat p, In p (glob1 pat) <-> In p (glob2 pat)) ->
  (forall ext, In ext formats1 <-> In ext formats2) ->
  candidate_files glob1 formats1 recursive
  = candidate_files glob2 formats2 recursive /\
  NoDup (candidate_files glob1 formats1 recursive) /\
  StronglySorted lt (candidate_files glob1 formats1 recursive) /\
  (forall p,
      In p (candidate_files glob1 formats1 recursive) <->
      In p (collect_audio_files glob1 formats1 (glob_pattern recursive))).
Proof.
  intros Hglob Hfmt. unfold candidate_files.
  destruct (sorted_set_spec
              (collect_audio_files glob1 formats1 (glob_pattern recursive)))
    as [Hnd [Hs Hin]].
  split; [|split; [|split]]; try assumption.
  apply sorted_set_same_elements. intro x.
  rewrite !in_collect_audio_files. split.
  - intros [ext [Hext H]]. exists ext. split; [now apply Hfmt|].
    now rewrite <- !Hglob.
  - intros [ext [Hext H]]. exists ext. split; [now apply Hfmt|].
    now rewrite !Hglob.
Qed.

(** ** Two enumerations of one file system *)

Lemma in_lookup (fs : FS) (p : Path) (k : Kind) :
  NoDup (map fst fs) -> In (p, k) fs -> Fs.lookup fs p = Some k.
Proof.
  induction fs as [|[q k'] fs IH]; intros Hnd Hin; [contradiction|].
  simpl in *. inversion Hnd as [|? ? Hq Hnd']; subst.
  destruct Hin as [E|Hin].
  - inversion E; subst. now rewrite PathFacts.eqb_refl.
  - destruct (eqb q p) eqn:E.
    + apply PathFacts.eqb_eq in E. subst q. exfalso. apply Hq.
      change p with (fst (p, k)). now apply in_map.
    + now apply IH.
Qed.

Lemma lookup_permutation (fs1 fs2 : FS) (p : Path) :
  Permutation fs1 fs2 -> NoDup (map fst fs1) ->
  Fs.lookup fs1 p = Fs.lookup fs2 p.
Proof.
  intros Hperm Hnd1.
  assert (Hnd2 : NoDup (map fst fs2))
    by (eapply Permutation_NoDup; [apply Permutation_map; exact Hperm
                                  | exact Hnd1]).
  destruct (Fs.lookup fs1 p) as [k|] eqn:E1.
  - symmetry. apply in_lookup; [assumption|].
    apply (Permutation_in _ Hperm). now apply lookup_in.
  - destruct (Fs.lookup fs2 p) as [k|] eqn:E2; [|reflexivity].
    apply lookup_in in E2.
    apply (Permutation_in _ (Permutation_sym Hperm)) in E2.
    apply (in_lookup fs1 p k Hnd1) in E2. congruence.
Qed.

Lemma glob_permutation (fs1 fs2 : FS) (dir : Path) (pat : string)
      (p : Path) :
  Permutation fs1 fs2 -> NoDup (map fst fs1) ->
  In p (Fs.glob fs1 dir pat) <-> In p (Fs.glob fs2 dir pat).
Proof.
  intros Hperm Hnd. unfold Fs.glob, Fs.is_dir, Fs.kind_of.
  rewrite (lookup_permutation fs1 fs2 dir Hperm Hnd).
  assert (Hmem : forall q, In q (map fst fs1) <-> In q (map fst fs2)).
  { intro q. split; apply Permutation_in; apply Permutation_map;
      [exact Hperm | exact (Permutation_sym Hperm)]. }
  destruct (negb _); [reflexivity|].
  destruct (String.prefix "**/*" pat);
    [|destruct (String.prefix "*" pat); [|reflexivity]];
    rewrite !filter_In, Hmem; reflexivity.
Qed.

(** The candidates depend on which entries the file system holds, not
    on the order in which the operating system lists them nor on the
    order in which Python iterates the set of formats. *)
Lemma candidate_files_same_file_system
      (fs1 fs2 : FS) (formats : list string) (dir : Path)
      (recursive : bool) :
  Permutation fs1 fs2 -> NoDup (map fst fs1) ->
  Permutation SUPPORTED_FORMATS formats ->
  candidate_files (Fs.glob fs1 dir) SUPPORTED_FORMATS recursive
  = candidate_files (Fs.glob fs2 dir) formats recursive.
Proof.
  intros Hperm Hnd Hfmt. unfold candidate_files.
  apply sorted_set_same_elements. intro x.
  rewrite !in_collect_audio_files. split.
  - intros [ext [Hext H]]. exists ext.
    split; [exact (Permutation_in _ Hfmt Hext)|].
    now rewrite <- !(glob_permutation fs1 fs2 dir _ x Hperm Hnd).
  - intros [ext [Hext H]]. exists ext.
    split; [exact (Permutation_in _ (Permutation_sym Hfmt) Hext)|].
    now rewrite !(glob_permutation fs1 fs2 dir _ x Hperm Hnd).
Qed.

End Directory.

Lemma candidate_files_deterministic_witness :
  candidate_files (Fs.glob Sample.fs ["A"]) SUPPORTED_FORMATS true
  = candidate_files (Sample.glob_backwards ["A"])
                    (rev SUPPORTED_FORMATS) true /\
  candidate_files (Fs.glob Sample.fs ["A"]) SUPPORTED_FORMATS true
  = [["A"; "notes.mp3"]; ["A"; "sub1"; "x.flac"]; ["A"; "sub2"; "x.mp3"];
     ["A"; "y.WAV"]; ["A"; "y.mp3"]].
Proof.
  split; [|reflexivity].
  refine (proj1 (candidate_files_deterministic
                   (Fs.glob Sample.fs ["A"]) (Sample.glob_backwards ["A"])
                   SUPPORTED_FORMATS (rev SUPPORTED_FORMATS) true _ _)).
  - intros pat p. unfold Sample.glob_backwards.
    rewrite in_app_iff, <- in_rev. tauto.
  - intro ext. apply in_rev.
Defined.

(** Where names are matched without regard to case every file is found
    twice; the candidates still hold it once. *)
Example candidate_files_double_match :
  collect_audio_files (Sample.glob_ignoring_case ["A"]) [".wav"] "**/*"
  = [["A"; "y.WAV"]; ["A"; "y.WAV"]] /\
  candidate_files (Sample.glob_ignoring_case ["A"]) [".wav"] true
  = [["A"; "y.WAV"]].
Proof. split; reflexivity. Qed.

(* ================================================================== *)
(** * What a run keeps *)
(* ================================================================== *)

Section Frame.

Variable env : Env.
Variable P : World -> Prop.

Hypothesis P_print : forall f s, keeps P (print_to env f s).
Hypothesis P_mkdir : forall q, keeps P (path_mkdir_parents q).
Hypothesis P_run : forall cmd, keeps P (subprocess_run env cmd).

Lemma keeps_ret {A} (a : A) : keeps P (ret a).
Proof. intros w Hw. exact Hw. Qed.

Lemma keeps_raise {A} (e : Exn) : keeps P (@raise A e).
Proof. intros w Hw. exact Hw. Qed.

Lemma keeps_bind {A B} (m : M A) (k : A -> M B) :
  keeps P m -> (forall a, keeps P (k a)) -> keeps P (bind m k).
Proof.
  intros Hm Hk w Hw. unfold bind. specialize (Hm w Hw).
  destruct (m w) as [[a|e] w1]; simpl in *; [now apply Hk | assumption].
Qed.

Lemma keeps_try_except {A} (m : M A) (catches : Exn -> bool)
      (handler : Exn -> M A) :
  keeps P m -> (forall e, keeps P (handler e)) ->
  keeps P (try_except m catches handler).
Proof.
  intros Hm Hh w Hw. unfold try_except. specialize (Hm w Hw).
  destruct (m w) as [[a|e] w1]; simpl in *; [assumption|].
  destruct (catches e); [now apply Hh | assumption].
Qed.

Lemma keeps_path_exists (p : Path) : keeps P (path_exists p).
Proof. intros w Hw. exact Hw. Qed.

Lemma keeps_or_value_error {A} (o : option A) (msg : string) :
  keeps P (or_value_error o msg).
Proof. destruct o; intros w Hw; exact Hw. Qed.

Ltac frame :=
  repeat first
    [ apply keeps_ret
    | apply keeps_raise
    | apply keeps_path_exists
    | apply keeps_or_value_error
    | apply P_print
    | apply P_mkdir
    | apply P_run
    | apply keeps_bind; [|intro]
    | apply keeps_try_except; [|intro]
    | match goal with
      | |- keeps _ (if ?b then _ else _) => destruct b
      | |- keeps _ (match ?x with _ => _ end) => destruct x
      end ].

Lemma keeps_convert_file (self : AudioConverter) (input_path : Path)
      (o : option Path) :
  keeps P (convert_file env self input_path o).
Proof.
  unfold convert_file, skip_existing, transcode, _get_bitrate,
    read_bitrate, derive_output_path.
  frame.
Qed.

Lemma keeps_convert_candidate (self : AudioConverter) (input_dir : Path)
      (recursive : bool) (total i : nat) (audio_file : Path) :
  keeps P (convert_candidate env self input_dir recursive total i
                             audio_file).
Proof.
  unfold convert_candidate, print.
  apply keeps_bind; [apply P_print | intros _].
  apply keeps_bind; [unfold directory_output_path; frame | intro out].
  apply keeps_bind; [apply keeps_convert_file | intro r].
  apply keeps_bind; [apply P_print | intros _].
  apply keeps_ret.
Qed.

Lemma keeps_convert_each (self : AudioConverter) (input_dir : Path)
      (recursive : bool) (total : nat) (files : list Path) :
  forall i, keeps P (convert_each env self input_dir recursive total i
                                  files).
Proof.
  induction files as [|f files IH]; intro i; simpl.
  - apply keeps_ret.
  - apply keeps_bind; [apply keeps_convert_candidate | intro r].
    apply keeps_bind; [apply IH | intro rs]. apply keeps_ret.
Qed.

End Frame.

(* ================================================================== *)
(** * Two candidates, one output *)
(* ================================================================== *)

Section SameStem.

Import PurePath PathFacts.

Variable env : Env.
Variable self : AudioConverter.

Lemma lookup_app (fs l : FS) (p : Path) :
  Fs.lookup (fs ++ l)%list p
  = match Fs.lookup fs p with
    | Some k => Some k
    | None => Fs.lookup l p
    end.
Proof.
  induction fs as [|[q k] fs IH]; simpl; [reflexivity|].
  destruct (eqb q p); [reflexivity | exact IH].
Qed.

Lemma exists_app (fs l : FS) (p : Path) :
  Fs.exists_ fs p = true -> Fs.exists_ (fs ++ l)%list p = true.
Proof.
  unfold Fs.exists_, Fs.kind_of.
  destruct (nameless p); [trivial|].
  rewrite lookup_app. now destruct (Fs.lookup fs p).
Qed.

Lemma os_mkdir_keeps (fs fs' : FS) (q p : Path) :
  Fs.os_mkdir fs q = inr fs' ->
  Fs.exists_ fs p = true -> Fs.exists_ fs' p = true.
Proof.
  unfold Fs.os_mkdir.
  destruct (Fs.kind_of fs q); [discriminate|].
  destruct (Fs.kind_of fs (parent q)) as [[|]|]; try discriminate.
  intro H. inversion H; subst. apply exists_app.
Qed.

Lemma mkdir_rec_keeps (fuel : nat) :
  forall (fs fs' : FS) (q p : Path),
    Fs.mkdir_rec fuel fs q = inr fs' ->
    Fs.exists_ fs p = true -> Fs.exists_ fs' p = true.
Proof.
  induction fuel as [|fuel IH]; intros fs fs' q p H Hp; simpl in H.
  - destruct (Fs.os_mkdir fs q) as [e|fs0] eqn:E.
    + destruct (is_FileNotFoundError e).
      * destruct (eqb (parent q) q); discriminate.
      * destruct (Fs.is_dir fs q); inversion H; subst. assumption.
    + inversion H; subst. exact (os_mkdir_keeps fs fs' q p E Hp).
  - destruct (Fs.os_mkdir fs q) as [e|fs0] eqn:E.
    + destruct (is_FileNotFoundError e).
      * destruct (eqb (parent q) q); [discriminate|].
        destruct (Fs.mkdir_rec fuel fs (parent q)) as [e'|fs1] eqn:E1;
          [discriminate|].
        pose proof (IH fs fs1 (parent q) p E1 Hp) as Hp1.
        destruct (Fs.os_mkdir fs1 q) as [e'|fs2] eqn:E2.
        -- destruct (Fs.is_dir fs1 q); inversion H; subst. assumption.
        -- inversion H; subst. exact (os_mkdir_keeps fs1 fs' q p E2 Hp1).
      * destruct (Fs.is_dir fs q); inversion H; subst. assumption.
    + inversion H; subst. exact (os_mkdir_keeps fs fs' q p E Hp).
Qed.

(** Whatever exists stays, as long as no external command removes it. *)
Lemma existing_print (p : Path) (f : Stream) (s : string) :
  keeps (fun w => Fs.exists_ (w_fs w) p = true) (print_to env f s).
Proof.
  intros w Hw. unfold print_to. destruct (can_print env f s); exact Hw.
Qed.

Lemma existing_mkdir (p q : Path) :
  keeps (fun w => Fs.exists_ (w_fs w) p = true) (path_mkdir_parents q).
Proof.
  intros w Hw. unfold path_mkdir_parents.
  destruct (Fs.mkdir_parents (w_fs w) q) as [e|fs'] eqn:E; simpl;
    [assumption|].
  exact (mkdir_rec_keeps _ _ _ _ _ E Hw).
Qed.

Lemma existing_run (p : Path) (cmd : list string) :
  never_removes env p ->
  keeps (fun w => Fs.exists_ (w_fs w) p = true) (subprocess_run env cmd).
Proof.
  intros Hkeep w Hw. unfold subprocess_run.
  specialize (Hkeep cmd (w_fs w) Hw).
  destruct (run env cmd (w_fs w)) as [o fs']. exact Hkeep.
Qed.

(** A call that was logged stays logged. *)
Lemma logged_print (c : list string) (f : Stream) (s : string) :
  keeps (fun w => In c (w_spawned w)) (print_to env f s).
Proof.
  intros w Hw. unfold print_to. destruct (can_print env f s); exact Hw.
Qed.

Lemma logged_mkdir (c : list string) (q : Path) :
  keeps (fun w => In c (w_spawned w)) (path_mkdir_parents q).
Proof.
  intros w Hw. unfold path_mkdir_parents.
  destruct (Fs.mkdir_parents (w_fs w) q); exact Hw.
Qed.

Lemma logged_run (c cmd : list string) :
  keeps (fun w => In c (w_spawned w)) (subprocess_run env cmd).
Proof.
  intros w Hw. unfold subprocess_run.
  destruct (run env cmd (w_fs w)) as [o fs']. simpl.
  apply in_or_app. now left.
Qed.

(** How [convert_file] came to return a result. *)
Lemma convert_file_inv (input_path : Path) (o : option Path)
      (w w' : World) (r : bool * string) :
  convert_file env self input_path o w = (Return r, w') ->
  (Fs.exists_ (w_fs w) input_path = false /\
   r = (false, msg_not_found input_path) /\ w' = w) \/
  (Fs.exists_ (w_fs w) input_path = true /\
   mem (PyStr.lower (suffix input_path)) SUPPORTED_FORMATS = false /\
   r = (false, msg_unsupported input_path) /\ w' = w) \/
  (Fs.exists_ (w_fs w) input_path = true /\
   mem (PyStr.lower (suffix input_path)) SUPPORTED_FORMATS = true /\
   exists out fs1,
     derive_output_path self input_path o w = (Return out, w) /\
     Fs.mkdir_parents (w_fs w) (parent out) = inr fs1 /\
     ((Fs.exists_ fs1 out && negb (overwrite self) = true /\
       skip_existing env input_path out (after w fs1 []) = (Return r, w'))
      \/
      (Fs.exists_ fs1 out && negb (overwrite self) = false /\
       transcode env self input_path out (after w fs1 [])
       = (Return r, w')))).
Proof.
  intro Hrun.
  destruct (Fs.exists_ (w_fs w) input_path) eqn:Hex.
  2:{ left. unfold convert_file, bind, path_exists at 1 in Hrun.
      rewrite Hex in Hrun. inversion Hrun; subst. auto. }
  right.
  destruct (mem (PyStr.lower (suffix input_path)) SUPPORTED_FORMATS)
    eqn:Hsup.
  2:{ left.
      rewrite (convert_file_unsupported_step env self input_path o w
                 Hex Hsup) in Hrun.
      inversion Hrun; subst. auto. }
  right. split; [reflexivity|]. split; [reflexivity|].
  destruct (derive_output_path self input_path o w) as [[out|e] w1]
    eqn:Hder.
  2:{ unfold convert_file, bind, path_exists at 1 in Hrun.
      rewrite Hex in Hrun. cbv beta iota delta [negb] in Hrun.
      rewrite Hsup in Hrun. cbv beta iota in Hrun.
      rewrite Hder in Hrun. discriminate. }
  pose proof (derive_output_path_state self input_path o w w1 _ Hder);
    subst w1.
  destruct (Fs.mkdir_parents (w_fs w) (parent out)) as [e|fs1] eqn:Hmk.
  { unfold convert_file, bind, path_exists at 1 in Hrun.
    rewrite Hex in Hrun. cbv beta iota delta [negb] in Hrun.
    rewrite Hsup in Hrun. cbv beta iota in Hrun.
    rewrite Hder in Hrun. unfold path_mkdir_parents in Hrun.
    rewrite Hmk in Hrun. discriminate. }
  exists out, fs1. split; [reflexivity|]. split; [exact Hmk|].
  rewrite (convert_file_validated env self input_path out o w fs1
             Hex Hsup Hder Hmk) in Hrun.
  destruct (Fs.exists_ fs1 out && negb (overwrite self)); auto.
Qed.

Lemma derive_explicit (input_path out out' : Path) (w : World) :
  derive_output_path self input_path (Some out) w = (Return out', w) ->
  out' = out.
Proof. unfold derive_output_path, ret. now inversion 1. Qed.

Lemma not_skip_not_found (p : Path) :
  is_skip (false, msg_not_found p) = false.
Proof. reflexivity. Qed.

Lemma not_skip_unsupported (p : Path) :
  is_skip (false, msg_unsupported p) = false.
Proof. reflexivity. Qed.

(** A candidate that was converted or skipped leaves its output
    behind. *)
Lemma output_left_behind (input_path out : Path) (w w' : World)
      (r : bool * string) :
  never_removes env out -> writes_output env self out ->
  convert_file env self input_path (Some out) w = (Return r, w') ->
  fst r = true \/ is_skip r = true ->
  Fs.exists_ (w_fs w') out = true.
Proof.
  intros Hkeep Hwrite Hrun Hr.
  destruct (convert_file_inv input_path (Some out) w w' r Hrun)
    as [[_ [-> _]]|[[_ [_ [-> _]]]|[_ [_ [out' [fs1 [Hder [Hmk Hcase]]]]]]]].
  - destruct Hr as [Hr|Hr]; discriminate Hr.
  - destruct Hr as [Hr|Hr]; discriminate Hr.
  - apply derive_explicit in Hder. subst out'.
    destruct Hcase as [[Hcond Hskip]|[Hcond Htrans]].
    + apply andb_true_iff in Hcond. destruct Hcond as [Hout _].
      rewrite skip_existing_run in Hskip.
      destruct (PyStr.lower (suffix input_path) =? ".mp3");
        inversion Hskip; subst; simpl; [|assumption].
      now apply Hkeep.
    + rewrite transcode_run in Htrans. simpl in Htrans.
      inversion Htrans as [[Hres Hw']]. simpl.
      destruct (fst (run env (ffmpeg_cmd self input_path out) fs1))
        as [c|e] eqn:Hlaunch.
      * destruct (Z.eqb_spec (returncode c) 0) as [Hrc|Hrc].
        -- now apply (Hwrite input_path fs1 c).
        -- inversion Hres; subst r.
           destruct Hr as [Hr|Hr]; discriminate Hr.
      * destruct (is_Exception e); [|discriminate].
        inversion Hres; subst r.
        destruct Hr as [Hr|Hr]; discriminate Hr.
Qed.

(** With overwriting off, a validated candidate whose output is there
    is skipped. *)
Lemma existing_output_is_skipped (input_path out : Path) (w w' : World)
      (r : bool * string) :
  overwrite self = false ->
  Fs.exists_ (w_fs w) input_path = true ->
  mem (PyStr.lower (suffix input_path)) SUPPORTED_FORMATS = true ->
  Fs.exists_ (w_fs w) out = true ->
  convert_file env self input_path (Some out) w = (Return r, w') ->
  r = (false, msg_file_exists out) \/
  (PyStr.lower (suffix input_path) = ".mp3" /\
   r = (false, msg_already_320 input_path)).
Proof.
  intros Hov Hex Hsup Hout Hrun.
  destruct (convert_file_inv input_path (Some out) w w' r Hrun)
    as [[Hno _]|[[_ [Hno _]]|[_ [_ [out' [fs1 [Hder [Hmk Hcase]]]]]]]];
    try congruence.
  apply derive_explicit in Hder. subst out'.
  pose proof (mkdir_rec_keeps _ _ _ _ _ Hmk Hout) as Hout1.
  rewrite Hout1, Hov in Hcase.
  destruct Hcase as [[_ Hskip]|[Hcond _]]; [|discriminate].
  rewrite skip_existing_run in Hskip.
  destruct (String.eqb_spec (PyStr.lower (suffix input_path)) ".mp3")
    as [Hmp3|_]; inversion Hskip; subst; auto.
  destruct (at_target _); auto.
Qed.

(** With overwriting on, a validated candidate is handed to the
    transcoder. *)
Lemma overwrite_transcodes (input_path out : Path) (w w' : World)
      (r : bool * string) :
  overwrite self = true ->
  Fs.exists_ (w_fs w) input_path = true ->
  mem (PyStr.lower (suffix input_path)) SUPPORTED_FORMATS = true ->
  convert_file env self input_path (Some out) w = (Return r, w') ->
  In (ffmpeg_cmd self input_path out) (w_spawned w').
Proof.
  intros Hov Hex Hsup Hrun.
  destruct (convert_file_inv input_path (Some out) w w' r Hrun)
    as [[Hno _]|[[_ [Hno _]]|[_ [_ [out' [fs1 [Hder [Hmk Hcase]]]]]]]];
    try congruence.
  apply derive_explicit in Hder. subst out'.
  rewrite Hov, andb_false_r in Hcase.
  destruct Hcase as [[Hcond _]|[_ Htrans]]; [discriminate|].
  rewrite transcode_run in Htrans. simpl in Htrans.
  inversion Htrans; subst. simpl.
  apply in_or_app. right. now left.
Qed.

Variable input_dir : Path.
Variable recursive : bool.
Variable d : string.

Hypothesis Hroot : output_dir self = Some d.
Hypothesis Hd : d <> "".
Hypothesis Hflat : keep_structure self && recursive = false.

Lemma flattened_output (f : Path) (w : World) :
  directory_output_path self input_dir recursive f w
  = (Return (flattened_path d f), w).
Proof.
  unfold directory_output_path.
  now rewrite (nonempty_some _ d Hroot Hd), Hflat.
Qed.

Lemma convert_candidate_inv (total i : nat) (f : Path) (w w' : World)
      (r : bool * string) :
  convert_candidate env self input_dir recursive total i f w
  = (Return r, w') ->
  exists w1 w2,
    w_fs w1 = w_fs w /\ w_spawned w1 = w_spawned w /\
    convert_file env self f (Some (flattened_path d f)) w1
    = (Return r, w2) /\
    w_fs w' = w_fs w2 /\ w_spawned w' = w_spawned w2.
Proof.
  intro H. unfold convert_candidate in H. unfold bind at 1 in H.
  unfold print, print_to in H.
  destruct (can_print env Stdout _) in H; [|discriminate].
  unfold bind at 1 in H. rewrite flattened_output in H.
  unfold bind at 1 in H.
  match type of H with
  | context [convert_file env self f (Some (flattened_path d f)) ?w1] =>
      exists w1;
      destruct (convert_file env self f (Some (flattened_path d f)) w1)
        as [[r0|e] w2] eqn:E
  end; [|discriminate].
  exists w2. unfold bind in H.
  destruct (can_print env Stdout _) in H; [|discriminate].
  inversion H; subst. repeat split; reflexivity.
Qed.

Lemma convert_each_cons_inv (total i : nat) (f : Path) (rest : list Path)
      (w w' : World) (results : list (bool * string)) :
  convert_each env self input_dir recursive total i (f :: rest) w
  = (Return results, w') ->
  exists r rs w1,
    convert_candidate env self input_dir recursive total i f w
    = (Return r, w1) /\
    convert_each env self input_dir recursive total (S i) rest w1
    = (Return rs, w') /\
    results = r :: rs.
Proof.
  simpl. unfold bind at 1.
  destruct (convert_candidate env self input_dir recursive total i f w)
    as [[r|e] w1]; [|discriminate].
  unfold bind at 1.
  destruct (convert_each env self input_dir recursive total (S i) rest w1)
    as [[rs|e] w2] eqn:E; [|discriminate].
  intro H. inversion H; subst. exists r, rs, w1.
  split; [reflexivity|]. split; [exact E | reflexivity].
Qed.

Lemma convert_each_app_inv (total : nat) (l1 l2 : list Path) :
  forall (i : nat) (w w' : World) (results : list (bool * string)),
    convert_each env self input_dir recursive total i (l1 ++ l2)%list w
    = (Return results, w') ->
    exists rs1 rs2 w1,
      convert_each env self input_dir recursive total i l1 w
      = (Return rs1, w1) /\
      convert_each env self input_dir recursive total
                   (i + List.length l1) l2 w1
      = (Return rs2, w') /\
      results = (rs1 ++ rs2)%list /\
      List.length rs1 = List.length l1.
Proof.
  induction l1 as [|f l1 IH]; intros i w w' results H.
  - exists [], results, w. simpl in *. rewrite Nat.add_0_r. auto.
  - change ((f :: l1) ++ l2)%list with (f :: (l1 ++ l2))%list in H.
    apply convert_each_cons_inv in H.
    destruct H as [r [rs [w1 [Hc [Hrest ->]]]]].
    apply IH in Hrest.
    destruct Hrest as [rs1 [rs2 [w2 [H1 [H2 [-> Hlen]]]]]].
    exists (r :: rs1), rs2, w2. repeat split.
    + simpl. unfold bind at 1. rewrite Hc. unfold bind at 1.
      now rewrite H1.
    + simpl List.length. now rewrite Nat.add_succ_r.
    + simpl. now rewrite Hlen.
Qed.

Lemma each_keeps_existing (p : Path) (total i : nat) (files : list Path)
      (w w' : World) (o : Outcome (list (bool * string))) :
  never_removes env p ->
  convert_each env self input_dir recursive total i files w = (o, w') ->
  Fs.exists_ (w_fs w) p = true -> Fs.exists_ (w_fs w') p = true.
Proof.
  intros Hk Hrun Hp.
  pose proof (keeps_convert_each
                env (fun w => Fs.exists_ (w_fs w) p = true)
                (existing_print p) (existing_mkdir p)
                (fun cmd => existing_run p cmd Hk)
                self input_dir recursive total files i w Hp) as H.
  now rewrite Hrun in H.
Qed.

Lemma candidate_keeps_existing (p : Path) (total i : nat) (f : Path)
      (w w' : World) (o : Outcome (bool * string)) :
  never_removes env p ->
  convert_candidate env self input_dir recursive total i f w = (o, w') ->
  Fs.exists_ (w_fs w) p = true -> Fs.exists_ (w_fs w') p = true.
Proof.
  intros Hk Hrun Hp.
  pose proof (keeps_convert_candidate
                env (fun w => Fs.exists_ (w_fs w) p = true)
                (existing_print p) (existing_mkdir p)
                (fun cmd => existing_run p cmd Hk)
                self input_dir recursive total i f w Hp) as H.
  now rewrite Hrun in H.
Qed.

Lemma each_keeps_logged (c : list string) (total i : nat)
      (files : list Path) (w w' : World)
      (o : Outcome (list (bool * string))) :
  convert_each env self input_dir recursive total i files w = (o, w') ->
  In c (w_spawned w) -> In c (w_spawned w').
Proof.
  intros Hrun Hc.
  pose proof (keeps_convert_each
                env (fun w => In c (w_spawned w))
                (logged_print c) (logged_mkdir c) (logged_run c)
                self input_dir recursive total files i w Hc) as H.
  now rewrite Hrun in H.
Qed.

(** C10, as amended.  In the flattened mode of [convert_directory] (a
    non-empty output directory [d], with [keep_structure] or
    [recursive] off) two candidates with the same stem get the same
    output path [d/stem.mp3].  Let the later one exist with a supported
    extension, and let no external command remove it or that output.
    With [overwrite] off, if the earlier candidate was converted (by a
    transcoder that writes its output when it exits with 0) or was
    itself skipped, the later one is reported as skipped: as "file
    exists", or as "already 320kbps" when it is an [.mp3] that the
    probe found at 320 kbit/s or more.  With [overwrite] on, the
    transcoder is started for the later one too, with [-y] and the same
    output path as its last argument. *)
Theorem same_stem_same_output
        (f1 f2 : Path) (l1 l2 l3 : list Path) (total i : nat)
        (w w' : World) (results : list (bool * string)) :
  stem f1 = stem f2 ->
  PyStr.contains "/" (name f1) = false ->
  let out := (of_string d ++ [(stem f1 ++ ".mp3")%string])%list in
  never_removes env out ->
  never_removes env f2 ->
  writes_output env self out ->
  Fs.exists_ (w_fs w) f2 = true ->
  mem (PyStr.lower (suffix f2)) SUPPORTED_FORMATS = true ->
  convert_each env self input_dir recursive total i
               (l1 ++ f1 :: l2 ++ f2 :: l3)%list w
  = (Return results, w') ->
  (forall w0,
      directory_output_path self input_dir recursive f1 w0
      = (Return out, w0) /\
      directory_output_path self input_dir recursive f2 w0
      = (Return out, w0)) /\
  exists rs1 r1 rs2 r2 rs3,
    results = (rs1 ++ r1 :: rs2 ++ r2 :: rs3)%list /\
    List.length rs1 = List.length l1 /\
    List.length rs2 = List.length l2 /\
    (overwrite self = false ->
     fst r1 = true \/ is_skip r1 = true ->
     r2 = (false, "Skipped (file exists): " ++ stem f1 ++ ".mp3") \/
     (PyStr.lower (suffix f2) = ".mp3" /\
      r2 = (false, "Skipped (already 320kbps): " ++ name f2))) /\
    (overwrite self = true ->
     In (ffmpeg_cmd self f2 out) (w_spawned w') /\
     In "-y" (ffmpeg_cmd self f2 out) /\
     last (ffmpeg_cmd self f2 out) "" = str out).
Proof.
  intros Hstem Hslash out Hkeep_out Hkeep_f2 Hwrite Hf2 Hsup Hrun.
  assert (Hout1 : flattened_path d f1 = out).
  { unfold flattened_path, out.
    apply join_str_mp3. now apply stem_slash_free. }
  assert (Hout2 : flattened_path d f2 = out).
  { rewrite <- Hout1. unfold flattened_path. now rewrite Hstem. }
  assert (Hname : name out = (stem f1 ++ ".mp3")%string).
  { unfold out. apply name_snoc. apply plain_not_anchor.
    apply mp3_name_plain. now apply stem_slash_free. }
  split.
  { intro w0. rewrite !flattened_output, Hout1, Hout2. auto. }
  apply convert_each_app_inv in Hrun.
  destruct Hrun as [rs1 [rsA [wa [Hl1 [HrunA [-> Hlen1]]]]]].
  apply convert_each_cons_inv in HrunA.
  destruct HrunA as [r1 [rsB [wb [Hc1 [HrunB ->]]]]].
  apply convert_each_app_inv in HrunB.
  destruct HrunB as [rs2 [rsC [wc [Hl2 [HrunC [-> Hlen2]]]]]].
  apply convert_each_cons_inv in HrunC.
  destruct HrunC as [r2 [rs3 [wd [Hc2 [Hl3 ->]]]]].
  exists rs1, r1, rs2, r2, rs3.
  split; [reflexivity|]. split; [assumption|]. split; [assumption|].
  assert (Hf2c : Fs.exists_ (w_fs wc) f2 = true).
  { eapply each_keeps_existing; [exact Hkeep_f2 | exact Hl2 |].
    eapply candidate_keeps_existing; [exact Hkeep_f2 | exact Hc1 |].
    eapply each_keeps_existing; [exact Hkeep_f2 | exact Hl1 | exact Hf2]. }
  apply convert_candidate_inv in Hc2.
  destruct Hc2 as [wc1 [wc2 [Hfs1 [_ [Hfile2 [_ Hsp2]]]]]].
  rewrite Hout2 in Hfile2. rewrite <- Hfs1 in Hf2c.
  split.
  - intros Hov Hr1.
    apply convert_candidate_inv in Hc1.
    destruct Hc1 as [wa1 [wa2 [_ [_ [Hfile1 [Hfsb _]]]]]].
    rewrite Hout1 in Hfile1.
    pose proof (output_left_behind f1 out wa1 wa2 r1
                  Hkeep_out Hwrite Hfile1 Hr1) as Hleft.
    rewrite <- Hfsb in Hleft.
    assert (Houtc : Fs.exists_ (w_fs wc1) out = true).
    { rewrite Hfs1.
      eapply each_keeps_existing; [exact Hkeep_out | exact Hl2 |].
      exact Hleft. }
    destruct (existing_output_is_skipped f2 out wc1 wc2 r2
                Hov Hf2c Hsup Houtc Hfile2) as [->|[Hmp3 ->]].
    + left. unfold msg_file_exists. now rewrite Hname.
    + right. split; [assumption | reflexivity].
  - intro Hov. split; [|split].
    + eapply each_keeps_logged; [exact Hl3|]. rewrite Hsp2.
      exact (overwrite_transcodes f2 out wc1 wc2 r2 Hov Hf2c Hsup Hfile2).
    + unfold ffmpeg_cmd. rewrite Hov. apply in_or_app. right.
      now left.
    + unfold ffmpeg_cmd. rewrite !app_assoc. apply last_last.
Qed.

End SameStem.

(** X22.  Whether a file is skipped is settled before any external
    process runs: if it is skipped with one behaviour of the external
    commands, it is skipped with any other. *)
Lemma skip_is_settled_without_processes
      (env env' : Env) (self : AudioConverter)
      (input_path : Path) (o : option Path) (w w' : World)
      (r : bool * string) :
  convert_file env self input_path o w = (Return r, w') ->
  is_skip r = true ->
  exists r', fst (convert_file env' self input_path o w) = Return r' /\
             is_skip r' = true.
Proof.
  intros Hrun Hskip.
  destruct (convert_file_inv env self input_path o w w' r Hrun)
    as [[_ [-> _]]|[[_ [_ [-> _]]]
                   |[Hex [Hsup [out [fs1 [Hder [Hmk Hcase]]]]]]]];
    try discriminate Hskip.
  destruct Hcase as [[Hcond _]|[_ Htrans]].
  - rewrite (convert_file_validated env' self input_path out o w fs1
               Hex Hsup Hder Hmk), Hcond, skip_existing_run.
    destruct (PyStr.lower (PurePath.suffix input_path) =? ".mp3"); simpl.
    + destruct (at_target _); eexists; split; reflexivity.
    + eexists; split; reflexivity.
  - rewrite transcode_run in Htrans. simpl in Htrans.
    destruct (fst (run env (ffmpeg_cmd self input_path out) fs1))
      as [c|e].
    + destruct (returncode c =? 0)%Z; inversion Htrans; subst;
        discriminate Hskip.
    + destruct (is_Exception e); inversion Htrans; subst.
      discriminate Hskip.
Qed.

(** ** The sample transcoder keeps the assumptions made of it *)

Lemma exists_snoc (fs : FS) (p : Path) (k : Kind) :
  Fs.exists_ (fs ++ [(p, k)])%list p = true.
Proof.
  unfold Fs.exists_, Fs.kind_of.
  destruct (PurePath.nameless p); [reflexivity|].
  rewrite lookup_app. destruct (Fs.lookup fs p); [reflexivity|].
  simpl. now rewrite PathFacts.eqb_refl.
Qed.

Lemma sample_never_removes (bit_rate : string) (p : Path) :
  never_removes (Sample.env bit_rate) p.
Proof.
  intros cmd fs Hp. simpl. unfold Sample.run_ok.
  destruct cmd as [|prog args]; [exact Hp|].
  destruct (prog =? "ffmpeg"); simpl.
  - destruct (Fs.exists_ fs (PurePath.of_string (last args "")));
      [exact Hp | now apply exists_app].
  - destruct (prog =? "ffprobe"); exact Hp.
Qed.

Lemma sample_writes_output (bit_rate : string) (self : AudioConverter)
      (out : Path) :
  PurePath.of_string (PurePath.str out) = out ->
  writes_output (Sample.env bit_rate) self out.
Proof.
  intros Hround input_path fs c _ _.
  unfold ffmpeg_cmd.
  destruct (overwrite self);
    cbn [run Sample.env Sample.run_ok app last String.eqb Ascii.eqb
         Bool.eqb snd];
    rewrite Hround;
    (destruct (Fs.exists_ fs out) eqn:E; [exact E | apply exists_snoc]).
Qed.

(** C10, as stated, fails.  [A/sub1/x.flac] and [A/sub2/x.mp3] are both
    sent to [B/x.mp3].  With a transcoder that works and a probe that
    reports 320000 bit/s, the later candidate is reported as "already
    320kbps", not as "file exists"; with a transcoder that rejects the
    earlier candidate, the later one is not skipped at all. *)
Lemma same_stem_file_exists_counterexample :
  let f1 := ["A"; "sub1"; "x.flac"] in
  let f2 := ["A"; "sub2"; "x.mp3"] in
  let rejected :=
    newline ++ "Invalid data found when processing input" in
  candidate_files (Fs.glob Sample.fs_pair ["A"]) SUPPORTED_FORMATS true
  = [f1; f2] /\
  fst (directory_output_path (Sample.flat_into_B false) ["A"] true f1
                             Sample.world_pair)
  = Return ["B"; "x.mp3"] /\
  fst (directory_output_path (Sample.flat_into_B false) ["A"] true f2
                             Sample.world_pair)
  = Return ["B"; "x.mp3"] /\
  fst (convert_directory (Sample.env "320000") (Sample.flat_into_B false)
                         ["A"] true Sample.world_pair)
  = Return [(true, "Converted: x.flac → x.mp3");
            (false, "Skipped (already 320kbps): x.mp3")] /\
  (false, "Skipped (already 320kbps): x.mp3")
  <> (false, "Skipped (file exists): x.mp3") /\
  fst (convert_directory Sample.env_rejecting (Sample.flat_into_B false)
                         ["A"] true Sample.world_pair)
  = Return [(false, "Conversion failed: x.flac" ++ rejected);
            (false, "Conversion failed: x.mp3" ++ rejected)].
Proof.
  repeat split; try reflexivity. discriminate.
Qed.

Lemma same_stem_same_output_witness :
  let f1 := ["A"; "sub1"; "x.flac"] in
  let f2 := ["A"; "sub2"; "x.mp3"] in
  (exists results w',
      convert_each (Sample.env "128000") (Sample.flat_into_B false)
                   ["A"] true 2 1 [f1; f2] Sample.world_pair
      = (Return results, w') /\
      nth 1 results (true, "")
      = (false, "Skipped (file exists): x.mp3")) /\
  (exists results w',
      convert_each (Sample.env "128000") (Sample.flat_into_B true)
                   ["A"] true 2 1 [f1; f2] Sample.world_pair
      = (Return results, w') /\
      In (ffmpeg_cmd (Sample.flat_into_B true) f2 ["B"; "x.mp3"])
         (w_spawned w')).
Proof.
  intros f1 f2.
  assert (Hslash : PyStr.contains "/" (PurePath.name f1) = false)
    by reflexivity.
  split.
  - destruct (convert_each (Sample.env "128000") (Sample.flat_into_B false)
                           ["A"] true 2 1 [f1; f2] Sample.world_pair)
      as [[results|e] w'] eqn:Hrun; [|discriminate Hrun].
    exists results, w'. split; [reflexivity|].
    destruct (proj2 (same_stem_same_output
                       (Sample.env "128000") (Sample.flat_into_B false)
                       ["A"] true "B" eq_refl ltac:(discriminate) eq_refl
                       f1 f2 [] [] [] 2 1 Sample.world_pair w' results
                       eq_refl Hslash
                       (sample_never_removes "128000" _)
                       (sample_never_removes "128000" _)
                       (sample_writes_output "128000" _ _ eq_refl)
                       eq_refl eq_refl Hrun))
      as [rs1 [r1 [rs2 [r2 [rs3 [Hres [Hl1 [Hl2 [Hoff _]]]]]]]]].
    destruct rs1; [|discriminate Hl1]. destruct rs2; [|discriminate Hl2].
    simpl in Hres. rewrite Hres. simpl nth.
    vm_compute in Hrun. inversion Hrun as [[Hresults Hw']].
    rewrite Hres in Hresults. inversion Hresults as [[Hr1 Hr2 Hrs3]].
    reflexivity.
  - destruct (convert_each (Sample.env "128000") (Sample.flat_into_B true)
                           ["A"] true 2 1 [f1; f2] Sample.world_pair)
      as [[results|e] w'] eqn:Hrun; [|discriminate Hrun].
    exists results, w'. split; [reflexivity|].
    destruct (proj2 (same_stem_same_output
                       (Sample.env "128000") (Sample.flat_into_B true)
                       ["A"] true "B" eq_refl ltac:(discriminate) eq_refl
                       f1 f2 [] [] [] 2 1 Sample.world_pair w' results
                       eq_refl Hslash
                       (sample_never_removes "128000" _)
                       (sample_never_removes "128000" _)
                       (sample_writes_output "128000" _ _ eq_refl)
                       eq_refl eq_refl Hrun))
      as [rs1 [r1 [rs2 [r2 [rs3 [_ [_ [_ [_ Hon]]]]]]]]].
    exact (proj1 (Hon eq_refl)).
Defined.

(* ================================================================== *)
(** * Further properties: one file *)
(* ================================================================== *)

Section OneFileMore.

Import PurePath PathFacts.

Variable env : Env.
Variable self : AudioConverter.

(** [convert_file], step by step. *)
Lemma convert_file_unfold (input_path : Path) (o : option Path)
      (w : World) :
  convert_file env self input_path o w
  = if negb (Fs.exists_ (w_fs w) input_path)
    then (Return (false, msg_not_found input_path), w)
    else if negb (mem (PyStr.lower (suffix input_path)) SUPPORTED_FORMATS)
    then (Return (false, msg_unsupported input_path), w)
    else
      match fst (derive_output_path self input_path o w) with
      | Raise e => (Raise e, w)
      | Return out =>
          match Fs.mkdir_parents (w_fs w) (parent out) with
          | inl e => (Raise e, w)
          | inr fs1 =>
              (if Fs.exists_ fs1 out && negb (overwrite self)
               then skip_existing env input_path out
               else transcode env self input_path out) (after w fs1 [])
          end
      end.
Proof.
  destruct (Fs.exists_ (w_fs w) input_path) eqn:Hex;
    cbv beta iota delta [negb].
  2:{ unfold convert_file, bind, path_exists at 1. now rewrite Hex. }
  destruct (mem (PyStr.lower (suffix input_path)) SUPPORTED_FORMATS)
    eqn:Hsup; cbv beta iota delta [negb].
  2:{ exact (convert_file_unsupported_step env self input_path o w
               Hex Hsup). }
  destruct (derive_output_path self input_path o w) as [[out|e] w1]
    eqn:Hder;
    pose proof (derive_output_path_state self input_path o w w1 _ Hder);
    subst w1; cbv beta iota delta [fst].
  2:{ unfold convert_file, bind, path_exists at 1. rewrite Hex.
      cbv beta iota delta [negb]. rewrite Hsup. cbv beta iota.
      now rewrite Hder. }
  destruct (Fs.mkdir_parents (w_fs w) (parent out)) as [e|fs1] eqn:Hmk.
  - unfold convert_file, bind, path_exists at 1. rewrite Hex.
    cbv beta iota delta [negb]. rewrite Hsup. cbv beta iota.
    rewrite Hder. unfold path_mkdir_parents. now rewrite Hmk.
  - exact (convert_file_validated env self input_path out o w fs1
             Hex Hsup Hder Hmk).
Qed.

(** C2.  The skip is decided before any external process is started
    for the file.  Whether [convert_file] skips is settled by
    [skip_decision], which reads the converter, the paths and the file
    system as they are when the output has been looked for, and no
    external command.  Whenever the result is a skip, the decision was
    taken in a state whose log of processes is still the one of the
    start of the call; what runs after it (the bit-rate probe of an
    [.mp3] input, never the transcoder) only picks the message.
    Conversely, once the decision is taken the result is a skip,
    whatever the external commands do. *)
Theorem skip_decided_before_any_process
        (input_path : Path) (o : option Path) (w : World) :
  (forall r w',
      convert_file env self input_path o w = (Return r, w') ->
      is_skip r = true ->
      exists out fs1,
        skip_decision self input_path o w = Some (out, fs1) /\
        w_spawned (after w fs1 []) = w_spawned w /\
        skip_existing env input_path out (after w fs1 [])
        = (Return r, w') /\
        filter invokes_transcoder (w_spawned w')
        = filter invokes_transcoder (w_spawned w)) /\
  (forall out fs1,
      skip_decision self input_path o w = Some (out, fs1) ->
      exists r w',
        convert_file env self input_path o w = (Return r, w') /\
        is_skip r = true).
Proof.
  split.
  - intros r w' Hrun Hskip.
    pose proof (proj1 (skip_starts_no_transcoder env self input_path o
                         w w' r Hrun Hskip)) as Hnone.
    rewrite convert_file_unfold in Hrun. unfold skip_decision.
    destruct (Fs.exists_ (w_fs w) input_path).
    2:{ inversion Hrun; subst. discriminate Hskip. }
    destruct (mem (PyStr.lower (suffix input_path)) SUPPORTED_FORMATS).
    2:{ inversion Hrun; subst. discriminate Hskip. }
    change (negb true) with false in Hrun. cbv iota in Hrun.
    cbn [andb].
    destruct (fst (derive_output_path self input_path o w)) as [out|e];
      [|discriminate].
    destruct (Fs.mkdir_parents (w_fs w) (parent out)) as [e|fs1];
      [discriminate|].
    destruct (Fs.exists_ fs1 out && negb (overwrite self)).
    + exists out, fs1. split; [reflexivity|].
      split; [apply app_nil_r|]. split; assumption.
    + exfalso. rewrite transcode_run in Hrun. simpl in Hrun.
      destruct (fst (run env (ffmpeg_cmd self input_path out) fs1))
        as [c|e];
        [destruct (returncode c =? 0)%Z | destruct (is_Exception e)];
        inversion Hrun; subst; discriminate Hskip.
  - intros out fs1 Hd. unfold skip_decision in Hd.
    rewrite convert_file_unfold.
    destruct (Fs.exists_ (w_fs w) input_path); [|discriminate].
    destruct (mem (PyStr.lower (suffix input_path)) SUPPORTED_FORMATS);
      [|discriminate].
    change (negb true) with false. cbv iota. cbn [andb] in Hd.
    destruct (fst (derive_output_path self input_path o w)) as [out'|e];
      [|discriminate].
    destruct (Fs.mkdir_parents (w_fs w) (parent out')) as [e|fs1'];
      [discriminate|].
    destruct (Fs.exists_ fs1' out' && negb (overwrite self));
      [|discriminate].
    inversion Hd; subst. rewrite skip_existing_run.
    destruct (PyStr.lower (suffix input_path) =? ".mp3");
      [cbv zeta; destruct (at_target _)|];
      eexists; eexists; split; reflexivity.
Qed.

(** X1.  [convert_file] looks for the input first: when the input path
    does not exist the result is the failure "Input file not found:
    <path>", whatever the extension and the output, and nothing has
    been touched: no directory made, no process started, nothing
    printed. *)
Theorem convert_file_missing_input
        (input_path : Path) (o : option Path) (w : World) :
  Fs.exists_ (w_fs w) input_path = false ->
  convert_file env self input_path o w
  = (Return (false, "Input file not found: " ++ str input_path), w).
Proof.
  intro Hex. rewrite convert_file_unfold, Hex. reflexivity.
Qed.

(** X2.  [_get_bitrate] never raises, whatever the probe does: it makes
    exactly one call, of [ffprobe] on the file, and returns a value.
    The value is a number exactly when the probe exits with status 0
    and prints an integer [n]; it is then [n // 1000]. *)
Theorem get_bitrate_never_raises (file_path : Path) (w : World) :
  exists bitrate,
    _get_bitrate env file_path w
    = (Return bitrate,
       after w (snd (run env (ffprobe_cmd file_path) (w_fs w)))
             [ffprobe_cmd file_path]) /\
    forall k,
      bitrate = Some k <->
      exists c n,
        fst (run env (ffprobe_cmd file_path) (w_fs w)) = Return c /\
        returncode c = 0%Z /\
        PyStr.int (PyStr.strip (stdout c)) = Some n /\
        k = (n / 1000)%Z.
Proof.
  exists (probe_reading (fst (run env (ffprobe_cmd file_path) (w_fs w)))).
  split; [apply _get_bitrate_reading|].
  intro k. unfold probe_reading.
  destruct (fst (run env (ffprobe_cmd file_path) (w_fs w))) as [c|e].
  - destruct (Z.eqb_spec (returncode c) 0) as [Hrc|Hrc]; simpl.
    + destruct (String.eqb_spec (PyStr.strip (stdout c)) "") as [E|_];
        simpl.
      * split; [discriminate|].
        intros [c' [n [Hc [_ [Hint _]]]]]. inversion Hc; subst c'.
        rewrite E, int_of_empty in Hint. discriminate.
      * destruct (PyStr.int (PyStr.strip (stdout c))) as [n|] eqn:Hint;
          simpl.
        -- split.
           ++ intro H. inversion H; subst. exists c, n. auto.
           ++ intros [c' [n' [Hc [_ [Hint' ->]]]]].
              inversion Hc; subst c'. congruence.
        -- split; [discriminate|].
           intros [c' [n' [Hc [_ [Hint' _]]]]].
           inversion Hc; subst c'. congruence.
    + split; [discriminate|].
      intros [c' [n [Hc [Hrc' _]]]]. inversion Hc; subst c'.
      contradiction.
  - split; [discriminate|]. intros [c [n [Hc _]]]. discriminate.
Qed.

Lemma is_dir_app (fs l : FS) (p : Path) :
  Fs.is_dir fs p = true -> Fs.is_dir (fs ++ l)%list p = true.
Proof.
  unfold Fs.is_dir, Fs.kind_of.
  destruct (nameless p); [trivial|].
  rewrite lookup_app. now destruct (Fs.lookup fs p).
Qed.

Lemma os_mkdir_makes_dir (fs fs' : FS) (p : Path) :
  Fs.os_mkdir fs p = inr fs' -> Fs.is_dir fs' p = true.
Proof.
  unfold Fs.os_mkdir.
  destruct (Fs.kind_of fs p) eqn:Hk; [discriminate|].
  destruct (Fs.kind_of fs (parent p)) as [[|]|]; try discriminate.
  intro H. inversion H; subst.
  unfold Fs.is_dir, Fs.kind_of in *.
  destruct (nameless p); [discriminate|].
  rewrite lookup_app, Hk. simpl. now rewrite PathFacts.eqb_refl.
Qed.

(** After [mkdir(parents=True, exist_ok=True)] the path is a
    directory. *)
Lemma mkdir_parents_makes_dir (fs fs' : FS) (p : Path) :
  Fs.mkdir_parents fs p = inr fs' -> Fs.is_dir fs' p = true.
Proof.
  unfold Fs.mkdir_parents.
  assert (Hstep : forall fuel,
             Fs.mkdir_rec fuel fs p = inr fs' -> Fs.is_dir fs' p = true).
  { intros fuel H.
    destruct fuel as [|fuel]; simpl in H;
      destruct (Fs.os_mkdir fs p) as [e|fs0] eqn:E;
      try (inversion H; subst; exact (os_mkdir_makes_dir fs fs' p E)).
    - destruct (is_FileNotFoundError e).
      + destruct (eqb (parent p) p); discriminate.
      + destruct (Fs.is_dir fs p) eqn:D; inversion H; subst. exact D.
    - destruct (is_FileNotFoundError e).
      + destruct (eqb (parent p) p); [discriminate|].
        destruct (Fs.mkdir_rec fuel fs (parent p)) as [e'|fs1];
          [discriminate|].
        destruct (Fs.os_mkdir fs1 p) as [e'|fs2] eqn:E2.
        * destruct (Fs.is_dir fs1 p) eqn:D; inversion H; subst. exact D.
        * inversion H; subst. exact (os_mkdir_makes_dir fs1 fs' p E2).
      + destruct (Fs.is_dir fs p) eqn:D; inversion H; subst. exact D. }
  apply Hstep.
Qed.

(** X3.  One call of [convert_file] prints nothing and starts at most
    one external process: none at all, or the probe alone (only for an
    [.mp3] input, and then the result is a skip), or the transcoder
    alone.  The probe and the transcoder are never both run for one
    file. *)
Theorem convert_file_one_process_at_most
        (input_path : Path) (o : option Path) (w : World) :
  let result := convert_file env self input_path o w in
  w_console (snd result) = w_console w /\
  (w_spawned (snd result) = w_spawned w \/
   (w_spawned (snd result)
    = (w_spawned w ++ [ffprobe_cmd input_path])%list /\
    PyStr.lower (suffix input_path) = ".mp3" /\
    exists msg, fst result = Return (false, msg) /\
                is_skip (false, msg) = true) \/
   (exists out,
       fst (derive_output_path self input_path o w) = Return out /\
       w_spawned (snd result)
       = (w_spawned w ++ [ffmpeg_cmd self input_path out])%list)).
Proof.
  intro result. unfold result. rewrite convert_file_unfold.
  destruct (negb (Fs.exists_ (w_fs w) input_path)); [simpl; auto|].
  destruct (negb (mem _ SUPPORTED_FORMATS)); [simpl; auto|].
  destruct (fst (derive_output_path self input_path o w)) as [out|e];
    [|simpl; auto].
  destruct (Fs.mkdir_parents (w_fs w) (parent out)) as [e|fs1];
    [simpl; auto|].
  destruct (Fs.exists_ fs1 out && negb (overwrite self)).
  - rewrite skip_existing_run.
    destruct (String.eqb_spec (PyStr.lower (suffix input_path)) ".mp3")
      as [Hmp3|_].
    + simpl. rewrite app_nil_r. split; [reflexivity|].
      right. left. split; [reflexivity|]. split; [assumption|].
      destruct (at_target _); eexists; split; reflexivity.
    + simpl. rewrite app_nil_r. auto.
  - rewrite transcode_run. simpl. rewrite app_nil_r.
    split; [reflexivity|]. right. right. exists out. auto.
Qed.

(** X4.  [convert_file] reports success only after a transcoder run
    that exited with status 0: the input existed with a supported
    extension, the directory of the output had been made (it is a
    directory of the file system the transcoder ran on), the transcoder
    was the one process started, and the message is "Converted: <input
    name> → <output name>". *)
Theorem convert_file_success_inv
        (input_path : Path) (o : option Path) (w w' : World)
        (msg : string) :
  convert_file env self input_path o w = (Return (true, msg), w') ->
  exists out fs1 c,
    Fs.exists_ (w_fs w) input_path = true /\
    mem (PyStr.lower (suffix input_path)) SUPPORTED_FORMATS = true /\
    derive_output_path self input_path o w = (Return out, w) /\
    Fs.mkdir_parents (w_fs w) (parent out) = inr fs1 /\
    Fs.is_dir fs1 (parent out) = true /\
    run env (ffmpeg_cmd self input_path out) fs1 = (Return c, w_fs w') /\
    returncode c = 0%Z /\
    msg = "Converted: " ++ name input_path ++ " → " ++ name out /\
    w_spawned w'
    = (w_spawned w ++ [ffmpeg_cmd self input_path out])%list.
Proof.
  intro Hrun.
  destruct (convert_file_inv env self input_path o w w' _ Hrun)
    as [[_ [H _]]|[[_ [_ [H _]]]
                  |[Hex [Hsup [out [fs1 [Hder [Hmk Hcase]]]]]]]];
    try discriminate H.
  destruct Hcase as [[_ Hskip]|[_ Htrans]].
  - rewrite skip_existing_run in Hskip.
    destruct (PyStr.lower (suffix input_path) =? ".mp3");
      inversion Hskip.
  - rewrite transcode_run in Htrans. simpl in Htrans.
    destruct (run env (ffmpeg_cmd self input_path out) fs1)
      as [[c|e] fs2] eqn:Hlaunch; simpl in Htrans.
    + destruct (Z.eqb_spec (returncode c) 0) as [Hrc|Hrc];
        inversion Htrans; subst.
      exists out, fs1, c. simpl. rewrite app_nil_r.
      repeat split; try assumption; try reflexivity.
      exact (mkdir_parents_makes_dir _ _ _ Hmk).
    + destruct (is_Exception e); inversion Htrans.
Qed.


(** X6.  The transcoder is never started on an output that exists
    unless it is told to overwrite it.  Whenever a call of
    [convert_file] has started the transcoder (its log of processes has
    grown by a command that runs [ffmpeg]), that command is the one
    built for the derived output path, it ran on the file system left
    by making the output's directory, and there the output was absent
    or [overwrite] was on.  With [overwrite] on the argument before the
    output path is [-y] (18 arguments); with [overwrite] off there is
    no [-y] (17 arguments, the last being the output path). *)
Theorem transcoder_overwrites_only_on_request
        (input_path : Path) (o : option Path) (w : World)
        (cmd : list string) :
  w_spawned (snd (convert_file env self input_path o w))
  = (w_spawned w ++ [cmd])%list ->
  invokes_transcoder cmd = true ->
  exists out fs1,
    derive_output_path self input_path o w = (Return out, w) /\
    Fs.mkdir_parents (w_fs w) (parent out) = inr fs1 /\
    cmd = ffmpeg_cmd self input_path out /\
    w_fs (snd (convert_file env self input_path o w))
    = snd (run env cmd fs1) /\
    (Fs.exists_ fs1 out = true -> overwrite self = true) /\
    (overwrite self = true ->
     nth 16 cmd "" = "-y" /\ nth 17 cmd "" = str out /\
     List.length cmd = 18) /\
    (overwrite self = false ->
     Fs.exists_ fs1 out = false /\ nth 16 cmd "" = str out /\
     List.length cmd = 17).
Proof.
  intros Hlog Ht.
  assert (Hno : forall l : list (list string),
             l = (l ++ [cmd])%list -> False).
  { intros l E. apply (f_equal (@List.length _)) in E.
    rewrite length_app in E. simpl in E. lia. }
  remember (convert_file env self input_path o w) as result eqn:Hres.
  rewrite convert_file_unfold in Hres.
  destruct (negb (Fs.exists_ (w_fs w) input_path));
    [subst result; exfalso; exact (Hno _ Hlog)|].
  destruct (negb (mem _ SUPPORTED_FORMATS));
    [subst result; exfalso; exact (Hno _ Hlog)|].
  destruct (derive_output_path self input_path o w) as [[out|e0] w1]
    eqn:Hder;
    pose proof (derive_output_path_state self input_path o w w1 _ Hder);
    subst w1; unfold fst in Hres;
    [|subst result; exfalso; exact (Hno _ Hlog)].
  destruct (Fs.mkdir_parents (w_fs w) (parent out)) as [e1|fs1] eqn:Hmk;
    [subst result; exfalso; exact (Hno _ Hlog)|].
  destruct (Fs.exists_ fs1 out && negb (overwrite self)) eqn:Hc.
  - exfalso. rewrite skip_existing_run in Hres.
    destruct (PyStr.lower (suffix input_path) =? ".mp3");
      subst result; simpl in Hlog; rewrite app_nil_r in Hlog.
    + apply app_inj_tail in Hlog. destruct Hlog as [_ E].
      subst cmd. discriminate Ht.
    + exact (Hno _ Hlog).
  - rewrite transcode_run in Hres. subst result.
    simpl in Hlog. rewrite app_nil_r in Hlog.
    apply app_inj_tail in Hlog. destruct Hlog as [_ E].
    exists out, fs1. split; [reflexivity|]. split; [exact Hmk|].
    split; [now symmetry|]. split; [now rewrite <- E|].
    split; [|split].
    + intro Hout. rewrite Hout in Hc. simpl in Hc.
      now apply negb_false_iff in Hc.
    + intro Hov. rewrite <- E. unfold ffmpeg_cmd. rewrite Hov. auto.
    + intro Hov. rewrite Hov, andb_true_r in Hc.
      rewrite <- E. unfold ffmpeg_cmd. rewrite Hov. auto.
Qed.

Lemma append_empty_r (s : string) : s ++ "" = s.
Proof. induction s as [|c s IH]; simpl; [reflexivity | now rewrite IH]. Qed.

Lemma take_drop (s : string) :
  forall i, i <= String.length s -> PyStr.take i s ++ PyStr.drop i s = s.
Proof.
  unfold PyStr.take, PyStr.drop.
  induction s as [|c s IH]; intros i Hi.
  - simpl in Hi. assert (i = 0) by lia. subst. reflexivity.
  - destruct i as [|i].
    + simpl. f_equal. specialize (IH 0 ltac:(lia)).
      simpl in IH. rewrite Nat.sub_0_r in IH.
      destruct s; [reflexivity|]. simpl in *. exact IH.
    + simpl. f_equal. apply IH. simpl in Hi. lia.
Qed.

(** The name is the stem followed by the suffix. *)
Lemma stem_suffix_name (p : Path) : stem p ++ suffix p = name p.
Proof.
  destruct (stem_cases p) as [[-> ->]|[i [Hi [-> ->]]]].
  - apply append_empty_r.
  - apply take_drop. lia.
Qed.

Lemma with_suffix_own_mp3 (p : Path) :
  suffix p = ".mp3" -> PyStr.contains "/" (name p) = false ->
  with_suffix p ".mp3" = Some p.
Proof.
  intros Hsuf Hslash.
  assert (Hname : name p <> "").
  { intro E. unfold suffix in Hsuf. rewrite E in Hsuf. discriminate. }
  rewrite (with_suffix_mp3 p Hname Hslash). f_equal.
  rewrite <- Hsuf, stem_suffix_name.
  unfold name in *. destruct (nameless p) eqn:Hn; [contradiction|].
  symmetry. apply app_removelast_last.
  intro E. subst p. discriminate Hn.
Qed.

(** X7.  An [.mp3] converted in place is its own output.  With no
    output directory and no explicit output, the derived output path of
    an input whose suffix is [.mp3] is the input itself.  So with
    [overwrite] off such a file is always skipped and never transcoded;
    with [overwrite] on the transcoder is started with the very same
    path as input and as output. *)
Theorem mp3_in_place (input_path : Path) (w : World) :
  suffix input_path = ".mp3" ->
  PyStr.contains "/" (name input_path) = false ->
  nonempty (output_dir self) = None ->
  Fs.wf (w_fs w) = true ->
  Fs.exists_ (w_fs w) input_path = true ->
  let result := convert_file env self input_path None w in
  derive_output_path self input_path None w = (Return input_path, w) /\
  (overwrite self = false ->
   (exists msg, fst result = Return (false, msg) /\
                is_skip (false, msg) = true) /\
   filter invokes_transcoder (w_spawned (snd result))
   = filter invokes_transcoder (w_spawned w)) /\
  (overwrite self = true ->
   w_spawned (snd result)
   = (w_spawned w ++ [ffmpeg_cmd self input_path input_path])%list).
Proof.
  intros Hsuf Hslash Hroot Hwf Hex result.
  assert (Hder : derive_output_path self input_path None w
                 = (Return input_path, w)).
  { unfold derive_output_path. rewrite Hroot.
    now rewrite (with_suffix_own_mp3 _ Hsuf Hslash). }
  assert (Hsup : mem (PyStr.lower (suffix input_path)) SUPPORTED_FORMATS
                 = true) by now rewrite Hsuf.
  assert (Hmk : Fs.mkdir_parents (w_fs w) (parent input_path)
                = inr (w_fs w)).
  { apply mkdir_parents_existing. now apply parent_of_existing. }
  split; [exact Hder|]. unfold result.
  rewrite (convert_file_validated env self input_path input_path None w
             (w_fs w) Hex Hsup Hder Hmk), after_nil, Hex.
  split; intro Hov; rewrite Hov; simpl.
  - rewrite skip_existing_run, Hsuf. simpl. split.
    + destruct (at_target _); eexists; split; reflexivity.
    + apply ffprobe_is_not_transcoder.
  - rewrite transcode_run. reflexivity.
Qed.

Lemma derive_output_path_any_world
      (input_path out : Path) (o : option Path) (w w1 : World) :
  derive_output_path self input_path o w = (Return out, w) ->
  derive_output_path self input_path o w1 = (Return out, w1).
Proof.
  unfold derive_output_path, or_value_error, ret, raise.
  destruct o; [now inversion 1|].
  destruct (nonempty (output_dir self)); [now inversion 1|].
  destruct (with_suffix input_path ".mp3"); now inversion 1.
Qed.

(** X8.  Converting is idempotent with [overwrite] off: once a file has
    been converted (by a transcoder that writes its output when it
    exits with 0), converting it again with the same arguments skips
    it and starts no transcoder. *)
Theorem converted_file_is_skipped_next_time
        (input_path : Path) (o : option Path) (w w1 : World)
        (msg : string) :
  overwrite self = false ->
  (forall out, derive_output_path self input_path o w = (Return out, w) ->
               writes_output env self out) ->
  convert_file env self input_path o w = (Return (true, msg), w1) ->
  Fs.wf (w_fs w1) = true ->
  Fs.exists_ (w_fs w1) input_path = true ->
  let again := convert_file env self input_path o w1 in
  (exists msg', fst again = Return (false, msg') /\
                is_skip (false, msg') = true) /\
  filter invokes_transcoder (w_spawned (snd again))
  = filter invokes_transcoder (w_spawned w1).
Proof.
  intros Hov Hwrite Hrun Hwf Hex again.
  destruct (convert_file_inv env self input_path o w w1 _ Hrun)
    as [[_ [H _]]|[[_ [_ [H _]]]
                  |[_ [Hsup [out [fs1 [Hder [Hmk Hcase]]]]]]]];
    try discriminate H.
  assert (Hout : Fs.exists_ (w_fs w1) out = true).
  { destruct Hcase as [[_ Hskip]|[_ Htrans]].
    - rewrite skip_existing_run in Hskip.
      destruct (PyStr.lower (suffix input_path) =? ".mp3");
        inversion Hskip.
    - rewrite transcode_run in Htrans. simpl in Htrans.
      inversion Htrans as [[Hres Hw1]]. simpl.
      destruct (fst (run env (ffmpeg_cmd self input_path out) fs1))
        as [c|e] eqn:Hlaunch.
      + destruct (Z.eqb_spec (returncode c) 0) as [Hrc|Hrc];
          [|discriminate Hres].
        exact (Hwrite out Hder input_path fs1 c Hlaunch Hrc).
      + destruct (is_Exception e); discriminate Hres. }
  unfold again.
  rewrite (convert_file_existing_output env self input_path out o w1
             Hwf Hex Hsup (derive_output_path_any_world _ _ _ _ _ Hder)
             Hout Hov).
  rewrite skip_existing_run.
  destruct (PyStr.lower (suffix input_path) =? ".mp3"); simpl.
  - split; [|apply ffprobe_is_not_transcoder].
    destruct (at_target _); eexists; split; reflexivity.
  - split; [eexists; split; reflexivity | reflexivity].
Qed.

End OneFileMore.

(** ** The further single-file statements on the sample worlds *)

Lemma skip_decided_before_any_process_witness :
  exists out fs1,
    skip_decision Sample.in_place ["A"; "sub2"; "x.mp3"] None Sample.world
    = Some (out, fs1) /\
    w_spawned (after Sample.world fs1 []) = w_spawned Sample.world /\
    skip_existing (Sample.env "320000") ["A"; "sub2"; "x.mp3"] out
                  (after Sample.world fs1 [])
    = (Return (false, "Skipped (already 320kbps): x.mp3"),
       after Sample.world Sample.fs
             [ffprobe_cmd ["A"; "sub2"; "x.mp3"]]) /\
    filter invokes_transcoder
           (w_spawned (after Sample.world Sample.fs
                             [ffprobe_cmd ["A"; "sub2"; "x.mp3"]]))
    = filter invokes_transcoder (w_spawned Sample.world).
Proof.
  exact (proj1 (skip_decided_before_any_process
                  (Sample.env "320000") Sample.in_place
                  ["A"; "sub2"; "x.mp3"] None Sample.world)
               _ _ eq_refl eq_refl).
Defined.

Lemma convert_file_missing_input_witness :
  convert_file (Sample.env "128000") Sample.in_place
               ["A"; "gone.txt"] (Some ["B"; "new"; "gone.mp3"])
               Sample.world
  = (Return (false, "Input file not found: A/gone.txt"), Sample.world).
Proof.
  exact (convert_file_missing_input
           (Sample.env "128000") Sample.in_place
           ["A"; "gone.txt"] (Some ["B"; "new"; "gone.mp3"])
           Sample.world eq_refl).
Defined.

Lemma convert_file_success_inv_witness :
  let run := convert_file (Sample.env "128000") Sample.in_place
                          ["A"; "sub1"; "x.flac"] None Sample.world in
  fst run = Return (true, "Converted: x.flac → x.mp3") /\
  exists out,
    w_spawned (snd run)
    = [ffmpeg_cmd Sample.in_place ["A"; "sub1"; "x.flac"] out] /\
    Fs.is_dir (w_fs (snd run)) (PurePath.parent out) = true.
Proof.
  intro run. split; [reflexivity|].
  destruct (convert_file_success_inv
              (Sample.env "128000") Sample.in_place
              ["A"; "sub1"; "x.flac"] None Sample.world
              (snd run) "Converted: x.flac → x.mp3" eq_refl)
    as [out [fs1 [c [_ [_ [Hder [_ [_ [_ [_ [_ Hsp]]]]]]]]]]].
  exists out. split; [exact Hsp|].
  vm_compute in Hder. inversion Hder; subst out. reflexivity.
Defined.


Lemma transcoder_overwrites_only_on_request_witness :
  let self := mkConverter None true true in
  let cmd := ffmpeg_cmd self ["A"; "y.WAV"] ["A"; "y.mp3"] in
  exists out fs1,
    derive_output_path self ["A"; "y.WAV"] None Sample.world
    = (Return out, Sample.world) /\
    Fs.mkdir_parents Sample.fs (PurePath.parent out) = inr fs1 /\
    cmd = ffmpeg_cmd self ["A"; "y.WAV"] out /\
    Fs.exists_ fs1 out = true /\
    nth 16 cmd "" = "-y".
Proof.
  intros self cmd.
  destruct (transcoder_overwrites_only_on_request
              (Sample.env "128000") self ["A"; "y.WAV"] None Sample.world
              cmd eq_refl eq_refl)
    as [out [fs1 [Hder [Hmk [Hcmd [_ [_ [Hy _]]]]]]]].
  exists out, fs1. split; [exact Hder|]. split; [exact Hmk|].
  split; [exact Hcmd|].
  vm_compute in Hder. inversion Hder; subst out.
  vm_compute in Hmk. inversion Hmk; subst fs1.
  split; [reflexivity|]. exact (proj1 (Hy eq_refl)).
Defined.

Lemma mp3_in_place_witness :
  derive_output_path Sample.in_place ["A"; "sub2"; "x.mp3"] None
                     Sample.world
  = (Return ["A"; "sub2"; "x.mp3"], Sample.world) /\
  w_spawned (snd (convert_file (Sample.env "128000")
                               (mkConverter None true true)
                               ["A"; "sub2"; "x.mp3"] None Sample.world))
  = [ffmpeg_cmd (mkConverter None true true)
                ["A"; "sub2"; "x.mp3"] ["A"; "sub2"; "x.mp3"]].
Proof.
  split.
  - exact (proj1 (mp3_in_place (Sample.env "128000") Sample.in_place
                               ["A"; "sub2"; "x.mp3"] Sample.world
                               eq_refl eq_refl eq_refl eq_refl eq_refl)).
  - exact (proj2 (proj2 (mp3_in_place
                           (Sample.env "128000")
                           (mkConverter None true true)
                           ["A"; "sub2"; "x.mp3"] Sample.world
                           eq_refl eq_refl eq_refl eq_refl eq_refl))
                 eq_refl).
Defined.

Lemma converted_file_is_skipped_next_time_witness :
  let first := convert_file (Sample.env "128000") Sample.in_place
                            ["A"; "sub1"; "x.flac"] None Sample.world in
  fst first = Return (true, "Converted: x.flac → x.mp3") /\
  fst (convert_file (Sample.env "128000") Sample.in_place
                    ["A"; "sub1"; "x.flac"] None (snd first))
  = Return (false, "Skipped (file exists): x.mp3").
Proof.
  intro first. split; [reflexivity|].
  assert (Hwrite :
    forall out,
      derive_output_path Sample.in_place ["A"; "sub1"; "x.flac"] None
                         Sample.world
      = (Return out, Sample.world) ->
      writes_output (Sample.env "128000") Sample.in_place out).
  { intros out Hder. vm_compute in Hder. inversion Hder; subst out.
    apply sample_writes_output. reflexivity. }
  destruct (proj1 (converted_file_is_skipped_next_time
                     (Sample.env "128000") Sample.in_place
                     ["A"; "sub1"; "x.flac"] None Sample.world (snd first)
                     "Converted: x.flac → x.mp3" eq_refl Hwrite
                     eq_refl eq_refl eq_refl))
    as [msg' [Hres _]].
  reflexivity.
Defined.

(* ================================================================== *)
(** * Further properties: the candidates of a directory *)
(* ================================================================== *)

Section Candidates.

Import PurePath PathFacts PathOrder.

Lemma prefix_empty (s : string) : String.prefix "" s = true.
Proof. destruct s; reflexivity. Qed.

Lemma substring_full (s : string) : substring 0 (String.length s) s = s.
Proof. induction s as [|c s IH]; simpl; [reflexivity | now rewrite IH]. Qed.

(** What [glob] returns for the patterns that [convert_directory]
    builds from a literal [e] that does not itself look like a
    pattern. *)
Lemma glob_spec (fs : FS) (dir : Path) (recursive : bool) (e : string)
      (p : Path) :
  String.prefix "*/*" e = false ->
  In p (Fs.glob fs dir (glob_pattern recursive ++ e)) <->
  Fs.is_dir fs dir = true /\ In p (map fst fs) /\
  below dir recursive p = true /\ PyStr.endswith (name p) e = true.
Proof.
  intro He. unfold Fs.glob, below.
  destruct (Fs.is_dir fs dir); simpl negb; cbv iota;
    [|split; [contradiction | now intros [? _]]].
  destruct recursive; unfold glob_pattern.
  - change (String.prefix "**/*" ("**/*" ++ e)) with (String.prefix "" e).
    rewrite prefix_empty.
    change (PyStr.drop 4 ("**/*" ++ e))
      with (substring 0 (String.length e - 0) e).
    rewrite Nat.sub_0_r, substring_full, filter_In.
    destruct (relative_to p dir) as [[|a [|b rel]]|]; intuition congruence.
  - change (String.prefix "**/*" ("*" ++ e)) with (String.prefix "*/*" e).
    rewrite He.
    change (String.prefix "*" ("*" ++ e)) with (String.prefix "" e).
    rewrite prefix_empty.
    change (PyStr.drop 1 ("*" ++ e))
      with (substring 0 (String.length e - 0) e).
    rewrite Nat.sub_0_r, substring_full, filter_In.
    destruct (relative_to p dir) as [[|a [|b rel]]|]; intuition congruence.
Qed.

Lemma formats_are_literals (ext : string) :
  In ext SUPPORTED_FORMATS ->
  String.prefix "*/*" ext = false /\
  String.prefix "*/*" (PyStr.upper ext) = false.
Proof.
  intro H. simpl in H.
  repeat (destruct H as [<-|H]; [split; reflexivity|]). contradiction.
Qed.

(** Which paths [convert_directory] takes for candidates. *)
Lemma in_candidate_files (fs : FS) (dir : Path) (recursive : bool)
      (p : Path) :
  In p (candidate_files (Fs.glob fs dir) SUPPORTED_FORMATS recursive) <->
  Fs.is_dir fs dir = true /\ In p (map fst fs) /\
  below dir recursive p = true /\ audio_name (name p) = true.
Proof.
  unfold candidate_files.
  rewrite (proj2 (proj2 (sorted_set_spec _)) p), in_collect_audio_files.
  unfold audio_name. rewrite existsb_exists.
  split.
  - intros [ext [Hext H]].
    destruct (formats_are_literals ext Hext) as [H1 H2].
    destruct H as [H|H]; apply glob_spec in H; try assumption;
      destruct H as [Hd [Hin [Hb He]]];
      (split; [assumption|]; split; [assumption|]; split; [assumption|]);
      exists ext; (split; [assumption|]); rewrite He;
        [reflexivity | apply orb_true_r].
  - intros [Hd [Hin [Hb [ext [Hext H]]]]]. exists ext.
    split; [assumption|].
    destruct (formats_are_literals ext Hext) as [H1 H2].
    apply orb_true_iff in H. destruct H as [H|H]; [left|right];
      apply glob_spec; auto.
Qed.

Lemma strip_prefix_some (base : Path) :
  forall p rest, strip_prefix base p = Some rest -> p = (base ++ rest)%list.
Proof.
  induction base as [|a base IH]; intros p rest H; simpl in H.
  - now inversion H.
  - destruct p as [|b p]; [discriminate|].
    destruct (String.eqb_spec a b) as [->|_]; [|discriminate].
    simpl. f_equal. now apply IH.
Qed.

Lemma below_inv (dir : Path) (recursive : bool) (p : Path) :
  below dir recursive p = true ->
  exists rel, rel <> [] /\ relative_to p dir = Some rel /\
              p = (dir ++ rel)%list /\ is_absolute rel = false /\
              (recursive = false -> exists n, rel = [n]).
Proof.
  unfold below. destruct (relative_to p dir) as [rel|] eqn:E;
    [|discriminate].
  intro H. exists rel.
  assert (Hp : p = (dir ++ rel)%list /\ is_absolute rel = false).
  { unfold relative_to in E.
    destruct (strip_prefix dir p) as [rest|] eqn:Es; [|discriminate].
    destruct (is_absolute rest) eqn:Ea; [discriminate|].
    inversion E; subst. split; [now apply strip_prefix_some | exact Ea]. }
  destruct Hp as [Hp Ha].
  destruct rel as [|a [|b rel]]; [discriminate| |].
  - repeat split; try assumption; try discriminate. intros _. now exists a.
  - repeat split; try assumption; try discriminate.
    intro Hr. subst recursive. discriminate.
Qed.

(** X9.  The candidates of [convert_directory] are exactly the entries
    of the file system that lie strictly below the directory (directly
    in it when [recursive] is off) and whose name ends with one of the
    supported formats as written (lower case) or in upper case: an
    entry of any kind, a directory named like an audio file too.  Every
    candidate is the directory's path extended by at least one part. *)
Theorem candidates_characterised
        (fs : FS) (dir : Path) (recursive : bool) (p : Path) :
  let candidates :=
    candidate_files (Fs.glob fs dir) SUPPORTED_FORMATS recursive in
  (In p candidates <->
   Fs.is_dir fs dir = true /\ In p (map fst fs) /\
   below dir recursive p = true /\ audio_name (name p) = true) /\
  (In p candidates ->
   exists rel, rel <> [] /\ p = (dir ++ rel)%list).
Proof.
  intro candidates. split; [apply in_candidate_files|].
  intro H. apply in_candidate_files in H.
  destruct H as [_ [_ [Hb _]]].
  destruct (below_inv _ _ _ Hb) as [rel [Hne [_ [Hp _]]]].
  now exists rel.
Qed.

(** X10.  Without recursion the candidates are those candidates of the
    recursive walk that sit directly in the directory. *)
Theorem non_recursive_candidates
        (fs : FS) (dir : Path) (p : Path) :
  In p (candidate_files (Fs.glob fs dir) SUPPORTED_FORMATS false) <->
  In p (candidate_files (Fs.glob fs dir) SUPPORTED_FORMATS true) /\
  exists n, p = (dir ++ [n])%list.
Proof.
  rewrite !in_candidate_files. split.
  - intros [Hd [Hin [Hb Ha]]].
    destruct (below_inv _ _ _ Hb) as [rel [_ [Hrel [Hp [_ Hone]]]]].
    destruct (Hone eq_refl) as [n ->].
    split; [|now exists n].
    repeat split; try assumption.
    unfold below. now rewrite Hrel.
  - intros [[Hd [Hin [Hb Ha]]] [n Hp]].
    repeat split; try assumption.
    destruct (below_inv _ _ _ Hb) as [rel [_ [Hrel [Hp' _]]]].
    rewrite Hp in Hp'. apply app_inv_head in Hp'. subst rel.
    unfold below. now rewrite Hrel.
Qed.

Lemma no_audio_names_no_matches (fs : FS) (dir : Path) (recursive : bool) :
  (forall p, In p (map fst fs) -> below dir recursive p = true ->
             audio_name (name p) = false) ->
  collect_audio_files (Fs.glob fs dir) SUPPORTED_FORMATS
                      (glob_pattern recursive) = [].
Proof.
  intro Hnone.
  destruct (collect_audio_files (Fs.glob fs dir) SUPPORTED_FORMATS
                                (glob_pattern recursive))
    as [|p l] eqn:E; [reflexivity|].
  exfalso.
  assert (Hin : In p (candidate_files (Fs.glob fs dir)
                                      SUPPORTED_FORMATS recursive)).
  { unfold candidate_files.
    apply (proj2 (proj2 (sorted_set_spec _)) p). rewrite E. now left. }
  apply in_candidate_files in Hin.
  destruct Hin as [_ [Hin [Hb Ha]]].
  rewrite (Hnone p Hin Hb) in Ha. discriminate.
Qed.

Lemma convert_directory_no_matches
      (env : Env) (self : AudioConverter) (dir : Path)
      (recursive : bool) (w : World) :
  Fs.is_dir (w_fs w) dir = true ->
  collect_audio_files (Fs.glob (w_fs w) dir) SUPPORTED_FORMATS
                      (glob_pattern recursive) = [] ->
  convert_directory env self dir recursive w
  = (Return [(false, "No audio files found in: " ++ str dir)], w).
Proof.
  intros Hdir Hempty.
  assert (Hex : Fs.exists_ (w_fs w) dir = true).
  { unfold Fs.is_dir in Hdir. unfold Fs.exists_.
    now destruct (Fs.kind_of (w_fs w) dir). }
  unfold convert_directory, bind at 1, path_exists. rewrite Hex.
  cbv beta iota delta [negb].
  unfold bind at 1, path_is_dir. rewrite Hdir.
  cbv beta iota delta [negb].
  unfold bind at 1, get_fs. cbv beta iota.
  now rewrite Hempty.
Qed.

(** X11.  A directory in which no entry (at the depth that is walked)
    has a name ending with a supported format in lower or in upper
    case yields the single failure result "No audio files found in:
    <dir>", and nothing is touched: nothing printed, no directory
    made, no process started.  A file with a mixed-case extension such
    as [y.Wav] does not count, though [convert_file] would take it. *)
Theorem convert_directory_without_candidates
        (env : Env) (self : AudioConverter) (dir : Path)
        (recursive : bool) (w : World) :
  Fs.is_dir (w_fs w) dir = true ->
  (forall p, In p (map fst (w_fs w)) -> below dir recursive p = true ->
             audio_name (name p) = false) ->
  convert_directory env self dir recursive w
  = (Return [(false, "No audio files found in: " ++ str dir)], w).
Proof.
  intros Hdir Hnone.
  apply convert_directory_no_matches; [assumption|].
  now apply no_audio_names_no_matches.
Qed.

(** X12.  [convert_directory] refuses what is not a directory with a
    single failure result and touches nothing: "Directory not found:
    <path>" when the path does not exist, "Not a directory: <path>"
    when it is a file. *)
Theorem convert_directory_rejects_non_directory
        (env : Env) (self : AudioConverter) (dir : Path)
        (recursive : bool) (w : World) :
  (Fs.exists_ (w_fs w) dir = false ->
   convert_directory env self dir recursive w
   = (Return [(false, "Directory not found: " ++ str dir)], w)) /\
  (Fs.is_file (w_fs w) dir = true ->
   convert_directory env self dir recursive w
   = (Return [(false, "Not a directory: " ++ str dir)], w)).
Proof.
  split.
  - intro Hex. unfold convert_directory, bind at 1, path_exists.
    now rewrite Hex.
  - intro Hfile.
    assert (Hk : Fs.kind_of (w_fs w) dir = Some File).
    { unfold Fs.is_file in Hfile.
      destruct (Fs.kind_of (w_fs w) dir) as [[|]|];
        try discriminate; reflexivity. }
    unfold convert_directory, bind at 1, path_exists, Fs.exists_.
    rewrite Hk. cbv beta iota delta [negb].
    unfold bind at 1, path_is_dir, Fs.is_dir. now rewrite Hk.
Qed.

Lemma rfind_append (c : ascii) (a b : string) :
  PyStr.rfind c (a ++ b)
  = match PyStr.rfind c b with
    | Some i => Some (String.length a + i)
    | None => PyStr.rfind c a
    end.
Proof.
  induction a as [|x a IH]; simpl.
  - now destruct (PyStr.rfind c b).
  - rewrite IH. now destruct (PyStr.rfind c b).
Qed.

Lemma drop_append (a b : string) :
  PyStr.drop (String.length a) (a ++ b) = b.
Proof.
  unfold PyStr.drop. induction a as [|x a IH]; simpl.
  - rewrite Nat.sub_0_r. apply substring_full.
  - exact IH.
Qed.

Lemma endswith_split (n e : string) :
  PyStr.endswith n e = true -> exists a, n = a ++ e.
Proof.
  unfold PyStr.endswith. intro H.
  apply andb_true_iff in H. destruct H as [Hle Heq].
  apply Nat.leb_le in Hle. apply String.eqb_eq in Heq.
  exists (PyStr.take (String.length n - String.length e) n).
  assert (Hd : PyStr.drop (String.length n - String.length e) n = e).
  { unfold PyStr.drop. rewrite <- Heq at 3. f_equal. lia. }
  transitivity (PyStr.take (String.length n - String.length e) n
                ++ PyStr.drop (String.length n - String.length e) n).
  - symmetry. apply take_drop. lia.
  - now rewrite Hd.
Qed.

(** What the format literals have in common: one dot, in front, and
    a supported lower-case form. *)
Lemma format_literal_facts (ext e : string) :
  In ext SUPPORTED_FORMATS -> e = ext \/ e = PyStr.upper ext ->
  PyStr.rfind "." e = Some 0 /\ 2 <= String.length e /\
  mem (PyStr.lower e) SUPPORTED_FORMATS = true.
Proof.
  intros H He. simpl in H.
  repeat (destruct H as [<-|H];
          [destruct He as [->| ->]; repeat split; simpl; lia|]).
  contradiction.
Qed.

Lemma audio_name_split (n : string) :
  audio_name n = true ->
  exists a ext e, n = a ++ e /\ In ext SUPPORTED_FORMATS /\
                  (e = ext \/ e = PyStr.upper ext).
Proof.
  unfold audio_name. rewrite existsb_exists.
  intros [ext [Hext H]]. apply orb_true_iff in H.
  destruct H as [H|H]; apply endswith_split in H; destruct H as [a Ha];
    exists a, ext; eexists; eauto.
Qed.

Lemma suffix_of_audio_name (p : Path) (a ext e : string) :
  name p = a ++ e -> In ext SUPPORTED_FORMATS ->
  e = ext \/ e = PyStr.upper ext ->
  (a = "" /\ suffix p = "" /\ bare_extension (name p) = true) \/
  (a <> "" /\ suffix p = e /\ bare_extension (name p) = false).
Proof.
  intros Hn Hext He.
  destruct (format_literal_facts ext e Hext He) as [Hdot [Hlen _]].
  assert (Hr : PyStr.rfind "." (name p) = Some (String.length a + 0))
    by now rewrite Hn, rfind_append, Hdot.
  destruct a as [|c a].
  - left. split; [reflexivity|]. split.
    + unfold suffix. now rewrite Hr.
    + unfold bare_extension. apply existsb_exists. exists ext.
      split; [assumption|]. rewrite Hn. simpl.
      destruct He as [->| ->]; rewrite String.eqb_refl;
        [reflexivity | apply orb_true_r].
  - right. split; [discriminate|]. split.
    + unfold suffix. rewrite Hr, Hn, length_append, Nat.add_0_r.
      replace (0 <? String.length (String c a))%nat with true
        by (symmetry; apply Nat.ltb_lt; simpl; lia).
      replace (String.length (String c a)
               <? String.length (String c a) + String.length e - 1)%nat
        with true by (symmetry; apply Nat.ltb_lt; lia).
      apply drop_append.
    + destruct (bare_extension (name p)) eqn:Hb; [|reflexivity].
      exfalso. unfold bare_extension in Hb.
      apply existsb_exists in Hb. destruct Hb as [ext' [Hext' Hb]].
      assert (He' : name p = ext' \/ name p = PyStr.upper ext').
      { apply orb_true_iff in Hb.
        destruct Hb as [Hb|Hb]; apply String.eqb_eq in Hb; auto. }
      destruct (format_literal_facts ext' (name p) Hext' He')
        as [Hdot' _].
      rewrite Hr in Hdot'. simpl in Hdot'. discriminate.
Qed.

(** X13.  What [convert_directory] finds, [convert_file] accepts, with
    one exception.  A candidate's suffix, lower-cased, is a supported
    format, unless the candidate's name is nothing but an extension (a
    hidden file such as [.wav] or [.MP3]): such a name has no suffix,
    so [convert_file] reports it as "Unsupported format: ". *)
Theorem candidates_pass_the_extension_test
        (fs : FS) (dir : Path) (recursive : bool) (p : Path) :
  In p (candidate_files (Fs.glob fs dir) SUPPORTED_FORMATS recursive) ->
  (bare_extension (name p) = false ->
   mem (PyStr.lower (suffix p)) SUPPORTED_FORMATS = true) /\
  (bare_extension (name p) = true ->
   suffix p = "" /\
   mem (PyStr.lower (suffix p)) SUPPORTED_FORMATS = false).
Proof.
  intro H. apply in_candidate_files in H.
  destruct H as [_ [_ [_ Ha]]].
  destruct (audio_name_split _ Ha) as [a [ext [e [Hn [Hext He]]]]].
  destruct (suffix_of_audio_name p a ext e Hn Hext He)
    as [[_ [Hs Hb]]|[_ [Hs Hb]]]; rewrite Hb, Hs.
  - split; [discriminate | auto].
  - split; [|discriminate]. intros _.
    exact (proj2 (proj2 (format_literal_facts ext e Hext He))).
Qed.

Lemma last_app_nonempty (l rel : Path) :
  rel <> [] -> last (l ++ rel)%list "" = last rel "".
Proof.
  intro Hne. induction l as [|a l IH]; [reflexivity|].
  simpl. destruct (l ++ rel)%list eqn:E; [|exact IH].
  apply app_eq_nil in E. destruct E. contradiction.
Qed.

Lemma name_below (dir rel : Path) :
  rel <> [] -> is_absolute rel = false ->
  name (dir ++ rel)%list = name rel.
Proof.
  intros Hne Ha. unfold name.
  assert (H1 : nameless rel = false).
  { destruct rel as [|a [|b rel]]; [contradiction | exact Ha | reflexivity]. }
  assert (H2 : nameless (dir ++ rel)%list = false).
  { destruct dir as [|d dir]; [exact H1|].
    simpl. destruct (dir ++ rel)%list eqn:E; [|reflexivity].
    apply app_eq_nil in E. destruct E. contradiction. }
  rewrite H1, H2. now apply last_app_nonempty.
Qed.

Lemma stem_of_name (p q : Path) : name p = name q -> stem p = stem q.
Proof. intro H. unfold stem. now rewrite H. Qed.

Lemma is_absolute_removelast (rel : Path) (x : string) :
  is_absolute rel = false -> plain x ->
  is_absolute (removelast rel ++ [x])%list = false.
Proof.
  intros Ha Hx. destruct rel as [|a [|b rel]].
  - simpl. now apply plain_not_anchor.
  - simpl. now apply plain_not_anchor.
  - exact Ha.
Qed.

Lemma parent_below (dir rel : Path) :
  rel <> [] -> is_absolute rel = false ->
  parent (dir ++ rel)%list = (dir ++ removelast rel)%list.
Proof.
  intros Hne Ha. unfold parent.
  assert (H : nameless (dir ++ rel)%list = false).
  { destruct dir as [|d dir].
    - destruct rel as [|a [|b rel]];
        [contradiction | exact Ha | reflexivity].
    - simpl. destruct (dir ++ rel)%list eqn:E; [|reflexivity].
      apply app_eq_nil in E. destruct E. contradiction. }
  rewrite H. now apply removelast_app.
Qed.

Lemma append_inj_r (s : string) :
  forall a b : string, a ++ s = b ++ s -> a = b.
Proof.
  induction a as [|x a IH]; destruct b as [|y b]; simpl; intro H.
  - reflexivity.
  - apply (f_equal String.length) in H. simpl in H.
    rewrite length_append in H. lia.
  - apply (f_equal String.length) in H. simpl in H.
    rewrite length_append in H. lia.
  - inversion H. f_equal. now apply IH.
Qed.

(** The output path of a candidate, in each of the three modes. *)
Lemma candidate_output_path_run
      (self : AudioConverter) (fs : FS) (dir : Path) (recursive : bool)
      (p : Path) (w : World) :
  names_plain fs = true ->
  In p (candidate_files (Fs.glob fs dir) SUPPORTED_FORMATS recursive) ->
  exists rel,
    p = (dir ++ rel)%list /\ rel <> [] /\ is_absolute rel = false /\
    is_anchor (stem p ++ ".mp3") = false /\
    directory_output_path self dir recursive p w
    = (Return
         (match nonempty (output_dir self) with
          | Some d =>
              if keep_structure self && recursive
              then of_string d ++ removelast rel
                   ++ [(stem p ++ ".mp3")%string]
              else of_string d ++ [(stem p ++ ".mp3")%string]
          | None => dir ++ removelast rel ++ [(stem p ++ ".mp3")%string]
          end)%list, w).
Proof.
  intros Hplain H. apply in_candidate_files in H.
  destruct H as [_ [Hin [Hb Ha]]].
  assert (Hslash : PyStr.contains "/" (name p) = false).
  { unfold names_plain in Hplain. rewrite forallb_forall in Hplain.
    apply in_map_iff in Hin. destruct Hin as [[q k] [Hq Hin]].
    simpl in Hq. subst q. specialize (Hplain _ Hin). simpl in Hplain.
    now apply negb_true_iff in Hplain. }
  assert (Hname : name p <> "").
  { destruct (audio_name_split _ Ha) as [a [ext [e [Hn [Hext He]]]]].
    destruct (format_literal_facts ext e Hext He) as [_ [Hlen _]].
    intro E. rewrite E in Hn. apply (f_equal String.length) in Hn.
    rewrite length_append in Hn. simpl in Hn. lia. }
  destruct (mp3_name_plain (stem p) (stem_slash_free p Hslash))
    as [Hmp3 _].
  destruct (below_inv _ _ _ Hb) as [rel [Hne [Hrel [Hp [Habs _]]]]].
  exists rel. split; [assumption|]. split; [assumption|].
  split; [assumption|]. split; [now apply plain_not_anchor|].
  unfold directory_output_path.
  destruct (nonempty (output_dir self)) as [d|].
  - destruct (keep_structure self && recursive).
    + rewrite Hrel. unfold or_value_error, bind, ret.
      assert (Hn : name rel = name p)
        by (rewrite Hp; symmetry; now apply name_below).
      rewrite with_suffix_mp3 by (rewrite Hn; assumption).
      rewrite (stem_of_name rel p Hn).
      unfold joinpath.
      now rewrite (is_absolute_removelast rel _ Habs Hmp3).
    + unfold flattened_path.
      now rewrite (join_str_mp3 _ _ (stem_slash_free p Hslash)).
  - rewrite (with_suffix_mp3 p Hname Hslash).
    assert (Hrl : removelast p = (dir ++ removelast rel)%list)
      by (rewrite Hp; now apply removelast_app).
    now rewrite Hrl, <- app_assoc.
Qed.

(** X14.  Working out the output path of a candidate never fails, in
    any of the three modes (in a file system whose names hold no
    separator).  The output is always named [stem.mp3]; it lies beside
    the input when no output directory is given, directly in the
    output directory in the flat mode, and otherwise as deep below the
    output directory as the input lies below the input directory. *)
Theorem candidate_output_path
        (self : AudioConverter) (fs : FS) (dir : Path) (recursive : bool)
        (p : Path) (w : World) :
  names_plain fs = true ->
  In p (candidate_files (Fs.glob fs dir) SUPPORTED_FORMATS recursive) ->
  exists out,
    directory_output_path self dir recursive p w = (Return out, w) /\
    name out = stem p ++ ".mp3" /\
    match nonempty (output_dir self) with
    | None => parent out = parent p
    | Some d =>
        if keep_structure self && recursive
        then exists sub, parent p = (dir ++ sub)%list /\
                         parent out = (of_string d ++ sub)%list
        else parent out = of_string d
    end.
Proof.
  intros Hplain H.
  destruct (candidate_output_path_run self fs dir recursive p w Hplain H)
    as [rel [Hp [Hne [Habs [Hx Hrun]]]]].
  assert (Hpar : parent p = (dir ++ removelast rel)%list)
    by (rewrite Hp; now apply parent_below).
  revert Hrun.
  destruct (nonempty (output_dir self)) as [d|];
    [destruct (keep_structure self && recursive)|];
    intro Hrun; (eexists; split; [exact Hrun|]).
  - rewrite !app_assoc. split; [now apply name_snoc|].
    exists (removelast rel). split; [assumption|].
    now apply parent_snoc.
  - split; [now apply name_snoc | now apply parent_snoc].
  - rewrite !app_assoc. split; [now apply name_snoc|].
    rewrite Hpar. now apply parent_snoc.
Qed.

(** X15.  When two candidates of one run get the same output.  In the
    flat mode: exactly when they have the same stem, wherever they
    lie.  In the other two modes (no output directory, or the
    structure kept): exactly when they lie in the same directory and
    have the same stem. *)
Theorem outputs_collide
        (self : AudioConverter) (fs : FS) (dir : Path) (recursive : bool)
        (p q : Path) (w : World) (outp outq : Path) :
  names_plain fs = true ->
  In p (candidate_files (Fs.glob fs dir) SUPPORTED_FORMATS recursive) ->
  In q (candidate_files (Fs.glob fs dir) SUPPORTED_FORMATS recursive) ->
  directory_output_path self dir recursive p w = (Return outp, w) ->
  directory_output_path self dir recursive q w = (Return outq, w) ->
  if flat_mode self recursive
  then outp = outq <-> stem p = stem q
  else outp = outq <-> parent p = parent q /\ stem p = stem q.
Proof.
  intros Hplain Hinp Hinq Hrp Hrq.
  destruct (candidate_output_path_run self fs dir recursive p w Hplain Hinp)
    as [rp [Hp [Hnp [Hap [_ Ep]]]]].
  destruct (candidate_output_path_run self fs dir recursive q w Hplain Hinq)
    as [rq [Hq [Hnq [Haq [_ Eq]]]]].
  assert (Hpp : parent p = (dir ++ removelast rp)%list)
    by (rewrite Hp; now apply parent_below).
  assert (Hpq : parent q = (dir ++ removelast rq)%list)
    by (rewrite Hq; now apply parent_below).
  rewrite Ep in Hrp. rewrite Eq in Hrq.
  injection Hrp as Hrp. injection Hrq as Hrq. subst outp outq.
  rewrite Hpp, Hpq. clear Ep Eq Hpp Hpq Hp Hq.
  assert (Hdeep : forall root : Path,
    (root ++ removelast rp ++ [(stem p ++ ".mp3")%string])%list
    = (root ++ removelast rq ++ [(stem q ++ ".mp3")%string])%list
    <-> (dir ++ removelast rp)%list = (dir ++ removelast rq)%list
        /\ stem p = stem q).
  { intro root. split.
    - intro E. apply app_inv_head in E. apply app_inj_tail in E.
      destruct E as [E1 E2]. apply append_inj_r in E2.
      split; congruence.
    - intros [E1 E2]. apply app_inv_head in E1. now rewrite E1, E2. }
  unfold flat_mode.
  destruct (nonempty (output_dir self)) as [d|];
    [destruct (keep_structure self && recursive)|];
    cbv beta iota delta [negb]; try apply Hdeep.
  split.
  - intro E. apply app_inv_head in E. inversion E as [E'].
    now apply append_inj_r in E'.
  - now intros ->.
Qed.

Ltac pick := vm_compute; repeat (first [left; reflexivity | right]).

Lemma convert_directory_without_candidates_witness :
  convert_directory (Sample.env "128000") Sample.in_place ["A"] true
                    Cases.world_mixed_case
  = (Return [(false, "No audio files found in: A")],
     Cases.world_mixed_case) /\
  mem (PyStr.lower (suffix ["A"; "y.Wav"])) SUPPORTED_FORMATS = true.
Proof.
  split; [|reflexivity].
  apply (convert_directory_without_candidates
           (Sample.env "128000") Sample.in_place ["A"] true
           Cases.world_mixed_case).
  - reflexivity.
  - intros p Hin _. simpl in Hin.
    destruct Hin as [<-|[<-|[<-|[]]]]; reflexivity.
Defined.

Lemma convert_directory_rejects_non_directory_witness :
  convert_directory (Sample.env "128000") Sample.in_place ["A"; "gone"]
                    true Sample.world
  = (Return [(false, "Directory not found: A/gone")], Sample.world) /\
  convert_directory (Sample.env "128000") Sample.in_place
                    ["A"; "notes.txt"] true Sample.world
  = (Return [(false, "Not a directory: A/notes.txt")], Sample.world).
Proof.
  split.
  - apply (proj1 (convert_directory_rejects_non_directory
                    (Sample.env "128000") Sample.in_place ["A"; "gone"]
                    true Sample.world)).
    reflexivity.
  - apply (proj2 (convert_directory_rejects_non_directory
                    (Sample.env "128000") Sample.in_place
                    ["A"; "notes.txt"] true Sample.world)).
    reflexivity.
Defined.

Lemma candidates_pass_the_extension_test_witness :
  mem (PyStr.lower (suffix ["A"; "q.tar.wav"])) SUPPORTED_FORMATS = true /\
  (suffix ["A"; ".wav"] = "" /\
   mem (PyStr.lower (suffix ["A"; ".wav"])) SUPPORTED_FORMATS = false).
Proof.
  split.
  - apply (proj1 (candidates_pass_the_extension_test
                    Sample.fs_tree ["A"] true ["A"; "q.tar.wav"]
                    ltac:(pick))).
    reflexivity.
  - apply (proj2 (candidates_pass_the_extension_test
                    Sample.fs_tree ["A"] true ["A"; ".wav"]
                    ltac:(pick))).
    reflexivity.
Defined.

Lemma candidate_output_path_witness :
  exists out,
    directory_output_path Cases.mirror_into_B ["A"] true
                          ["A"; "sub1"; "x.flac"] Sample.world
    = (Return out, Sample.world) /\
    name out = "x.mp3" /\
    exists sub, parent ["A"; "sub1"; "x.flac"] = (["A"] ++ sub)%list /\
                parent out = (["B"] ++ sub)%list.
Proof.
  exact (candidate_output_path
           Cases.mirror_into_B Sample.fs ["A"] true
           ["A"; "sub1"; "x.flac"] Sample.world eq_refl ltac:(pick)).
Defined.

Lemma outputs_collide_witness :
  ["B"; "sub1"; "x.mp3"] = ["B"; "sub2"; "x.mp3"]
  <-> parent ["A"; "sub1"; "x.flac"] = parent ["A"; "sub2"; "x.mp3"]
      /\ stem ["A"; "sub1"; "x.flac"] = stem ["A"; "sub2"; "x.mp3"].
Proof.
  exact (outputs_collide
           Cases.mirror_into_B Sample.fs ["A"] true
           ["A"; "sub1"; "x.flac"] ["A"; "sub2"; "x.mp3"] Sample.world
           ["B"; "sub1"; "x.mp3"] ["B"; "sub2"; "x.mp3"]
           eq_refl ltac:(pick) ltac:(pick) eq_refl eq_refl).
Defined.

End Candidates.

(* ================================================================== *)
(** * Whole runs *)
(* ================================================================== *)

Section WholeRun.

Variable env : Env.
Variable P : World -> Prop.

Hypothesis P_print : forall f s, keeps P (print_to env f s).
Hypothesis P_mkdir : forall q, keeps P (path_mkdir_parents q).
Hypothesis P_run : forall cmd, keeps P (subprocess_run env cmd).

Lemma keeps_convert_directory (self : AudioConverter) (input_dir : Path)
      (recursive : bool) :
  keeps P (convert_directory env self input_dir recursive).
Proof.
  unfold convert_directory.
  apply keeps_bind; [intros w Hw; exact Hw | intro found].
  destruct (negb found); [apply keeps_ret|].
  apply keeps_bind; [intros w Hw; exact Hw | intro is_d].
  destruct (negb is_d); [apply keeps_ret|].
  apply keeps_bind; [intros w Hw; exact Hw | intro fs].
  cbv zeta.
  destruct (collect_audio_files (Fs.glob fs input_dir) SUPPORTED_FORMATS
                                (glob_pattern recursive));
    [apply keeps_ret|].
  apply keeps_bind; [apply P_print | intros _].
  now apply keeps_convert_each.
Qed.

Lemma keeps_print_summary (results : list (bool * string)) :
  keeps P (print_summary env results).
Proof.
  unfold print_summary, print. cbv zeta.
  repeat (apply keeps_bind; [apply P_print | intros _]).
  apply P_print.
Qed.

Lemma keeps_main (args : Args) : keeps P (main env args).
Proof.
  unfold main.
  apply keeps_bind.
  { unfold new_converter, _check_ffmpeg.
    apply keeps_bind; [|intros _; apply keeps_ret].
    destruct (nonempty (which env "ffmpeg"));
      [apply keeps_ret | apply keeps_raise]. }
  intro converter. cbv zeta.
  apply keeps_bind; [intros w Hw; exact Hw | intro is_f].
  destruct is_f.
  - apply keeps_bind; [now apply keeps_convert_file | intro r].
    apply keeps_bind; [apply P_print | intros _; apply keeps_ret].
  - apply keeps_bind; [intros w Hw; exact Hw | intro is_d].
    destruct is_d.
    + apply keeps_bind; [apply keeps_convert_directory | intro results].
      apply keeps_bind; [apply keeps_print_summary | intros _].
      apply keeps_ret.
    + apply keeps_bind; [apply P_print | intros _; apply keeps_ret].
Qed.

End WholeRun.

Section Batches.

Import PurePath PathFacts.

Variable env : Env.
Variable self : AudioConverter.

(** X16.  The program itself deletes nothing: whatever exists when
    [main] starts and is not removed by an external command still
    exists when [main] ends, however it ends. *)
Theorem main_removes_nothing (args : Args) (p : Path) (w : World) :
  never_removes env p ->
  Fs.exists_ (w_fs w) p = true ->
  Fs.exists_ (w_fs (snd (main env args w))) p = true.
Proof.
  intros Hkeep Hp.
  apply (keeps_main env (fun w => Fs.exists_ (w_fs w) p = true));
    try assumption.
  - intros f s. apply existing_print.
  - intro q. apply existing_mkdir.
  - intro cmd. now apply existing_run.
Qed.

Lemma convert_each_raise (dir : Path) (recursive : bool) (total : nat)
      (f : Path) (post : list Path) (e : Exn) (w1 w2 : World) :
  forall (pre : list Path) (i : nat) (w : World)
         (rs : list (bool * string)),
    convert_each env self dir recursive total i pre w = (Return rs, w1) ->
    convert_candidate env self dir recursive total (i + List.length pre)
                      f w1 = (Raise e, w2) ->
    convert_each env self dir recursive total i (pre ++ f :: post)%list w
    = (Raise e, w2).
Proof.
  induction pre as [|a pre IH]; intros i w rs Hpre Hf.
  - simpl in Hpre. inversion Hpre; subst.
    simpl in Hf. rewrite Nat.add_0_r in Hf.
    simpl. unfold bind at 1. now rewrite Hf.
  - destruct (convert_each_cons_inv _ _ _ _ _ _ _ _ _ _ _ Hpre)
      as [r [rs' [wa [Ha [Hrest _]]]]].
    simpl. unfold bind at 1. rewrite Ha.
    unfold bind at 1.
    rewrite (IH (S i) wa rs' Hrest)
      by (simpl in Hf; now rewrite Nat.add_succ_r in Hf).
    reflexivity.
Qed.

(** X17.  One exception ends the batch.  When handling a candidate
    raises (its output directory cannot be made, or launching the
    transcoder is interrupted), [convert_directory] raises the same
    exception at once: the results of the candidates before it are
    lost, and no candidate after it is looked at (the run ends in the
    state in which that candidate failed). *)
Theorem batch_stops_at_first_exception
        (dir : Path) (recursive : bool) (w : World)
        (pre : list Path) (f : Path) (post : list Path)
        (rs : list (bool * string)) (w1 : World) (e : Exn) (w2 : World) :
  Fs.is_dir (w_fs w) dir = true ->
  candidate_files (Fs.glob (w_fs w) dir) SUPPORTED_FORMATS recursive
  = (pre ++ f :: post)%list ->
  let total := List.length (pre ++ f :: post)%list in
  let announced :=
    snd (print env (newline ++ "Found " ++ PyStr.of_nat total
                ++ " audio file(s) to convert..." ++ newline) w) in
  convert_each env self dir recursive total 1 pre announced
  = (Return rs, w1) ->
  convert_candidate env self dir recursive total (1 + List.length pre) f w1
  = (Raise e, w2) ->
  convert_directory env self dir recursive w = (Raise e, w2).
Proof.
  intros Hdir Hfiles total announced Hpre Hf.
  assert (Hsome : collect_audio_files (Fs.glob (w_fs w) dir)
                    SUPPORTED_FORMATS (glob_pattern recursive) <> []).
  { intro E. unfold candidate_files in Hfiles. rewrite E in Hfiles.
    simpl in Hfiles. now apply app_cons_not_nil in Hfiles. }
  rewrite (convert_directory_walks_candidates env self dir recursive w
             Hdir Hsome).
  cbv zeta. rewrite Hfiles. fold total.
  unfold bind at 1.
  match goal with
  | |- context [print env ?s w] =>
      assert (Hp : print env s w = (Return tt, announced))
        by (unfold announced;
            now rewrite (print_ascii env _ w (announcement_ascii total)))
  end.
  rewrite Hp.
  exact (convert_each_raise dir recursive total f post e w1 w2
           pre 1 announced rs Hpre Hf).
Qed.

Lemma supported_has_name (p : Path) :
  mem (PyStr.lower (suffix p)) SUPPORTED_FORMATS = true -> name p <> "".
Proof.
  intros H E. unfold suffix in H. rewrite E in H. discriminate H.
Qed.

(** X18.  Converting in place makes no directory.  With no output
    directory, and the output left to [convert_file] or worked out by
    the loop of [convert_directory], the output of an input that
    exists lies in the input's own directory; so the directory that
    [convert_file] makes is there already, making it cannot fail and
    changes nothing, and the file system after the call is the one at
    the start or the one that the single external command left. *)
Theorem in_place_makes_no_directory
        (p : Path) (o : option Path) (w : World) :
  nonempty (output_dir self) = None ->
  o = None \/ o = with_suffix p ".mp3" ->
  Fs.wf (w_fs w) = true ->
  Fs.exists_ (w_fs w) p = true ->
  mem (PyStr.lower (suffix p)) SUPPORTED_FORMATS = true ->
  PyStr.contains "/" (name p) = false ->
  let result := convert_file env self p o w in
  exists out,
    derive_output_path self p o w = (Return out, w) /\
    parent out = parent p /\
    Fs.mkdir_parents (w_fs w) (parent out) = inr (w_fs w) /\
    (w_fs (snd result) = w_fs w \/
     w_fs (snd result) = snd (run env (ffprobe_cmd p) (w_fs w)) \/
     w_fs (snd result) = snd (run env (ffmpeg_cmd self p out) (w_fs w))).
Proof.
  intros Hroot Ho Hwf Hex Hsup Hslash result.
  pose proof (supported_has_name p Hsup) as Hname.
  pose proof (with_suffix_mp3 p Hname Hslash) as Hws.
  destruct (mp3_name_plain (stem p) (stem_slash_free p Hslash))
    as [Hmp3 _].
  exists (removelast p ++ [(stem p ++ ".mp3")%string])%list.
  assert (Hder : derive_output_path self p o w
                 = (Return (removelast p
                            ++ [(stem p ++ ".mp3")%string])%list, w)).
  { destruct Ho as [->| ->].
    - unfold derive_output_path. now rewrite Hroot, Hws.
    - now rewrite Hws. }
  assert (Hpar : parent (removelast p ++ [(stem p ++ ".mp3")%string])%list
                 = parent p).
  { rewrite (parent_snoc _ _ (plain_not_anchor _ Hmp3)).
    symmetry. now apply name_nonempty_not_nameless. }
  assert (Hmk : Fs.mkdir_parents
                  (w_fs w)
                  (parent (removelast p
                           ++ [(stem p ++ ".mp3")%string])%list)
                = inr (w_fs w)).
  { rewrite Hpar. apply mkdir_parents_existing.
    now apply parent_of_existing. }
  split; [exact Hder|]. split; [exact Hpar|]. split; [exact Hmk|].
  unfold result.
  rewrite (convert_file_validated env self p _ o w (w_fs w)
             Hex Hsup Hder Hmk), after_nil.
  destruct (Fs.exists_ (w_fs w) _ && negb (overwrite self)).
  - rewrite skip_existing_run.
    destruct (PyStr.lower (suffix p) =? ".mp3"); simpl; auto.
  - rewrite transcode_run. simpl. auto.
Qed.

End Batches.

Section MainRuns.

Import PurePath PathFacts.

Variable env : Env.

(** X19.  The two ways in which [main] gives up before doing any work.
    Without [ffmpeg] on the search path it raises [RuntimeError] before
    it looks at the input: nothing is printed, whatever the arguments.
    With [ffmpeg], an input path that does not exist costs one line on
    standard error and the status 1; nothing is written to standard
    output, no process is started, the file system is not touched. *)
Theorem main_early_exits (args : Args) (w : World) :
  (nonempty (which env "ffmpeg") = None ->
   main env args w = (Raise (mkExn RuntimeError ffmpeg_missing), w)) /\
  (nonempty (which env "ffmpeg") <> None ->
   Fs.exists_ (w_fs w) (of_string (arg_input args)) = false ->
   main env args w
   = (Return 1%Z,
      mkWorld (w_fs w) (w_spawned w)
              (w_console w
               ++ [(Stderr, "Error: Input path does not exist: "
                            ++ str (of_string (arg_input args)))]))).
Proof.
  split.
  - intro H. unfold main, bind, new_converter, bind, _check_ffmpeg.
    now rewrite H.
  - intros Hff Hmissing.
    assert (Hkind : Fs.kind_of (w_fs w) (of_string (arg_input args))
                    = None).
    { unfold Fs.exists_ in Hmissing.
      destruct (Fs.kind_of (w_fs w) (of_string (arg_input args)));
        [discriminate | reflexivity]. }
    unfold main, bind. rewrite new_converter_found by assumption.
    unfold path_is_file at 1, Fs.is_file. rewrite Hkind.
    unfold path_is_dir at 1, Fs.is_dir. simpl w_fs. rewrite Hkind.
    reflexivity.
Qed.

(** X20.  A directory without audio files.  [main] does not print the
    "No audio files found" message of [convert_directory]: it counts
    that message as the result of one file, so the summary reads one
    file in total, none successful, one failed or skipped, and the
    status is 1. *)
Theorem main_directory_without_candidates (args : Args) (w : World) :
  nonempty (which env "ffmpeg") <> None ->
  Fs.is_dir (w_fs w) (of_string (arg_input args)) = true ->
  (forall p, In p (map fst (w_fs w)) ->
             below (of_string (arg_input args))
                   (negb (arg_no_recursive args)) p = true ->
             audio_name (name p) = false) ->
  main env args w
  = (Return 1%Z,
     mkWorld (w_fs w) (w_spawned w)
             (w_console w
              ++ [(Stdout, newline ++ PyStr.repeat "=" 60);
                  (Stdout, "Conversion Summary:");
                  (Stdout, "  Total files: 1");
                  (Stdout, "  Successful: 0");
                  (Stdout, "  Failed/Skipped: 1");
                  (Stdout, PyStr.repeat "=" 60)])).
Proof.
  intros Hff Hdir Hnone.
  assert (Hfile : Fs.is_file (w_fs w) (of_string (arg_input args)) = false).
  { unfold Fs.is_dir in Hdir. unfold Fs.is_file.
    destruct (Fs.kind_of (w_fs w) (of_string (arg_input args)))
      as [[|]|]; try discriminate; reflexivity. }
  unfold main, bind. rewrite new_converter_found by assumption.
  unfold path_is_file at 1. rewrite Hfile.
  unfold path_is_dir at 1. simpl w_fs. rewrite Hdir.
  rewrite (convert_directory_no_matches env _ _ _ w Hdir
             (no_audio_names_no_matches _ _ _ Hnone)).
  unfold print_summary, bind, print, print_to. simpl.
  rewrite <- !app_assoc. reflexivity.
Qed.

(** X21.  In file mode the output option names the output file itself,
    not a directory to put it in: when [main] starts the transcoder for
    a single file, the path given as output (as [pathlib] prints it) is
    the last argument of the command.  ([main] starts nothing else, but
    for the probe of an [.mp3] input.) *)
Theorem file_mode_output_names_the_file
        (args : Args) (o : string) (w : World) :
  nonempty (which env "ffmpeg") <> None ->
  Fs.is_file (w_fs w) (of_string (arg_input args)) = true ->
  nonempty (arg_output args) = Some o ->
  let input := of_string (arg_input args) in
  let self := mkConverter (arg_output args) (arg_overwrite args)
                          (negb (arg_no_structure args)) in
  let w' := snd (main env args w) in
  w_spawned w' = w_spawned w \/
  w_spawned w' = (w_spawned w ++ [ffprobe_cmd input])%list \/
  (w_spawned w'
   = (w_spawned w ++ [ffmpeg_cmd self input (of_string o)])%list /\
   last (ffmpeg_cmd self input (of_string o)) "" = str (of_string o)).
Proof.
  intros Hff Hfile Ho input self w'.
  assert (Hmain : w_spawned w'
                  = w_spawned (snd (convert_file env self input
                                      (Some (of_string o)) w))).
  { subst w' input self. unfold main, bind.
    rewrite new_converter_found by assumption.
    unfold path_is_file at 1. rewrite Hfile, Ho.
    simpl option_map.
    destruct (convert_file env _ _ (Some (of_string o)) w)
      as [[r|e] w1]; [|reflexivity].
    unfold print, print_to.
    destruct (can_print env Stdout (snd r)); reflexivity. }
  assert (Hlast : last (ffmpeg_cmd self input (of_string o)) ""
                  = str (of_string o))
    by (unfold ffmpeg_cmd; rewrite !app_assoc; apply last_last).
  rewrite Hmain, convert_file_unfold.
  destruct (negb (Fs.exists_ (w_fs w) input)); [now left|].
  destruct (negb (mem _ SUPPORTED_FORMATS)); [now left|].
  change (fst (derive_output_path self input (Some (of_string o)) w))
    with (Return (of_string o)).
  cbv beta iota.
  destruct (Fs.mkdir_parents (w_fs w) (parent (of_string o))) as [e|fs1];
    [now left|].
  destruct (Fs.exists_ fs1 (of_string o) && _); cbv beta iota.
  - rewrite skip_existing_run.
    destruct (PyStr.lower (suffix input) =? ".mp3"); simpl;
      rewrite ?app_nil_r; auto.
  - rewrite transcode_run. simpl. rewrite app_nil_r.
    right. right. split; [reflexivity | exact Hlast].
Qed.

End MainRuns.

Lemma skip_is_settled_without_processes_witness :
  exists r',
    fst (convert_file Sample.env_rejecting Sample.in_place
                      ["A"; "y.WAV"] None Sample.world) = Return r' /\
    is_skip r' = true.
Proof.
  eapply (skip_is_settled_without_processes
            (Sample.env "128000") Sample.env_rejecting Sample.in_place
            ["A"; "y.WAV"] None Sample.world);
    [vm_compute; reflexivity | reflexivity].
Defined.

Lemma main_removes_nothing_witness :
  Fs.exists_
    (w_fs (snd (main (Sample.env "128000")
                     (mkArgs "A" None false false false) Sample.world)))
    ["A"; "y.WAV"] = true.
Proof.
  exact (main_removes_nothing
           (Sample.env "128000") (mkArgs "A" None false false false)
           ["A"; "y.WAV"] Sample.world
           (sample_never_removes "128000" ["A"; "y.WAV"]) eq_refl).
Defined.

Lemma batch_stops_at_first_exception_witness :
  exists e w2,
    convert_directory (Sample.env "128000") Cases.mirror_into_B ["A"] true
                      Cases.world_half_blocked = (Raise e, w2) /\
    w_spawned w2
    = [ffmpeg_cmd Cases.mirror_into_B ["A"; "a.wav"] ["B"; "a.mp3"]].
Proof.
  eexists. eexists. split.
  - eapply (batch_stops_at_first_exception
              (Sample.env "128000") Cases.mirror_into_B ["A"] true
              Cases.world_half_blocked
              [["A"; "a.wav"]] ["A"; "sub"; "x.flac"] [["A"; "z.wav"]]).
    + reflexivity.
    + vm_compute. reflexivity.
    + vm_compute. reflexivity.
    + vm_compute. reflexivity.
  - vm_compute. reflexivity.
Defined.

Lemma main_early_exits_witness :
  main Cases.env_uninstalled (mkArgs "nowhere" None false false false)
       Sample.world
  = (Raise (mkExn RuntimeError ffmpeg_missing), Sample.world) /\
  main (Sample.env "128000") (mkArgs "nowhere" None false false false)
       Sample.world
  = (Return 1%Z,
     mkWorld Sample.fs [] [(Stderr, "Error: Input path does not exist: nowhere")]).
Proof.
  split.
  - apply (proj1 (main_early_exits
                    Cases.env_uninstalled
                    (mkArgs "nowhere" None false false false)
                    Sample.world)).
    reflexivity.
  - apply (proj2 (main_early_exits
                    (Sample.env "128000")
                    (mkArgs "nowhere" None false false false)
                    Sample.world)).
    + discriminate.
    + reflexivity.
Defined.

Lemma main_directory_without_candidates_witness :
  fst (main (Sample.env "128000") (mkArgs "A" None false false false)
            Cases.world_mixed_case) = Return 1%Z.
Proof.
  rewrite (main_directory_without_candidates
             (Sample.env "128000") (mkArgs "A" None false false false)
             Cases.world_mixed_case).
  - reflexivity.
  - discriminate.
  - reflexivity.
  - intros p Hin _. simpl in Hin.
    destruct Hin as [<-|[<-|[<-|[]]]]; reflexivity.
Defined.

Lemma file_mode_output_names_the_file_witness :
  let args := mkArgs "A/y.WAV" (Some "B/new.mp3") false false false in
  let input := PurePath.of_string "A/y.WAV" in
  let self := mkConverter (Some "B/new.mp3") false true in
  let w' := snd (main (Sample.env "128000") args Sample.world) in
  w_spawned w' = w_spawned Sample.world \/
  w_spawned w' = (w_spawned Sample.world ++ [ffprobe_cmd input])%list \/
  (w_spawned w'
   = (w_spawned Sample.world
      ++ [ffmpeg_cmd self input (PurePath.of_string "B/new.mp3")])%list /\
   last (ffmpeg_cmd self input (PurePath.of_string "B/new.mp3")) ""
   = PurePath.str (PurePath.of_string "B/new.mp3")).
Proof.
  apply (file_mode_output_names_the_file
           (Sample.env "128000")
           (mkArgs "A/y.WAV" (Some "B/new.mp3") false false false)
           "B/new.mp3" Sample.world).
  - discriminate.
  - reflexivity.
  - reflexivity.
Defined.

Lemma in_place_makes_no_directory_witness :
  let result := convert_file (Sample.env "128000") Sample.in_place
                             ["A"; "sub1"; "x.flac"] None Sample.world in
  exists out,
    derive_output_path Sample.in_place ["A"; "sub1"; "x.flac"] None
                       Sample.world = (Return out, Sample.world) /\
    PurePath.parent out = PurePath.parent ["A"; "sub1"; "x.flac"] /\
    Fs.mkdir_parents Sample.fs (PurePath.parent out) = inr Sample.fs /\
    (w_fs (snd result) = Sample.fs \/
     w_fs (snd result)
     = snd (run (Sample.env "128000")
                (ffprobe_cmd ["A"; "sub1"; "x.flac"]) Sample.fs) \/
     w_fs (snd result)
     = snd (run (Sample.env "128000")
                (ffmpeg_cmd Sample.in_place ["A"; "sub1"; "x.flac"] out)
                Sample.fs)).
Proof.
  exact (in_place_makes_no_directory
           (Sample.env "128000") Sample.in_place
           ["A"; "sub1"; "x.flac"] None Sample.world
           eq_refl (or_introl eq_refl) eq_refl eq_refl eq_refl eq_refl).
Defined.

(* ================================================================== *)
(** * The exit status *)
(* ================================================================== *)

Section ExitCode.

Import PurePath PathFacts PathOrder.

Variable env : Env.

Lemma no_candidates_no_matches (glob : string -> list Path)
      (recursive : bool) :
  candidate_files glob SUPPORTED_FORMATS recursive = [] ->
  collect_audio_files glob SUPPORTED_FORMATS (glob_pattern recursive) = [].
Proof.
  intro H.
  destruct (collect_audio_files glob SUPPORTED_FORMATS
                                (glob_pattern recursive))
    as [|a l] eqn:E; [reflexivity|].
  exfalso.
  assert (Hin : In a (candidate_files glob SUPPORTED_FORMATS recursive)).
  { unfold candidate_files.
    apply (proj2 (proj2 (sorted_set_spec _)) a). rewrite E. now left. }
  rewrite H in Hin. contradiction.
Qed.

(** C8, as amended.  With the transcoder installed, [main] hands
    [sys.exit] the status 0 exactly when every result it obtained is a
    success, and 1 as soon as one result is a failure or a skip.  In
    file mode the one result of [convert_file] counts, and the status
    is reached only if the result line can be written to standard
    output: otherwise [main] raises [UnicodeEncodeError] in place of
    exiting with the status of the result.  In directory mode the
    results of [convert_directory] count: one for each candidate when
    there are candidates, and the single failure "No audio files
    found" when there are none, so that a directory without audio
    files gives the status 1.  When the input path does not exist the
    status is 1. *)
Theorem main_exit_status (args : Args) (w : World) :
  nonempty (which env "ffmpeg") <> None ->
  let input_path := of_string (arg_input args) in
  let converter := mkConverter (arg_output args) (arg_overwrite args)
                               (negb (arg_no_structure args)) in
  let recursive := negb (arg_no_recursive args) in
  let files := candidate_files (Fs.glob (w_fs w) input_path)
                               SUPPORTED_FORMATS recursive in
  (Fs.is_file (w_fs w) input_path = true ->
   forall r w1,
     convert_file env converter input_path
                  (option_map of_string (nonempty (arg_output args))) w
     = (Return r, w1) ->
     (can_print env Stdout (snd r) = true ->
      exists status,
        fst (main env args w) = Return status /\
        (status = 0%Z <-> fst r = true) /\
        (status = 1%Z <-> fst r = false)) /\
     (can_print env Stdout (snd r) = false ->
      exists e,
        fst (main env args w) = Raise e /\
        exn_class e = UnicodeEncodeError)) /\
  (Fs.is_file (w_fs w) input_path = false ->
   Fs.is_dir (w_fs w) input_path = true ->
   forall results w1,
     convert_directory env converter input_path recursive w
     = (Return results, w1) ->
     exists status,
       fst (main env args w) = Return status /\
       (status = 0%Z <-> Forall (fun r => fst r = true) results) /\
       (status = 1%Z <-> Exists (fun r => fst r = false) results) /\
       (files <> [] -> List.length results = List.length files) /\
       (files = [] -> status = 1%Z)) /\
  (Fs.exists_ (w_fs w) input_path = false ->
   fst (main env args w) = Return 1%Z).
Proof.
  intros Hff input_path converter recursive files.
  split; [|split].
  - intros Hfile r w1 Hrun.
    assert (Hmain : main env args w
                    = (print env (snd r) ;;;
                       ret (if fst r then 0%Z else 1%Z)) w1).
    { unfold main, bind at 1. rewrite new_converter_found by assumption.
      unfold bind at 1, path_is_file at 1. fold input_path.
      rewrite Hfile. cbv beta iota.
      unfold bind at 1. fold converter. now rewrite Hrun. }
    rewrite Hmain. unfold bind. split; intro Hp.
    + unfold print. rewrite (print_to_written env _ _ _ Hp).
      exists (if fst r then 0%Z else 1%Z). split; [reflexivity|].
      destruct (fst r); split; split; congruence.
    + rewrite (print_refused env _ _ Hp).
      eexists. split; reflexivity.
  - intros Hfile Hdir results w1 Hrun.
    exists (if (List.length results - List.length (filter fst results)
                =? 0)%nat then 0%Z else 1%Z).
    split; [|split; [|split; [|split]]].
    + unfold main, bind. rewrite new_converter_found by assumption.
      unfold path_is_file at 1. fold input_path. rewrite Hfile.
      unfold path_is_dir at 1. simpl w_fs. rewrite Hdir.
      fold converter. fold recursive. rewrite Hrun.
      now rewrite print_summary_written.
    + destruct (Nat.eqb_spec
                  (List.length results - List.length (filter fst results))
                  0) as [E|E].
      * apply none_failed_iff in E. split; intro H;
          [assumption | reflexivity].
      * split; intro H; [discriminate|].
        exfalso. apply E. now apply none_failed_iff.
    + destruct (Nat.eqb_spec
                  (List.length results - List.length (filter fst results))
                  0) as [E|E].
      * apply none_failed_iff in E. split; intro H; [discriminate|].
        apply not_all_iff_some_failed in H. contradiction.
      * split; intro H; [|reflexivity].
        apply not_all_iff_some_failed.
        intro Hall. apply E. now apply none_failed_iff.
    + intro Hsome.
      assert (Hmatches : collect_audio_files
                           (Fs.glob (w_fs w) input_path) SUPPORTED_FORMATS
                           (glob_pattern recursive) <> []).
      { intro E. apply Hsome. unfold files, candidate_files.
        now rewrite E. }
      rewrite (convert_directory_walks_candidates
                 env converter input_path recursive w Hdir Hmatches)
        in Hrun.
      cbv zeta in Hrun. unfold bind at 1 in Hrun.
      rewrite (print_ascii env _ w (announcement_ascii _)) in Hrun.
      exact (convert_each_length _ _ _ _ _ _ _ _ _ _ Hrun).
    + intro Hnone.
      rewrite (convert_directory_no_matches
                 env converter input_path recursive w Hdir
                 (no_candidates_no_matches _ _ Hnone)) in Hrun.
      inversion Hrun; subst. reflexivity.
  - intro Hmissing.
    assert (Hkind : Fs.kind_of (w_fs w) input_path = None).
    { unfold Fs.exists_ in Hmissing.
      destruct (Fs.kind_of (w_fs w) input_path); [discriminate|].
      reflexivity. }
    unfold main, bind. rewrite new_converter_found by assumption.
    unfold path_is_file at 1, Fs.is_file. fold input_path.
    rewrite Hkind.
    unfold path_is_dir at 1, Fs.is_dir. simpl w_fs. rewrite Hkind.
    reflexivity.
Qed.

End ExitCode.

Lemma main_exit_status_witness :
  fst (main (Sample.env "128000")
            (mkArgs "A" (Some "B") false false false) Sample.world_pair)
  = Return 0%Z /\
  fst (main (Sample.env "128000")
            (mkArgs "A" None false false false) Sample.world)
  = Return 1%Z /\
  fst (main (Sample.env "128000")
            (mkArgs "A/sub1/x.flac" None false false false) Sample.world)
  = Return 0%Z /\
  (exists e,
      fst (main Cases.env_ascii_console
                (mkArgs "A/sub1/x.flac" None false false false)
                Sample.world) = Raise e /\
      exn_class e = UnicodeEncodeError) /\
  fst (main (Sample.env "128000")
            (mkArgs "A/gone" None false false false) Sample.world)
  = Return 1%Z.
Proof.
  assert (Hff : nonempty (which (Sample.env "128000") "ffmpeg") <> None)
    by discriminate.
  assert (Hff' : nonempty (which Cases.env_ascii_console "ffmpeg") <> None)
    by discriminate.
  split; [|split; [|split; [|split]]].
  - eassert (Hdir : convert_directory
                      (Sample.env "128000")
                      (mkConverter (Some "B") false true) ["A"] true
                      Sample.world_pair = (Return _, _))
      by (vm_compute; reflexivity).
    destruct (proj1 (proj2 (main_exit_status
                              (Sample.env "128000")
                              (mkArgs "A" (Some "B") false false false)
                              Sample.world_pair Hff))
                    eq_refl eq_refl _ _ Hdir)
      as [status [Hrun [Hzero _]]].
    rewrite Hrun. f_equal. apply Hzero. repeat constructor.
  - eassert (Hdir : convert_directory
                      (Sample.env "128000")
                      (mkConverter None false true) ["A"] true
                      Sample.world = (Return _, _))
      by (vm_compute; reflexivity).
    destruct (proj1 (proj2 (main_exit_status
                              (Sample.env "128000")
                              (mkArgs "A" None false false false)
                              Sample.world Hff))
                    eq_refl eq_refl _ _ Hdir)
      as [status [Hrun [_ [Hone _]]]].
    rewrite Hrun. f_equal. apply Hone.
    apply Exists_cons_hd. reflexivity.
  - eassert (Hfile : convert_file
                       (Sample.env "128000")
                       (mkConverter None false true)
                       ["A"; "sub1"; "x.flac"] None
                       Sample.world = (Return _, _))
      by (vm_compute; reflexivity).
    destruct (proj1 (proj1 (main_exit_status
                              (Sample.env "128000")
                              (mkArgs "A/sub1/x.flac" None false false
                                      false)
                              Sample.world Hff)
                           eq_refl _ _ Hfile)
                    eq_refl) as [status [Hrun [Hzero _]]].
    rewrite Hrun. f_equal. now apply Hzero.
  - eassert (Hfile : convert_file
                       Cases.env_ascii_console
                       (mkConverter None false true)
                       ["A"; "sub1"; "x.flac"] None
                       Sample.world = (Return _, _))
      by (vm_compute; reflexivity).
    exact (proj2 (proj1 (main_exit_status
                           Cases.env_ascii_console
                           (mkArgs "A/sub1/x.flac" None false false false)
                           Sample.world Hff')
                        eq_refl _ _ Hfile)
                 eq_refl).
  - exact (proj2 (proj2 (main_exit_status
                           (Sample.env "128000")
                           (mkArgs "A/gone" None false false false)
                           Sample.world Hff))
                 eq_refl).
Defined.

(** C8, as stated, fails in two ways.  On a console that encodes ASCII
    only, the one file that is processed is converted with success,
    yet [main] never reaches [sys.exit(0)]: printing the result line,
    which holds an arrow, raises [UnicodeEncodeError].  And for a
    directory without candidates no file is processed, none fails and
    none is skipped, yet the status is 1. *)
Lemma main_exit_status_counterexample :
  (fst (convert_file Cases.env_ascii_console
                     (mkConverter None false true)
                     ["A"; "sub1"; "x.flac"] None Sample.world)
   = Return (true, "Converted: x.flac → x.mp3") /\
   exists e,
     fst (main Cases.env_ascii_console
               (mkArgs "A/sub1/x.flac" None false false false)
               Sample.world) = Raise e /\
     exn_class e = UnicodeEncodeError) /\
  (candidate_files (Fs.glob Cases.fs_mixed_case ["A"])
                   SUPPORTED_FORMATS true = [] /\
   fst (main (Sample.env "128000")
             (mkArgs "A" None false false false) Cases.world_mixed_case)
   = Return 1%Z).
Proof.
  split; [split; [vm_compute; reflexivity|]
         | split; vm_compute; reflexivity].
  eexists. split; vm_compute; reflexivity.
Qed.

